(** * consulta_api: harvesting pipeline of the Mercado Publico client

    Shallow embedding of [src/consulta_api.py] and the properties of its
    two phases (discovery, fetch), of the retry loop, of the row projection
    and of the batch sink.

    Conventions of the embedding.
    - A decoded JSON document is a [value]; Python's [dict] is an association
      list in insertion order, looked up by its first binding.
    - Code that can raise returns a [resultado]; code with no raising
      operation is a plain function.
    - Everything observable other than the return value (requests, sleeps)
      is recorded as a list of [evento]; the output file is part of the
      state of the fetch phase.
    - The service is a function from a request and the number of the
      attempt to the outcome of that attempt; a thread pool is the order in
      which its tasks complete, since the tasks share no state and every
      merge happens in the thread that collects the futures.
    - The sessions of the worker threads are numbered in the order of their
      creation; a call of one of the two session helpers is one step, the
      list of sessions being touched only under its lock.
    - The logger and the progress display are collaborators outside the
      pipeline and are not modelled; the configuration they and the sleeps
      read is taken to be sound (a progress interval that is not zero,
      durations that are not negative).
    - Writing a row to the file and rendering the spreadsheet are library
      operations that can raise: the class [Biblioteca] says which rows the
      writer can encode and which tables the renderer accepts. A [flush]
      that meets a row it cannot encode has written the rows before it and
      raises, with the batch uncleared.
    - JSON numbers are integers here; nothing below depends on more than
      their truth value and their equality. A string is a sequence of
      characters, a date its proleptic ordinal; stepping past the last day
      of the calendar ([fecha_maxima], 31 December 9999) raises. *)

From Stdlib Require Import ZArith String List Permutation Lia.
From stdpp Require Import prelude gmap strings.
From Equations Require Import Equations.

Local Open Scope string_scope.
Local Open Scope Z_scope.
Local Open Scope list_scope.

Set Warnings "-register-all".

(** ** Python values *)

Inductive value : Type :=
| VNone
| VBool (b : bool)
| VInt (z : Z)
| VStr (s : string)
| VList (l : list value)
| VDict (d : list (string * value)).

Inductive excepcion : Type :=
| AttributeError
| TypeError
| IndexError
| KeyError
| OverflowError
| UnicodeEncodeError.

Inductive resultado (A : Type) : Type :=
| Ok (a : A)
| Raise (e : excepcion).

Arguments Ok {A} a.
Arguments Raise {A} e.

#[global] Instance resultado_ret : MRet resultado := fun A a => Ok a.
#[global] Instance resultado_bind : MBind resultado := fun A B f m =>
  match m with
  | Ok a => f a
  | Raise e => Raise e
  end.
#[global] Instance resultado_fmap : FMap resultado := fun A B f m =>
  match m with
  | Ok a => Ok (f a)
  | Raise e => Raise e
  end.

(** [bool(v)] *)
Definition truthy (v : value) : bool :=
  match v with
  | VNone => false
  | VBool b => b
  | VInt z => negb (Z.eqb z 0)
  | VStr s => negb (String.eqb s "")
  | VList l => match l with [] => false | _ :: _ => true end
  | VDict d => match d with [] => false | _ :: _ => true end
  end.

(** [a or b] *)
Definition py_or (a b : value) : value := if truthy a then a else b.

(** [k in d] and [d[k]] on a dict *)
Fixpoint dict_get (d : list (string * value)) (k : string) : option value :=
  match d with
  | [] => None
  | (k', v) :: resto => if String.eqb k' k then Some v else dict_get resto k
  end.

(** [x.get(k, default)]: only a dict has the attribute [get]. *)
Definition py_get (x : value) (k : string) (default : value) : resultado value :=
  match x with
  | VDict d => Ok (match dict_get d k with Some v => v | None => default end)
  | _ => Raise AttributeError
  end.

(** [x[0]] *)
Definition py_primero (x : value) : resultado value :=
  match x with
  | VList (e :: _) => Ok e
  | VList [] => Raise IndexError
  | VStr (String c _) => Ok (VStr (String c ""))
  | VStr "" => Raise IndexError
  | VDict _ => Raise KeyError
  | VNone | VBool _ | VInt _ => Raise TypeError
  end.

(** [for e in x]: the elements a [for] loop visits. *)
Fixpoint caracteres (s : string) : list value :=
  match s with
  | "" => []
  | String c resto => VStr (String c "") :: caracteres resto
  end.

Definition py_iter (x : value) : resultado (list value) :=
  match x with
  | VList l => Ok l
  | VDict d => Ok (map (fun kv => VStr (fst kv)) d)
  | VStr s => Ok (caracteres s)
  | VNone | VBool _ | VInt _ => Raise TypeError
  end.

(** Calendar dates are proleptic ordinals; [<] and [>] on [date] are those
    of the ordinals and adding one day adds one. *)
Definition date : Type := Z.

Definition COLUMNAS : list string :=
  [ "Código OC"; "Nombre"; "Código Estado"; "Descripción";
    "Código Licitación"; "Tipo"; "Moneda"; "Fecha Creación";
    "Fecha Envío"; "Fecha Aceptación"; "Total"; "Total Neto";
    "Proveedor"; "Rut Proveedor"; "Unidad Compradora"; "Nombre Organismo";
    "Contacto Comprador"; "Fuente Financiamiento"; "Codigo categoria";
    "Categoría"; "Codigo producto" ].

Definition ORGANISMOS : list string :=
  [ "1675210"; "1820906"; "1820922"; "1723291"; "1622793"; "1593366";
    "1722523"; "1593370"; "1675231"; "1890634"; "1890637"; "1890640";
    "1890619"; "1717135"; "1820918"; "1820915"; "1675218"; "1890597";
    "1622818"; "1890653"; "1717137"; "1975701"; "1820914"; "1820911";
    "1890644"; "1890625"; "1890618"; "1890635"; "1959810"; "1959820";
    "1959828"; "1959831"; "1959829"; "1959833"; "1972213"; "1959834";
    "1959832"; "1959836"; "7271" ].

(** A row is the dict built by [construir_fila_oc], in insertion order. *)
Definition fila : Type := list (string * value).

(** [fila.setdefault(columna, v)] *)
Definition setdefault (f : fila) (columna : string) (v : value) : fila :=
  match dict_get f columna with
  | Some _ => f
  | None => f ++ [(columna, v)]
  end.

(** ** Row projection *)

(** Library functions the pipeline calls: [dateutil.parser.parse(s).date()]
    on a string ([None] when it raises ValueError or OverflowError),
    [date.strftime("%d-%m-%Y")] and the builtin [str] on values that are
    not strings; whether [csv.DictWriter] and the UTF-8 encoder of the file
    write a row (writing a row that holds a lone surrogate raises
    UnicodeEncodeError); whether [generar_excel_desde_csv] returns on a
    table with the given rows (it raises otherwise, as openpyxl does on a
    control character). *)
Class Biblioteca : Type := {
  dateutil_parse : string -> option date;
  strftime : date -> string;
  py_str : value -> string;
  csv_escribible : fila -> bool;
  generar_excel_desde_csv : list fila -> bool
}.

Section Proyeccion.

Context {bib : Biblioteca}.

(** [str(v)]: a string is its own [str]. *)
Definition str_de (v : value) : string :=
  match v with
  | VStr s => s
  | _ => py_str v
  end.

(** On anything that is neither a string nor a stream dateutil raises
    TypeError, which [parse_fecha_json] catches like the other two. *)
Definition parse_fecha_json (valor : value) : option date :=
  if negb (truthy valor) then None
  else match valor with
       | VStr s => dateutil_parse s
       | _ => None
       end.

Definition formatear_fecha_salida (valor : value) : string :=
  match parse_fecha_json valor with
  | Some fecha => strftime fecha
  | None => ""
  end.

Fixpoint safe_get (data : value) (keys : list string) : value :=
  match keys with
  | [] => match data with VNone => VStr "" | _ => data end
  | key :: resto =>
      match data with
      | VDict d =>
          match dict_get d key with
          | Some actual => safe_get actual resto
          | None => VStr ""
          end
      | _ => VStr ""
      end
  end.

(** [for campo in campos: resultado = valor.get(campo); if resultado: return ...] *)
Fixpoint primer_campo (d : list (string * value)) (campos : list string) : option value :=
  match campos with
  | [] => None
  | campo :: resto =>
      match dict_get d campo with
      | Some resultado => if truthy resultado then Some resultado else primer_campo d resto
      | None => primer_campo d resto
      end
  end.

Definition campos_texto : list string :=
  ["Nombre"; "Descripcion"; "DescripcionLarga"; "DescripcionCorta"; "Glosa"; "Valor"; "Codigo"].

Definition campos_moneda : list string :=
  ["Nombre"; "Descripcion"; "DescripcionMoneda"; "Codigo"; "CodigoMoneda"; "Moneda"].

Fixpoint normalizar_texto (valor : value) : string :=
  match valor with
  | VList l =>
      (fix recorrer (l : list value) : string :=
         match l with
         | [] => ""
         | elemento :: resto =>
             let resultado := normalizar_texto elemento in
             if String.eqb resultado "" then recorrer resto else resultado
         end) l
  | VDict d =>
      match primer_campo d campos_texto with
      | Some resultado => str_de resultado
      | None => ""
      end
  | VNone => ""
  | _ => str_de valor
  end.

Fixpoint normalizar_moneda (valor : value) : value :=
  match valor with
  | VList l =>
      (fix recorrer (l : list value) : value :=
         match l with
         | [] => VStr ""
         | elemento :: resto =>
             let resultado := normalizar_moneda elemento in
             if truthy resultado then resultado else recorrer resto
         end) l
  | VDict d =>
      match primer_campo d campos_moneda with
      | Some resultado => resultado
      | None => VStr ""
      end
  | _ => py_or valor (VStr "")
  end.

Definition obtener_moneda (oc primer_item : value) : resultado value :=
  m ← py_get oc "Moneda" VNone;
  let moneda := normalizar_moneda m in
  if truthy moneda then Ok moneda
  else if truthy primer_item then
    pm ← py_get primer_item "Moneda" VNone;
    Ok (normalizar_moneda pm)
  else Ok (VStr "").

Definition obtener_fuente_financiamiento (oc : value) : resultado string :=
  f1 ← py_get oc "FuenteFinanciamiento" VNone;
  let fuente := normalizar_texto f1 in
  if negb (String.eqb fuente "") then Ok fuente
  else
    f2 ← py_get oc "Financiamiento" VNone;
    let fuente := normalizar_texto f2 in
    if negb (String.eqb fuente "") then Ok fuente
    else Ok (normalizar_texto (safe_get oc ["Comprador"; "FuenteFinanciamiento"])).

Definition obtener_rut_proveedor (oc : value) : string :=
  let rut := normalizar_texto (safe_get oc ["Proveedor"; "RutProveedor"]) in
  if negb (String.eqb rut "") then rut
  else normalizar_texto (safe_get oc ["Proveedor"; "RutSucursal"]).

(** [primer_item.get(campo, "") if primer_item else ""] *)
Definition campo_item (primer_item : value) (campo : string) : resultado value :=
  if truthy primer_item then py_get primer_item campo (VStr "") else Ok (VStr "").

(** The first lines of [construir_fila_oc]: the first line item. *)
Definition primer_item_de (oc : value) : resultado value :=
  i ← py_get oc "Items" VNone;
  let items := py_or i (VDict []) in
  listado_items ←
    match items with
    | VDict _ =>
        l ← py_get items "Listado" VNone;
        if truthy l then Ok l
        else it ← py_get items "Item" VNone; Ok (py_or it (VList []))
    | _ => Ok (py_or items (VList []))
    end;
  let listado_items :=
    match listado_items with
    | VDict _ => VList [listado_items]
    | _ => listado_items
    end in
  if truthy listado_items then py_primero listado_items else Ok (VDict []).

Definition construir_fila_oc (oc : value) : resultado fila :=
  f ← py_get oc "Fechas" VNone;
  let fechas := py_or f (VDict []) in
  primer_item ← primer_item_de oc;
  c01 ← py_get oc "Codigo" (VStr "");
  c02 ← py_get oc "Nombre" (VStr "");
  c03 ← py_get oc "CodigoEstado" (VStr "");
  c04 ← py_get oc "Descripcion" (VStr "");
  c05 ← py_get oc "CodigoLicitacion" (VStr "");
  c06 ← py_get oc "Tipo" (VStr "");
  c07 ← obtener_moneda oc primer_item;
  f08 ← py_get fechas "FechaCreacion" VNone;
  f09 ← py_get fechas "FechaEnvio" VNone;
  f10 ← py_get fechas "FechaAceptacion" VNone;
  c11 ← py_get oc "Total" (VStr "");
  c12 ← py_get oc "TotalNeto" (VStr "");
  c18 ← obtener_fuente_financiamiento oc;
  c19 ← campo_item primer_item "CodigoCategoria";
  c20 ← campo_item primer_item "Categoria";
  c21 ← campo_item primer_item "CodigoProducto";
  let fila : fila :=
    [ ("Código OC", c01);
      ("Nombre", c02);
      ("Código Estado", c03);
      ("Descripción", c04);
      ("Código Licitación", c05);
      ("Tipo", c06);
      ("Moneda", c07);
      ("Fecha Creación", VStr (formatear_fecha_salida f08));
      ("Fecha Envío", VStr (formatear_fecha_salida f09));
      ("Fecha Aceptación", VStr (formatear_fecha_salida f10));
      ("Total", c11);
      ("Total Neto", c12);
      ("Proveedor", safe_get oc ["Proveedor"; "Nombre"]);
      ("Rut Proveedor", VStr (obtener_rut_proveedor oc));
      ("Unidad Compradora", safe_get oc ["Comprador"; "NombreUnidad"]);
      ("Nombre Organismo", safe_get oc ["Comprador"; "NombreOrganismo"]);
      ("Contacto Comprador", safe_get oc ["Comprador"; "Nombre"]);
      ("Fuente Financiamiento", VStr c18);
      ("Codigo categoria", c19);
      ("Categoría", c20);
      ("Codigo producto", c21) ] in
  Ok (fold_left (fun fila columna => setdefault fila columna (VStr "")) COLUMNAS fila).

End Proyeccion.

(** ** Requests and the retry loop *)

(** The query of a request: a listing request carries the day and the
    organisation, a detail request the identifier (the ticket is the same
    in every request of a run). *)
Inductive peticion : Type :=
| PListado (dia : date) (organismo : string)
| PDetalle (codigo : value).

(** What the pipeline reads of a response: the status code and the decoded
    body, [None] when [response.json()] raises ValueError. *)
Record response : Type := { status_code : Z; json : option value }.

(** One call of [session.get]: a response, or a [requests.RequestException]. *)
Inductive intento : Type :=
| Responde (r : response)
| RequestException.

(** What a thread does besides computing: [session.get(BASE_URL, params)],
    [time.sleep(wait)] of the retry loop, [time.sleep(args.sleep)] of
    discovery and [time.sleep(pausa)] of fetch. *)
Inductive evento : Type :=
| EvGet (params : peticion)
| EvEspera (wait : Z)
| EvPausaListado
| EvPausaDetalle.

(** The service, as a run sees it: the outcome of each attempt of each
    request. *)
Definition servicio : Type := peticion -> nat -> intento.

Definition reintentable (status : Z) : bool :=
  Z.eqb status 429 || (Z.leb 500 status && Z.ltb status 600).

(** The body of the [try]: [Some r] when the loop returns [r], [None] when
    control falls through to the next attempt. *)
Definition clasificar (i : intento) : option (option response) :=
  match i with
  | Responde r =>
      if Z.eqb (status_code r) 200 then Some (Some r)
      else if reintentable (status_code r) then None
      else Some None
  | RequestException => None
  end.

(** The [while attempt < retries] loop; [wait] starts at 1.0 and doubles. *)
Equations? bucle_reintentos (session : nat -> intento) (params : peticion)
  (retries : Z) (attempt : nat) (wait : Z) : option response * list evento
  by wf (Z.to_nat (retries - Z.of_nat attempt)) lt :=
bucle_reintentos session params retries attempt wait :=
  match decide (Z.of_nat attempt < retries) with
  | right _ => (None, [])
  | left _ =>
      match clasificar (session attempt) with
      | Some r => (r, [EvGet params])
      | None =>
          let sigue := bucle_reintentos session params retries (S attempt) (wait * 2) in
          (fst sigue, EvGet params :: EvEspera wait :: snd sigue)
      end
  end.
Proof. lia. Qed.

Definition request_with_retries (session : nat -> intento) (params : peticion)
  (retries : Z) : option response * list evento :=
  bucle_reintentos session params retries 0 1.

(** Number of calls of [session.get] in a trace. *)
Definition es_get (e : evento) : bool :=
  match e with EvGet _ => true | _ => false end.

Definition intentos (t : list evento) : nat := length (filter es_get t).

(** The trace of [k] failed attempts whose first wait is [wait]. *)
Definition traza_fallos (params : peticion) (wait : Z) (k : nat) : list evento :=
  flat_map (fun i => [EvGet params; EvEspera (wait * 2 ^ Z.of_nat i)]) (seq 0 k).

(** An attempt that fails in a way the loop retries. *)
Definition fallo_reintentable (i : intento) : Prop :=
  match i with
  | Responde r => status_code r = 429 \/ 500 <= status_code r < 600
  | RequestException => True
  end.

(** ** Configuration *)

(** The fields of [args] the two phases read (the sleeps are the two pause
    events, the progress interval belongs to the progress display). *)
Record argumentos : Type := {
  workers : Z;
  retries : Z;
  batch_size : Z
}.

(** [rango_fechas]: the days the generator yields, from [desde] to [hasta],
    both included; none when [hasta < desde]. *)
Definition rango_fechas (desde hasta : date) : list date :=
  map (fun i => desde + Z.of_nat i) (seq 0 (Z.to_nat (hasta - desde + 1))).

(** [date.max], the last day the calendar has (31 December 9999): adding a
    day to it raises OverflowError. *)
Definition fecha_maxima : date := 3652059.

(** [list(rango_fechas(desde, hasta))], from the value [actual] of the
    variable of the generator: the days it yields, unless [actual += delta]
    raises after one of them. *)
Equations? lista_de_fechas (actual hasta : date) : resultado (list date)
  by wf (Z.to_nat (hasta - actual + 1)) lt :=
  lista_de_fechas actual hasta :=
    match decide (actual <= hasta) with
    | left _ =>
        if decide (fecha_maxima < actual + 1) then Raise OverflowError
        else cons actual <$> lista_de_fechas (actual + 1) hasta
    | right _ => Ok []
    end.
Proof. lia. Qed.

(** [[(dia, org) for dia in fechas for org in organismos]], for the days
    of the window. *)
Definition combinaciones_de (organismos : list string) (desde hasta : date)
  : list (date * string) :=
  flat_map (fun dia => map (fun org => (dia, org)) organismos) (rango_fechas desde hasta).

(** A [for] loop whose body can raise. *)
Fixpoint para_cada {S A : Type} (cuerpo : S -> A -> resultado S) (l : list A) (s : S)
  : resultado S :=
  match l with
  | [] => Ok s
  | x :: resto => s' ← cuerpo s x; para_cada cuerpo resto s'
  end.

(** The scheduler of a thread pool: the order in which the submitted tasks
    of each phase complete. *)
Record planificador : Type := {
  completadas_listado : list (date * string) -> list (date * string);
  completadas_detalle : list value -> list value
}.

(** Every submitted task completes, once. *)
Definition planificador_valido (plan : planificador) : Prop :=
  (forall l, Permutation (completadas_listado plan l) l)
  /\ (forall l, Permutation (completadas_detalle plan l) l).

(** ** Discovery *)

(** What [in vistos] compares: Python's equality of hashable values, under
    which [True == 1]. *)
Inductive clave : Type :=
| KNone
| KNum (z : Z)
| KStr (s : string).

#[global] Instance clave_eq_dec : EqDecision clave.
Proof. solve_decision. Defined.

#[global] Instance clave_countable : Countable clave.
Proof.
  refine (inj_countable'
    (fun k => match k with
              | KNone => inl ()
              | KNum z => inr (inl z)
              | KStr s => inr (inr s)
              end)
    (fun x => match x with
              | inl _ => KNone
              | inr (inl z) => KNum z
              | inr (inr s) => KStr s
              end) _).
  intros []; reflexivity.
Defined.

(** [hash(v)]: lists and dicts are unhashable. *)
Definition clave_de (v : value) : resultado clave :=
  match v with
  | VNone => Ok KNone
  | VBool b => Ok (KNum (if b then 1 else 0))
  | VInt z => Ok (KNum z)
  | VStr s => Ok (KStr s)
  | VList _ | VDict _ => Raise TypeError
  end.

Record descubiertos : Type := {
  vistos : gset clave;
  codigos : list value
}.

(** [if codigo not in vistos: vistos.add(codigo); codigos.append(codigo)] *)
Definition anotar (st : descubiertos) (codigo : value) : resultado descubiertos :=
  k ← clave_de codigo;
  Ok (if decide (k ∈ vistos st) then st
      else {| vistos := vistos st ∪ {[ k ]}; codigos := codigos st ++ [codigo] |}).

(** [registro.get("Codigo") or registro.get("codigo")] *)
Definition codigo_de (registro : value) : resultado value :=
  c ← py_get registro "Codigo" VNone;
  if truthy c then Ok c else py_get registro "codigo" VNone.

(** [payload.get("Listado") or []], as the [for] loop visits it. *)
Definition listado_de (payload : value) : resultado (list value) :=
  l ← py_get payload "Listado" VNone;
  py_iter (py_or l (VList [])).

(** Sequential mode, the body of the loop over [listado]. *)
Definition anotar_registro (st : descubiertos) (registro : value) : resultado descubiertos :=
  codigo ← codigo_de registro;
  if truthy codigo then anotar st codigo else Ok st.

(** Sequential mode, one iteration of the loop over [combinaciones]; the
    [continue]s skip the sleep at the end of the body. *)
Definition iteracion_listado (srv : servicio) (args : argumentos)
  (st : descubiertos) (combinacion : date * string)
  : resultado descubiertos * list evento :=
  let params := PListado (fst combinacion) (snd combinacion) in
  let pedido := request_with_retries (srv params) params (retries args) in
  match fst pedido with
  | None => (Ok st, snd pedido)
  | Some response =>
      match json response with
      | None => (Ok st, snd pedido)
      | Some payload =>
          match listado ← listado_de payload; para_cada anotar_registro listado st with
          | Ok st' => (Ok st', snd pedido ++ [EvPausaListado])
          | Raise e => (Raise e, snd pedido)
          end
      end
  end.

Fixpoint listar_secuencial (srv : servicio) (args : argumentos)
  (combinaciones : list (date * string)) (st : descubiertos)
  : resultado descubiertos * list evento :=
  match combinaciones with
  | [] => (Ok st, [])
  | combinacion :: resto =>
      let paso := iteracion_listado srv args st combinacion in
      match fst paso with
      | Ok st' =>
          let sigue := listar_secuencial srv args resto st' in
          (fst sigue, snd paso ++ snd sigue)
      | Raise e => (Raise e, snd paso)
      end
  end.

(** Concurrent mode, the body of the loop over [listado] in [procesar]. *)
Definition candidato (resultados : list value) (registro : value) : resultado (list value) :=
  codigo ← codigo_de registro;
  Ok (if truthy codigo then resultados ++ [codigo] else resultados).

(** Concurrent mode, the task [procesar]: an exception of the parsing
    escapes before the sleep. *)
Definition procesar_listado (srv : servicio) (args : argumentos)
  (combinacion : date * string) : resultado (list value) * list evento :=
  let params := PListado (fst combinacion) (snd combinacion) in
  let pedido := request_with_retries (srv params) params (retries args) in
  match fst pedido with
  | None => (Ok [], snd pedido ++ [EvPausaListado])
  | Some response =>
      match json response with
      | None => (Ok [], snd pedido ++ [EvPausaListado])
      | Some payload =>
          match listado ← listado_de payload; para_cada candidato listado [] with
          | Ok resultados => (Ok resultados, snd pedido ++ [EvPausaListado])
          | Raise e => (Raise e, snd pedido)
          end
      end
  end.

(** Concurrent mode, the body of the loop over the completed futures:
    an exception of the task is caught, one of the merge is not. *)
Definition fusionar (st : descubiertos) (futuro : resultado (list value))
  : resultado descubiertos :=
  let nuevos := match futuro with Ok nuevos => nuevos | Raise _ => [] end in
  para_cada anotar nuevos st.

Definition listar_concurrente (srv : servicio) (args : argumentos)
  (completadas : list (date * string)) (st : descubiertos)
  : resultado descubiertos * list (list evento) :=
  let futuros := map (procesar_listado srv args) completadas in
  (para_cada fusionar (map fst futuros) st, map snd futuros).

Definition listar_oc_por_rango (srv : servicio) (plan : planificador)
  (organismos : list string) (desde_dt hasta_dt : date) (args : argumentos)
  : resultado (list value) * list (list evento) :=
  let inicio := {| vistos := ∅; codigos := [] |} in
  match lista_de_fechas desde_dt hasta_dt with
  | Raise e => (Raise e, [])
  | Ok fechas =>
      let combinaciones :=
        flat_map (fun dia => map (fun org => (dia, org)) organismos) fechas in
      if Z.leb (workers args) 1 then
        let fin := listar_secuencial srv args combinaciones inicio in
        (codigos <$> fst fin, [snd fin])
      else
        let fin :=
          listar_concurrente srv args (completadas_listado plan combinaciones) inicio in
        (codigos <$> fst fin, snd fin)
  end.

(** ** Batch sink *)

(** The output file is the sequence of the blocks appended to it, one per
    [open("a")]; [None] when no file exists at the path. *)
Inductive linea : Type :=
| Cabecera (columnas : list string)
| Registro (f : fila).

Definition tabla : Type := list (list linea).

(** The variables [flush] shares with its caller, and the file. *)
Record sumidero : Type := {
  escribir_header : bool;
  filas_batch : list fila;
  escritos : nat;
  archivo : option tabla
}.

(** The sink when every write succeeds: the variables and the file after a
    [flush()] that wrote every row of its batch, and after
    [filas_batch.append(fila)] followed, on a full batch, by such a flush. *)
Definition volcar (s : sumidero) : sumidero :=
  match filas_batch s with
  | [] => s
  | _ :: _ =>
      let cabecera := if escribir_header s then [Cabecera COLUMNAS] else [] in
      {| escribir_header := false;
         filas_batch := [];
         escritos := (escritos s + length (filas_batch s))%nat;
         archivo := Some (default [] (archivo s) ++ [cabecera ++ map Registro (filas_batch s)]) |}
  end.

Definition anexar (args : argumentos) (s : sumidero) (f : fila) : sumidero :=
  let s' := {| escribir_header := escribir_header s;
               filas_batch := filas_batch s ++ [f];
               escritos := escritos s;
               archivo := archivo s |} in
  if Z.geb (Z.of_nat (length (filas_batch s'))) (batch_size args) then volcar s' else s'.

(** The first lines of [descargar_detalle_y_escribir]: the variables of
    the sink, and the file at the path removed if there was one. *)
Definition sumidero_inicial (previo : option tabla) : sumidero :=
  {| escribir_header := true;
     filas_batch := [];
     escritos := 0;
     archivo := match previo with Some _ => None | None => previo end |}.

(** The rows of a table, in file order. *)
Definition filas_de_lineas (lineas : list linea) : list fila :=
  flat_map (fun l => match l with Registro f => [f] | Cabecera _ => [] end) lineas.

Definition filas_de (t : option tabla) : list fila :=
  filas_de_lineas (concat (default [] t)).

Section Sumidero.

Context {bib : Biblioteca}.

(** [writer.writerows(filas_batch)] writes the rows one by one: the rows
    written before the first one that cannot be. *)
Fixpoint escritas_antes (filas : list fila) : list fila :=
  match filas with
  | [] => []
  | f :: resto => if csv_escribible f then f :: escritas_antes resto else []
  end.

(** [flush()]: nothing on an empty batch; otherwise the file is opened for
    appending, the header is written if it has not been, and the rows are
    written. A row that cannot be written raises: the block then holds the
    rows before it, and [escritos] and [filas_batch] keep their values. *)
Definition flush (s : sumidero) : sumidero * option excepcion :=
  match filas_batch s with
  | [] => (s, None)
  | _ :: _ =>
      let cabecera := if escribir_header s then [Cabecera COLUMNAS] else [] in
      let bloque := cabecera ++ map Registro (escritas_antes (filas_batch s)) in
      if forallb csv_escribible (filas_batch s) then
        ({| escribir_header := false;
            filas_batch := [];
            escritos := (escritos s + length (filas_batch s))%nat;
            archivo := Some (default [] (archivo s) ++ [bloque]) |}, None)
      else
        ({| escribir_header := false;
            filas_batch := filas_batch s;
            escritos := escritos s;
            archivo := Some (default [] (archivo s) ++ [bloque]) |},
         Some UnicodeEncodeError)
  end.

(** [filas_batch.append(fila); if len(filas_batch) >= args.batch_size: flush()] *)
Definition acumular (args : argumentos) (s : sumidero) (f : fila)
  : sumidero * option excepcion :=
  let s' := {| escribir_header := escribir_header s;
               filas_batch := filas_batch s ++ [f];
               escritos := escritos s;
               archivo := archivo s |} in
  if Z.geb (Z.of_nat (length (filas_batch s'))) (batch_size args) then flush s'
  else (s', None).

End Sumidero.

(** ** Fetch *)

Section Descarga.

Context {bib : Biblioteca}.

(** [payload.get("Listado") or []] with a single record wrapped in a list,
    and its first element; [None] when the list is empty. *)
Definition primer_registro (payload : value) : resultado (option value) :=
  l ← py_get payload "Listado" VNone;
  let listado := py_or l (VList []) in
  let listado := match listado with VDict _ => VList [listado] | _ => listado end in
  if negb (truthy listado) then Ok None
  else Some <$> py_primero listado.

(** The creation date the validity filter reads. *)
Definition fecha_creacion_de (oc : value) : option date :=
  parse_fecha_json (safe_get oc ["Fechas"; "FechaCreacion"]).

(** The validity filter, then the projection of the record that passes. *)
Definition fila_si_vigente (desde_dt hasta_dt : date) (oc : value)
  : resultado (option fila) :=
  match fecha_creacion_de oc with
  | None => Ok None
  | Some fecha_creacion =>
      if Z.ltb fecha_creacion desde_dt || Z.gtb fecha_creacion hasta_dt then Ok None
      else Some <$> construir_fila_oc oc
  end.

(** From the payload of a detail response to the accepted row, [None] for
    the record the loop skips; the two modes repeat these lines. *)
Definition detalle_a_fila (desde_dt hasta_dt : date) (payload : value)
  : resultado (option fila) :=
  oc ← primer_registro payload;
  match oc with
  | None => Ok None
  | Some oc => fila_si_vigente desde_dt hasta_dt oc
  end.

(** Sequential mode, one iteration of the loop over [codigos]: the sink
    after it, the exception that left it, if one did, and its trace; the
    [continue]s skip the sleep at the end of the body. *)
Definition iteracion_detalle (srv : servicio) (args : argumentos)
  (desde_dt hasta_dt : date) (s : sumidero) (codigo : value)
  : sumidero * option excepcion * list evento :=
  let params := PDetalle codigo in
  let pedido := request_with_retries (srv params) params (retries args) in
  match fst pedido with
  | None => (s, None, snd pedido)
  | Some response =>
      match json response with
      | None => (s, None, snd pedido)
      | Some payload =>
          match detalle_a_fila desde_dt hasta_dt payload with
          | Ok None => (s, None, snd pedido)
          | Ok (Some f) =>
              match acumular args s f with
              | (s', None) => (s', None, snd pedido ++ [EvPausaDetalle])
              | (s', Some e) => (s', Some e, snd pedido)
              end
          | Raise e => (s, Some e, snd pedido)
          end
      end
  end.

(** How a phase ends: the sink at its last statement, and the exception
    that escaped it, if one did. *)
Record fin_descarga : Type := {
  sumidero_final : sumidero;
  escapada : option excepcion;
  trazas : list (list evento)
}.

Fixpoint descargar_secuencial (srv : servicio) (args : argumentos)
  (desde_dt hasta_dt : date) (codigos : list value) (s : sumidero)
  : sumidero * option excepcion * list evento :=
  match codigos with
  | [] => (s, None, [])
  | codigo :: resto =>
      match iteracion_detalle srv args desde_dt hasta_dt s codigo with
      | (s', None, t) =>
          let '(fin, e, t') := descargar_secuencial srv args desde_dt hasta_dt resto s' in
          (fin, e, t ++ t')
      | (s', Some e, t) => (s', Some e, t)
      end
  end.

(** Concurrent mode, the task [procesar]: the sleep is in a [finally]. *)
Definition procesar_detalle (srv : servicio) (args : argumentos)
  (desde_dt hasta_dt : date) (codigo : value)
  : resultado (option fila) * list evento :=
  let params := PDetalle codigo in
  let pedido := request_with_retries (srv params) params (retries args) in
  let retorno :=
    match fst pedido with
    | None => Ok None
    | Some response =>
        match json response with
        | None => Ok None
        | Some payload => detalle_a_fila desde_dt hasta_dt payload
        end
    end in
  (retorno, snd pedido ++ [EvPausaDetalle]).

(** Concurrent mode, the body of the loop over the completed futures: an
    exception of the task is caught, one of the sink is not. *)
Definition recoger (args : argumentos) (s : sumidero) (futuro : resultado (option fila))
  : sumidero * option excepcion :=
  let fila := match futuro with Ok fila => fila | Raise _ => None end in
  match fila with
  | Some f => match f with [] => (s, None) | _ :: _ => acumular args s f end
  | None => (s, None)
  end.

(** The loop over the completed futures, left by the first exception. *)
Fixpoint recoger_todos (args : argumentos) (futuros : list (resultado (option fila)))
  (s : sumidero) : sumidero * option excepcion :=
  match futuros with
  | [] => (s, None)
  | futuro :: resto =>
      match recoger args s futuro with
      | (s', None) => recoger_todos args resto s'
      | (s', Some e) => (s', Some e)
      end
  end.

(** The last statements of the phase: the final [flush()]. *)
Definition terminar (s : sumidero) (t : list (list evento)) : fin_descarga :=
  let '(s', e) := flush s in
  {| sumidero_final := s'; escapada := e; trazas := t |}.

Definition descargar_detalle_y_escribir (srv : servicio) (plan : planificador)
  (codigos : list value) (args : argumentos) (desde_dt hasta_dt : date)
  (previo : option tabla) : fin_descarga :=
  let inicio := sumidero_inicial previo in
  if Z.leb (workers args) 1 then
    match descargar_secuencial srv args desde_dt hasta_dt codigos inicio with
    | (s, None, t) => terminar s [t]
    | (s, Some e, t) => {| sumidero_final := s; escapada := Some e; trazas := [t] |}
    end
  else
    let futuros :=
      map (procesar_detalle srv args desde_dt hasta_dt) (completadas_detalle plan codigos) in
    match recoger_todos args (map fst futuros) inicio with
    | (s, None) => terminar s (map snd futuros)
    | (s, Some e) =>
        {| sumidero_final := s; escapada := Some e; trazas := map snd futuros |}
    end.

(** The rows a run accepts, given the order in which it takes its tasks:
    a task that raises or skips its record gives none. *)
Definition fila_de_tarea (futuro : resultado (option fila)) : option fila :=
  match futuro with
  | Ok fila => fila
  | Raise _ => None
  end.

Definition filas_aceptadas (srv : servicio) (args : argumentos)
  (desde_dt hasta_dt : date) (tareas : list value) : list fila :=
  omap (fun codigo =>
          fila_de_tarea (fst (procesar_detalle srv args desde_dt hasta_dt codigo)))
       tareas.

(** The order in which a run takes its tasks. *)
Definition orden_de {A : Type} (completadas : list A -> list A) (args : argumentos)
  (tareas : list A) : list A :=
  if Z.leb (workers args) 1 then tareas else completadas tareas.

(** [main] for a list of organisations: the exit code and the file it
    leaves. The spreadsheet is rendered from that file inside the [try] of
    [main]: when the rendering raises, the exit code is 1. *)
Definition main_con (srv : servicio) (plan : planificador) (organismos : list string)
  (args : argumentos) (desde hasta : date) (previo : option tabla)
  : Z * option tabla :=
  if Z.ltb hasta desde then (1, previo)
  else
    match fst (listar_oc_por_rango srv plan organismos desde hasta args) with
    | Raise _ => (1, previo)
    | Ok codigos =>
        let fin := descargar_detalle_y_escribir srv plan codigos args desde hasta previo in
        match escapada fin with
        | Some _ => (1, archivo (sumidero_final fin))
        | None =>
            match archivo (sumidero_final fin) with
            | Some t =>
                if generar_excel_desde_csv (filas_de (Some t)) then (0, Some t)
                else (1, Some t)
            | None => (0, None)
            end
        end
    end.

Definition main (srv : servicio) (plan : planificador) (args : argumentos)
  (desde hasta : date) (previo : option tabla) : Z * option tabla :=
  main_con srv plan ORGANISMOS args desde hasta previo.

End Descarga.

(** ** Examples: a library instance, services and schedulers *)

(** A library instance for the examples: it reads the three dates the
    examples use (ordinal 738890 is 5 January 2024). *)
Definition biblioteca_ejemplo : Biblioteca := {|
  dateutil_parse := fun s =>
    if String.eqb s "2024-01-04" then Some 738889
    else if String.eqb s "2024-01-05" then Some 738890
    else if String.eqb s "2024-01-06" then Some 738891
    else None;
  strftime := fun d =>
    if Z.eqb d 738889 then "04-01-2024"
    else if Z.eqb d 738890 then "05-01-2024"
    else if Z.eqb d 738891 then "06-01-2024"
    else "";
  py_str := fun v =>
    match v with
    | VNone => "None"
    | VBool true => "True"
    | VBool false => "False"
    | _ => ""
    end;
  csv_escribible := fun _ => true;
  generar_excel_desde_csv := fun _ => true
|}.

Definition responde (status : Z) (cuerpo : option value) : intento :=
  Responde {| status_code := status; json := cuerpo |}.

(** A session whose every attempt is answered 503. *)
Definition siempre_503 : nat -> intento := fun _ => responde 503 None.

(** Completion orders: submission order, and its reverse. *)
Definition en_orden : planificador :=
  {| completadas_listado := fun l => l; completadas_detalle := fun l => l |}.
Definition al_reves : planificador :=
  {| completadas_listado := fun l => rev l; completadas_detalle := fun l => rev l |}.

(** Detail records of the examples: a usual one, one whose [Items] is a
    number, one whose [Fechas] is a string. *)
Definition registro_usual : value :=
  VDict [("Codigo", VStr "A");
         ("Nombre", VStr "Compra");
         ("Fechas", VDict [("FechaCreacion", VStr "2024-01-05")]);
         ("Items", VDict [("Listado", VList [VDict [("Categoria", VStr "Aseo")]])])].

Definition registro_items_escalar : value :=
  VDict [("Codigo", VStr "B");
         ("Fechas", VDict [("FechaCreacion", VStr "2024-01-05")]);
         ("Items", VInt 5)].

Definition registro_fechas_escalar : value :=
  VDict [("Codigo", VStr "C"); ("Fechas", VStr "2024-01-05")].

(** A value the projection can use where it expects a mapping: a dict, or
    anything false. *)
Definition mapeo_o_vacio (v : value) : bool :=
  match v with
  | VDict _ => true
  | _ => negb (truthy v)
  end.

(** The state of the sink after the rows [l] were accepted, for a batch
    size [B]: the loop invariant of the fetch phase. *)
Record sumidero_tras (B : Z) (l : list fila) (s : sumidero) : Prop := {
  tras_filas : filas_de (archivo s) ++ filas_batch s = l;
  tras_cuenta :
    1 <= B ->
    Z.of_nat (length (filas_batch s)) = Z.of_nat (length l) mod B
    /\ Z.of_nat (length (default [] (archivo s))) = Z.of_nat (length l) / B;
  tras_escritos : escritos s = length (filas_de (archivo s));
  tras_lineas :
    concat (default [] (archivo s))
    = if escribir_header s then []
      else Cabecera COLUMNAS :: map Registro (filas_de (archivo s));
  tras_header : escribir_header s = true <-> archivo s = None;
  tras_no_vacio : escribir_header s = false -> filas_de (archivo s) <> []
}.

(** Services of the examples. Every listing holds the identifiers A and B
    (B under the other spelling, and once more A with a shadowed C); the
    detail of A is the usual record, the detail of B is dated the next day;
    in the second service the detail of B has a number as [Items]. *)
Definition listado_ejemplo : value :=
  VDict [("Listado", VList [VDict [("Codigo", VStr "A")];
                           VDict [("codigo", VStr "B")];
                           VDict [("Codigo", VStr "A"); ("codigo", VStr "C")]])].

Definition servicio_usual : servicio := fun params _ =>
  match params with
  | PListado _ _ => responde 200 (Some listado_ejemplo)
  | PDetalle (VStr "A") => responde 200 (Some (VDict [("Listado", VList [registro_usual])]))
  | PDetalle (VStr "B") =>
      responde 200 (Some (VDict [("Listado",
        VDict [("Codigo", VStr "B");
               ("Fechas", VDict [("FechaCreacion", VStr "2024-01-06")])])]))
  | PDetalle _ => responde 404 None
  end.

Definition servicio_items_escalar : servicio := fun params _ =>
  match params with
  | PDetalle (VStr "B") =>
      responde 200 (Some (VDict [("Listado", VList [registro_items_escalar])]))
  | _ => servicio_usual params 0%nat
  end.

(** A service that answers 503 to everything. *)
Definition servicio_503 : servicio := fun _ _ => responde 503 None.

(** A service that answers 404 to everything. *)
Definition servicio_404 : servicio := fun _ _ => responde 404 None.

Definition args_secuencial : argumentos :=
  {| workers := 1; retries := 5; batch_size := 1000 |}.

Definition es_pausa (e : evento) : bool :=
  match e with
  | EvPausaListado | EvPausaDetalle => true
  | EvGet _ | EvEspera _ => false
  end.

Definition args_concurrente : argumentos :=
  {| workers := 4; retries := 5; batch_size := 1000 |}.

(** ** Notions the statements about discovery use *)

#[global] Instance excepcion_eq_dec : EqDecision excepcion.
Proof. solve_decision. Defined.

#[global] Instance resultado_eq_dec {A : Type} `{EqDecision A} : EqDecision (resultado A).
Proof. solve_decision. Defined.

(** [codigos.count(x)] on a list of hashable values: its elements equal to
    [x] as Python compares them. *)
Definition py_count (x : value) (l : list value) : nat :=
  length (filter (fun c => clave_de c = clave_de x) l).

(** The identifiers the listing of a cell yields, as its task returns
    them; none when the task raises. *)
Definition identificadores_de (srv : servicio) (args : argumentos)
  (combinacion : date * string) : list value :=
  match fst (procesar_listado srv args combinacion) with
  | Ok resultados => resultados
  | Raise _ => []
  end.

(** [x] is among the identifiers the task of one of the cells returns
    (the notion the proofs about the merge work with). *)
Definition descubre (srv : servicio) (args : argumentos)
  (combinaciones : list (date * string)) (x : value) : Prop :=
  exists combinacion resultados,
    combinacion ∈ combinaciones
    /\ fst (procesar_listado srv args combinacion) = Ok resultados
    /\ x ∈ resultados.

(** [x] is the value of the field 'Codigo' or of the field 'codigo' of an
    entry of the listing in [payload]. *)
Definition aparece_en (x : value) (payload : value) : Prop :=
  exists listado d,
    listado_de payload = Ok listado
    /\ VDict d ∈ listado
    /\ (dict_get d "Codigo" = Some x \/ dict_get d "codigo" = Some x).

(** The identifier an entry of a listing yields, read from the entry: the
    value of 'Codigo' when it is not empty, otherwise the value of 'codigo'
    when that is not empty. *)
Definition identificador_de_entrada (entrada : list (string * value)) : option value :=
  let no_vacio campo :=
    match dict_get entrada campo with
    | Some c => if truthy c then Some c else None
    | None => None
    end in
  match no_vacio "Codigo" with
  | Some c => Some c
  | None => no_vacio "codigo"
  end.

(** The entries of the listing a payload carries: the mappings of the list
    under 'Listado', whatever else the list holds. *)
Definition entradas_de (payload : value) : list (list (string * value)) :=
  match payload with
  | VDict d =>
      match dict_get d "Listado" with
      | Some (VList l) =>
          omap (fun e => match e with VDict entrada => Some entrada | _ => None end) l
      | _ => []
      end
  | _ => []
  end.

(** [payload] is the listing received for a cell: the body of the response
    that ends the retry loop of its request. *)
Definition listado_recibido (srv : servicio) (args : argumentos)
  (combinacion : date * string) (payload : value) : Prop :=
  let params := PListado (fst combinacion) (snd combinacion) in
  exists response,
    fst (request_with_retries (srv params) params (retries args)) = Some response
    /\ json response = Some payload.

(** The listing result of a cell yields [x]: an entry of the listing
    received for the cell yields it. *)
Definition rinde (srv : servicio) (args : argumentos)
  (combinacion : date * string) (x : value) : Prop :=
  exists payload entrada,
    listado_recibido srv args combinacion payload
    /\ entrada ∈ entradas_de payload
    /\ identificador_de_entrada entrada = Some x.

(** A listing of the documented shape: the payload is a mapping, and its
    'Listado' is absent, empty, or a list of mappings. *)
Definition listado_regular (payload : value) : Prop :=
  exists d,
    payload = VDict d
    /\ match dict_get d "Listado" with
       | Some (VList l) => Forall (fun e => exists entrada, e = VDict entrada) l
       | Some v => truthy v = false
       | None => True
       end.

(** A service whose listings hold a number after the entry of A. *)
Definition servicio_listado_irregular : servicio := fun params _ =>
  match params with
  | PListado _ _ =>
      responde 200 (Some (VDict [("Listado", VList [VDict [("Codigo", VStr "A")]; VInt 5])]))
  | PDetalle _ => responde 404 None
  end.

(** The invariant of the two variables of discovery: [vistos] is the set
    of the keys of [codigos], and no two elements of [codigos] are equal. *)
Definition coherente (st : descubiertos) : Prop :=
  NoDup (map clave_de (codigos st))
  /\ forall k, k ∈ vistos st <-> Ok k ∈ map clave_de (codigos st).

(** ** Notions the further statements use *)

(** Seconds slept by the retry loop in a trace. *)
Definition espera_total (t : list evento) : Z :=
  fold_right (fun e z => match e with EvEspera w => w + z | _ => z end) 0 t.

(** A session that is answered 503 [k] times and then [final]. *)
Definition tras_fallos (k : nat) (final : intento) : nat -> intento :=
  fun n => if (n <? k)%nat then responde 503 None else final.

(** The loop of [rango_fechas] as the source writes it, from the value
    [actual] of its variable:
    [while actual <= hasta: yield actual; actual += delta]. *)
Equations? rango_fechas_desde (actual hasta : date) : list date
  by wf (Z.to_nat (hasta - actual + 1)) lt :=
  rango_fechas_desde actual hasta :=
    match decide (actual <= hasta) with
    | left _ => actual :: rango_fechas_desde (actual + 1) hasta
    | right _ => []
    end.
Proof. lia. Qed.

(** The columns [construir_fila_oc] copies from a field of the record
    ([oc.get(campo, "")]) and those it reads along a path ([safe_get]). *)
Definition columnas_copiadas : list (string * string) :=
  [ ("Código OC", "Codigo"); ("Nombre", "Nombre"); ("Código Estado", "CodigoEstado");
    ("Descripción", "Descripcion"); ("Código Licitación", "CodigoLicitacion");
    ("Tipo", "Tipo"); ("Total", "Total"); ("Total Neto", "TotalNeto") ].

Definition columnas_ruta : list (string * list string) :=
  [ ("Proveedor", ["Proveedor"; "Nombre"]);
    ("Unidad Compradora", ["Comprador"; "NombreUnidad"]);
    ("Nombre Organismo", ["Comprador"; "NombreOrganismo"]);
    ("Contacto Comprador", ["Comprador"; "Nombre"]) ].

(** Every block appended so far holds [B] rows: kept by the loop of the
    fetch phase, until the final [flush]. *)
Definition bloques_llenos (B : Z) (s : sumidero) : Prop :=
  Forall (fun bloque => Z.of_nat (length (filas_de_lineas bloque)) = B)
         (default [] (archivo s)).

(** The elements of [l] whose key is not in [vistos] and not the key of an
    earlier element of [l], in the order of [l]. *)
Fixpoint primeras (vistos : gset clave) (l : list value) : list value :=
  match l with
  | [] => []
  | c :: resto =>
      match clave_de c with
      | Ok k =>
          if decide (k ∈ vistos) then primeras vistos resto
          else c :: primeras (vistos ∪ {[ k ]}) resto
      | Raise _ => []
      end
  end.

(** ** Thread sessions *)

(** The module variables of the session helpers: the attribute [session]
    of [_THREAD_LOCAL] in each thread that has one, the list [_SESSIONS],
    the sessions on which [close()] was called, in the order of the calls,
    and the number of sessions created ([requests.Session()] gives a new
    object; sessions are numbered in the order of creation). [_SESSIONS]
    is only touched under [_SESSIONS_LOCK] and the attribute of a thread
    only by that thread, so a call is one step. *)
Record hilos : Type := {
  _THREAD_LOCAL : gmap nat nat;
  _SESSIONS : list nat;
  cerradas : list nat;
  creadas : nat
}.

Definition hilos_inicial : hilos :=
  {| _THREAD_LOCAL := ∅; _SESSIONS := []; cerradas := []; creadas := 0 |}.

(** [_get_thread_session()] called in the thread [hilo]. *)
Definition _get_thread_session (hilo : nat) (st : hilos) : nat * hilos :=
  match _THREAD_LOCAL st !! hilo with
  | Some session => (session, st)
  | None =>
      let session := creadas st in
      (session,
       {| _THREAD_LOCAL := <[hilo := session]> (_THREAD_LOCAL st);
          _SESSIONS := _SESSIONS st ++ [session];
          cerradas := cerradas st;
          creadas := S (creadas st) |})
  end.

(** [while _SESSIONS: session = _SESSIONS.pop(); session.close()], on the
    list read from its end, as [pop()] takes it. *)
Fixpoint vaciar (pila : list nat) (cerradas : list nat) : list nat :=
  match pila with
  | [] => cerradas
  | session :: resto => vaciar resto (cerradas ++ [session])
  end.

Definition _close_thread_sessions (st : hilos) : hilos :=
  {| _THREAD_LOCAL := _THREAD_LOCAL st;
     _SESSIONS := [];
     cerradas := vaciar (reverse (_SESSIONS st)) (cerradas st);
     creadas := creadas st |}.

(** The calls of the two helpers a process makes, in the order in which
    they take effect. *)
Inductive llamada : Type :=
| Pide (hilo : nat)
| Cierra.

Definition ejecutar_llamada (st : hilos) (l : llamada) : hilos :=
  match l with
  | Pide hilo => snd (_get_thread_session hilo st)
  | Cierra => _close_thread_sessions st
  end.

Definition ejecutar (llamadas : list llamada) (st : hilos) : hilos :=
  fold_left ejecutar_llamada llamadas st.

(** What the helpers keep true: a session belongs to one thread, and the
    sessions created are those registered or closed, each once. *)
Definition hilos_coherentes (st : hilos) : Prop :=
  (forall h1 h2 s,
     _THREAD_LOCAL st !! h1 = Some s -> _THREAD_LOCAL st !! h2 = Some s -> h1 = h2)
  /\ (forall h s, _THREAD_LOCAL st !! h = Some s -> (s < creadas st)%nat)
  /\ NoDup (cerradas st ++ _SESSIONS st)
  /\ (forall s, (s < creadas st)%nat <-> s ∈ cerradas st ++ _SESSIONS st).

(** ** Where the columns of a Row come from *)

(** A column is read from fields of the record or of its first item. *)
Inductive origen : Type :=
| DelRegistro
| DelPrimerItem.

(** For each column, in the order of [COLUMNAS], the fields
    [construir_fila_oc] reads it from, each as a path of keys. *)
Definition fuentes : list (string * list (origen * list string)) :=
  [ ("Código OC", [(DelRegistro, ["Codigo"])]);
    ("Nombre", [(DelRegistro, ["Nombre"])]);
    ("Código Estado", [(DelRegistro, ["CodigoEstado"])]);
    ("Descripción", [(DelRegistro, ["Descripcion"])]);
    ("Código Licitación", [(DelRegistro, ["CodigoLicitacion"])]);
    ("Tipo", [(DelRegistro, ["Tipo"])]);
    ("Moneda", [(DelRegistro, ["Moneda"]); (DelPrimerItem, ["Moneda"])]);
    ("Fecha Creación", [(DelRegistro, ["Fechas"; "FechaCreacion"])]);
    ("Fecha Envío", [(DelRegistro, ["Fechas"; "FechaEnvio"])]);
    ("Fecha Aceptación", [(DelRegistro, ["Fechas"; "FechaAceptacion"])]);
    ("Total", [(DelRegistro, ["Total"])]);
    ("Total Neto", [(DelRegistro, ["TotalNeto"])]);
    ("Proveedor", [(DelRegistro, ["Proveedor"; "Nombre"])]);
    ("Rut Proveedor", [(DelRegistro, ["Proveedor"; "RutProveedor"]);
                       (DelRegistro, ["Proveedor"; "RutSucursal"])]);
    ("Unidad Compradora", [(DelRegistro, ["Comprador"; "NombreUnidad"])]);
    ("Nombre Organismo", [(DelRegistro, ["Comprador"; "NombreOrganismo"])]);
    ("Contacto Comprador", [(DelRegistro, ["Comprador"; "Nombre"])]);
    ("Fuente Financiamiento", [(DelRegistro, ["FuenteFinanciamiento"]);
                               (DelRegistro, ["Financiamiento"]);
                               (DelRegistro, ["Comprador"; "FuenteFinanciamiento"])]);
    ("Codigo categoria", [(DelPrimerItem, ["CodigoCategoria"])]);
    ("Categoría", [(DelPrimerItem, ["Categoria"])]);
    ("Codigo producto", [(DelPrimerItem, ["CodigoProducto"])]) ].

(** The field at the end of a path is absent from a value: a key of the
    path is missing, or what holds it is not a mapping. *)
Fixpoint ausente (v : value) (ruta : list string) : Prop :=
  match ruta with
  | [] => False
  | clave :: resto =>
      match v with
      | VDict d =>
          match dict_get d clave with
          | Some v' => ausente v' resto
          | None => True
          end
      | _ => True
      end
  end.

(** The date columns and the fields of [Fechas] they render. *)
Definition columnas_fecha : list (string * string) :=
  [ ("Fecha Creación", "FechaCreacion"); ("Fecha Envío", "FechaEnvio");
    ("Fecha Aceptación", "FechaAceptacion") ].

(** None of the fields a column is read from is present, in the record
    [oc] with first item [primer_item]. *)
Definition sin_fuentes (oc primer_item : value) (fs : list (origen * list string)) : Prop :=
  Forall (fun fuente =>
            ausente (match fst fuente with
                     | DelRegistro => oc
                     | DelPrimerItem => primer_item
                     end) (snd fuente)) fs.

(** * Properties *)

(** ** The retry loop *)

Lemma bucle_reintentos_eq session params retries attempt wait :
  bucle_reintentos session params retries attempt wait =
  if decide (Z.of_nat attempt < retries) then
    match clasificar (session attempt) with
    | Some r => (r, [EvGet params])
    | None =>
        let sigue := bucle_reintentos session params retries (S attempt) (wait * 2) in
        (fst sigue, EvGet params :: EvEspera wait :: snd sigue)
    end
  else (None, []).
Proof.
  rewrite bucle_reintentos_equation_1.
  destruct (decide (Z.of_nat attempt < retries)); reflexivity.
Qed.

Lemma clasificar_fallo i : fallo_reintentable i -> clasificar i = None.
Proof.
  destruct i as [r|]; simpl; [|reflexivity].
  unfold reintentable. intros [H | H].
  - rewrite H. reflexivity.
  - destruct (Z.eqb_spec (status_code r) 200); [lia|].
    replace (Z.leb 500 (status_code r)) with true by (symmetry; apply Z.leb_le; lia).
    replace (Z.ltb (status_code r) 600) with true by (symmetry; apply Z.ltb_lt; lia).
    rewrite orb_true_r. reflexivity.
Qed.

Lemma flat_map_seq_S {A : Type} (f : nat -> list A) a k :
  flat_map f (seq (S a) k) = flat_map (fun i => f (S i)) (seq a k).
Proof.
  revert a. induction k as [|k IH]; intros a; simpl; [reflexivity|].
  rewrite IH. reflexivity.
Qed.

Lemma bucle_todo_falla session params retries :
  (forall n, fallo_reintentable (session n)) ->
  forall k attempt wait,
    Z.to_nat (retries - Z.of_nat attempt) = k ->
    bucle_reintentos session params retries attempt wait
    = (None, traza_fallos params wait k).
Proof.
  intros Hs. induction k as [|k IH]; intros attempt wait Hk;
    rewrite bucle_reintentos_eq.
  - destruct (decide (Z.of_nat attempt < retries)); [lia|reflexivity].
  - destruct (decide (Z.of_nat attempt < retries)); [|lia].
    rewrite (clasificar_fallo _ (Hs attempt)). cbv zeta.
    rewrite (IH (S attempt) (wait * 2)) by lia. simpl fst; simpl snd.
    unfold traza_fallos. cbn [seq flat_map app].
    rewrite flat_map_seq_S.
    change (Z.of_nat 0) with 0. rewrite Z.pow_0_r, Z.mul_1_r.
    do 3 f_equal. apply flat_map_ext. intros i.
    rewrite Nat2Z.inj_succ, Z.pow_succ_r by lia.
    rewrite Z.mul_assoc. reflexivity.
Qed.

Lemma intentos_traza_fallos params wait k : intentos (traza_fallos params wait k) = k.
Proof.
  unfold traza_fallos, intentos.
  assert (G : forall a, length (filter es_get
                (flat_map (fun i => [EvGet params; EvEspera (wait * 2 ^ Z.of_nat i)])
                          (seq a k))) = k).
  { induction k as [|k IH]; intros a; simpl; [reflexivity|].
    f_equal. apply IH. }
  apply G.
Qed.

Lemma intentos_bucle_acotados session params retries :
  forall k attempt wait,
    Z.to_nat (retries - Z.of_nat attempt) = k ->
    (intentos (snd (bucle_reintentos session params retries attempt wait)) <= k)%nat.
Proof.
  induction k as [|k IH]; intros attempt wait Hk; rewrite bucle_reintentos_eq.
  - destruct (decide (Z.of_nat attempt < retries)); [lia|]. unfold intentos. simpl. lia.
  - destruct (decide (Z.of_nat attempt < retries)); [|lia].
    destruct (clasificar (session attempt)).
    + unfold intentos. simpl. lia.
    + cbv zeta. specialize (IH (S attempt) (wait * 2)).
      unfold intentos in *. simpl. apply le_n_S, IH. lia.
Qed.

Lemma intentos_acotados session params retries :
  (intentos (snd (request_with_retries session params retries)) <= Z.to_nat retries)%nat.
Proof.
  unfold request_with_retries.
  apply intentos_bucle_acotados. change (Z.of_nat 0) with 0. f_equal. lia.
Qed.

(** C4, as amended: when every attempt fails in a retryable way (status 429
    or 5xx, or a RequestException), [request_with_retries] calls
    [session.get] exactly max(retries, 0) times, sleeping 1, 2, 4, ... after
    each call, and then returns None; the loop is a total function. *)
Theorem reintentos_agotados session params retries :
  (forall n, fallo_reintentable (session n)) ->
  request_with_retries session params retries
  = (None, traza_fallos params 1 (Z.to_nat retries))
  /\ intentos (snd (request_with_retries session params retries)) = Z.to_nat (Z.max retries 0).
Proof.
  intros Hs.
  assert (E : request_with_retries session params retries
              = (None, traza_fallos params 1 (Z.to_nat retries))).
  { unfold request_with_retries. apply bucle_todo_falla; [exact Hs|].
    change (Z.of_nat 0) with 0. f_equal. lia. }
  split; [exact E|].
  rewrite E. simpl snd. rewrite intentos_traza_fallos. lia.
Qed.

Lemma siempre_503_reintentable n : fallo_reintentable (siempre_503 n).
Proof. simpl. right. lia. Qed.

Lemma reintentos_agotados_witness :
  (forall n, fallo_reintentable (siempre_503 n))
  /\ request_with_retries siempre_503 (PDetalle (VStr "A")) 3
     = (None, [EvGet (PDetalle (VStr "A")); EvEspera 1;
               EvGet (PDetalle (VStr "A")); EvEspera 2;
               EvGet (PDetalle (VStr "A")); EvEspera 4]).
Proof.
  split; [exact siempre_503_reintentable|].
  exact (proj1 (reintentos_agotados siempre_503 (PDetalle (VStr "A")) 3
                  siempre_503_reintentable)).
Defined.

(** C4 as stated fails for a negative [retries]: the loop body never runs,
    so the number of attempts is 0 and not [retries]. *)
Lemma reintentos_negativos_contra :
  (forall n, fallo_reintentable (siempre_503 n))
  /\ Z.of_nat (intentos (snd (request_with_retries siempre_503 (PDetalle (VStr "A")) (-1)))) <> -1.
Proof.
  split; [exact siempre_503_reintentable|]. vm_compute. discriminate.
Qed.

(** C10: with [retries <= 0] the loop issues no request (and no sleep) and
    returns None at once; in general [retries] bounds the total number of
    calls of [session.get], the first one included. *)
Theorem sin_reintentos_sin_peticion session params retries :
  retries <= 0 ->
  request_with_retries session params retries = (None, [])
  /\ (forall session' params' retries',
        (intentos (snd (request_with_retries session' params' retries'))
         <= Z.to_nat retries')%nat).
Proof.
  intros H. split; [|intros; apply intentos_acotados].
  unfold request_with_retries. rewrite bucle_reintentos_eq.
  destruct (decide (Z.of_nat 0 < retries)) as [Hlt|]; [|reflexivity].
  change (Z.of_nat 0) with 0 in Hlt. lia.
Qed.

Lemma sin_reintentos_sin_peticion_witness :
  request_with_retries siempre_503 (PDetalle (VStr "A")) (-2) = (None, []).
Proof.
  refine (proj1 (sin_reintentos_sin_peticion siempre_503 (PDetalle (VStr "A")) (-2) _)).
  lia.
Defined.

(** ** Row projection *)

Lemma bind_Ok {A B : Type} (m : resultado A) (f : A -> resultado B) (b : B) :
  m ≫= f = Ok b -> exists a, m = Ok a /\ f a = Ok b.
Proof. destruct m as [a|e]; simpl; [eauto|discriminate]. Qed.

Lemma Ok_inj {A : Type} (a b : A) : Ok a = Ok b -> a = b.
Proof. intros E. injection E. trivial. Qed.

Ltac desatar H :=
  repeat (cbv beta zeta in H;
          match type of H with
          | mbind _ _ = Ok _ =>
              let x := fresh "x" in
              let Hx := fresh "Hx" in
              apply bind_Ok in H as (x & Hx & H)
          end);
  cbv beta zeta in H.

Lemma COLUMNAS_longitud : length COLUMNAS = 21%nat.
Proof. reflexivity. Qed.

Lemma COLUMNAS_sin_repetidos : NoDup COLUMNAS.
Proof. apply (bool_decide_unpack _). vm_compute. exact I. Qed.

Lemma dict_get_presente (f : fila) (columna : string) :
  columna ∈ map fst f -> is_Some (dict_get f columna).
Proof.
  induction f as [|[k v] f IH]; simpl.
  - intros H. inversion H.
  - destruct (String.eqb_spec k columna) as [->|Hne]; [eauto|].
    intros H. apply IH. inversion H; subst; [congruence|assumption].
Qed.

Section PropiedadesProyeccion.

Context {bib : Biblioteca}.

Lemma construir_fila_oc_claves (oc : value) (f : fila) :
  construir_fila_oc oc = Ok f -> map fst f = COLUMNAS.
Proof.
  intros Hf. unfold construir_fila_oc in Hf. desatar Hf.
  apply Ok_inj in Hf. rewrite <- Hf. vm_compute. reflexivity.
Qed.

(** A record with none of the fields gives the empty string in every
    column. *)
Lemma construir_fila_oc_vacio :
  construir_fila_oc (VDict []) = Ok (map (fun columna => (columna, VStr "")) COLUMNAS).
Proof. vm_compute. reflexivity. Qed.

(** C8 fails on the code: [Items] holding a number reaches
    [listado_items[0]], which raises TypeError. *)
Theorem construir_fila_oc_items_escalar :
  construir_fila_oc registro_items_escalar = Raise TypeError.
Proof. vm_compute. reflexivity. Qed.

(** [Fechas] holding a string reaches [fechas.get], which raises
    AttributeError; so does a record that is not a dict. *)
Lemma construir_fila_oc_fechas_escalar :
  construir_fila_oc registro_fechas_escalar = Raise AttributeError.
Proof. vm_compute. reflexivity. Qed.

Lemma construir_fila_oc_no_dict (oc : value) :
  (forall d, oc <> VDict d) -> construir_fila_oc oc = Raise AttributeError.
Proof. intros H. destruct oc; try reflexivity. destruct (H d eq_refl). Qed.

Lemma mapeo_o_vacio_cierto (v : value) :
  mapeo_o_vacio v = true -> truthy v = true -> exists d, v = VDict d.
Proof.
  destruct v; simpl; intros Hv Et; try (rewrite Et in Hv); try discriminate; eauto.
Qed.

Lemma py_get_mapeo_o_vacio (v : value) (k : string) (def : value) :
  mapeo_o_vacio v = true -> exists x, py_get (py_or v (VDict [])) k def = Ok x.
Proof.
  intros Hv. unfold py_or. destruct (truthy v) eqn:Et; [|simpl; eauto].
  destruct (mapeo_o_vacio_cierto v Hv Et) as [d ->]. simpl. eauto.
Qed.

Lemma campo_item_mapeo_o_vacio (p : value) (campo : string) :
  mapeo_o_vacio p = true -> exists x, campo_item p campo = Ok x.
Proof.
  intros Hp. unfold campo_item. destruct (truthy p) eqn:Et; [|eauto].
  destruct (mapeo_o_vacio_cierto p Hp Et) as [d ->]. simpl. eauto.
Qed.

(** The projection returns a Row exactly on the expected shapes: the
    record a dict, [Fechas] a mapping (or false), the first item a mapping
    (or false). *)
Lemma construir_fila_oc_total (d : list (string * value)) (p : value) :
  mapeo_o_vacio (default VNone (dict_get d "Fechas")) = true ->
  primer_item_de (VDict d) = Ok p ->
  mapeo_o_vacio p = true ->
  exists f, construir_fila_oc (VDict d) = Ok f.
Proof.
  intros Hf Hp Hm. unfold construir_fila_oc. rewrite Hp. simpl.
  destruct (py_get_mapeo_o_vacio _ "FechaCreacion" VNone Hf) as [f1 E1].
  destruct (py_get_mapeo_o_vacio _ "FechaEnvio" VNone Hf) as [f2 E2].
  destruct (py_get_mapeo_o_vacio _ "FechaAceptacion" VNone Hf) as [f3 E3].
  destruct (campo_item_mapeo_o_vacio p "CodigoCategoria" Hm) as [c1 C1].
  destruct (campo_item_mapeo_o_vacio p "Categoria" Hm) as [c2 C2].
  destruct (campo_item_mapeo_o_vacio p "CodigoProducto" Hm) as [c3 C3].
  assert (Hmon : exists m, obtener_moneda (VDict d) p = Ok m).
  { unfold obtener_moneda. simpl.
    destruct (truthy (normalizar_moneda _)); [eauto|].
    destruct (truthy p) eqn:Et; [|eauto].
    destruct (mapeo_o_vacio_cierto p Hm Et) as [dp ->]. simpl. eauto. }
  destruct Hmon as [m Em].
  assert (Hfu : exists s, obtener_fuente_financiamiento (VDict d) = Ok s).
  { unfold obtener_fuente_financiamiento. simpl.
    destruct (negb _); [eauto|]. destruct (negb _); eauto. }
  destruct Hfu as [s Es].
  rewrite Em. simpl.
  replace (match dict_get d "Fechas" with Some v => v | None => VNone end)
    with (default VNone (dict_get d "Fechas")) by (destruct (dict_get d "Fechas"); reflexivity).
  rewrite E1. simpl. rewrite E2. simpl. rewrite E3. simpl.
  rewrite Es. simpl. rewrite C1. simpl. rewrite C2. simpl. rewrite C3. simpl.
  eauto.
Qed.

(** The loop over [COLUMNAS] that ends [construir_fila_oc] finds every
    column already in the dict literal. *)
Lemma fila_literal_completa (v1 v2 v3 v4 v5 v6 v7 v8 v9 v10 v11 v12 v13 v14 v15 v16 v17
  v18 v19 v20 v21 : value) :
  let literal : fila :=
    [ ("Código OC", v1); ("Nombre", v2); ("Código Estado", v3); ("Descripción", v4);
      ("Código Licitación", v5); ("Tipo", v6); ("Moneda", v7); ("Fecha Creación", v8);
      ("Fecha Envío", v9); ("Fecha Aceptación", v10); ("Total", v11); ("Total Neto", v12);
      ("Proveedor", v13); ("Rut Proveedor", v14); ("Unidad Compradora", v15);
      ("Nombre Organismo", v16); ("Contacto Comprador", v17);
      ("Fuente Financiamiento", v18); ("Codigo categoria", v19); ("Categoría", v20);
      ("Codigo producto", v21) ] in
  fold_left (fun fila columna => setdefault fila columna (VStr "")) COLUMNAS literal
  = literal.
Proof. reflexivity. Qed.

Lemma py_get_dict (d : list (string * value)) (k : string) (def x : value) :
  py_get (VDict d) k def = Ok x -> x = default def (dict_get d k).
Proof. simpl. intros H. apply Ok_inj in H. rewrite <- H. destruct (dict_get d k); reflexivity. Qed.

Lemma py_get_py_or_Ok (v : value) (k : string) (def x : value) :
  py_get (py_or v (VDict [])) k def = Ok x -> mapeo_o_vacio v = true.
Proof.
  unfold py_or. destruct (truthy v) eqn:Et.
  - destruct v; simpl; try discriminate. reflexivity.
  - intros _. destruct v; simpl in *; try rewrite Et; try reflexivity.
Qed.

Lemma campo_item_Ok (p : value) (campo : string) (x : value) :
  campo_item p campo = Ok x -> mapeo_o_vacio p = true.
Proof.
  unfold campo_item. destruct (truthy p) eqn:Et.
  - destruct p; simpl; try discriminate. reflexivity.
  - intros _. destruct p; simpl in *; try rewrite Et; try reflexivity.
Qed.

Lemma construir_fila_oc_desglose (oc : value) (f : fila) :
  construir_fila_oc oc = Ok f ->
  exists d p m f08 f09 f10 fu c19 c20 c21,
    let fechas := py_or (default VNone (dict_get d "Fechas")) (VDict []) in
    oc = VDict d
    /\ primer_item_de oc = Ok p
    /\ obtener_moneda oc p = Ok m
    /\ py_get fechas "FechaCreacion" VNone = Ok f08
    /\ py_get fechas "FechaEnvio" VNone = Ok f09
    /\ py_get fechas "FechaAceptacion" VNone = Ok f10
    /\ obtener_fuente_financiamiento oc = Ok fu
    /\ campo_item p "CodigoCategoria" = Ok c19
    /\ campo_item p "Categoria" = Ok c20
    /\ campo_item p "CodigoProducto" = Ok c21
    /\ f = [ ("Código OC", default (VStr "") (dict_get d "Codigo"));
             ("Nombre", default (VStr "") (dict_get d "Nombre"));
             ("Código Estado", default (VStr "") (dict_get d "CodigoEstado"));
             ("Descripción", default (VStr "") (dict_get d "Descripcion"));
             ("Código Licitación", default (VStr "") (dict_get d "CodigoLicitacion"));
             ("Tipo", default (VStr "") (dict_get d "Tipo"));
             ("Moneda", m);
             ("Fecha Creación", VStr (formatear_fecha_salida f08));
             ("Fecha Envío", VStr (formatear_fecha_salida f09));
             ("Fecha Aceptación", VStr (formatear_fecha_salida f10));
             ("Total", default (VStr "") (dict_get d "Total"));
             ("Total Neto", default (VStr "") (dict_get d "TotalNeto"));
             ("Proveedor", safe_get oc ["Proveedor"; "Nombre"]);
             ("Rut Proveedor", VStr (obtener_rut_proveedor oc));
             ("Unidad Compradora", safe_get oc ["Comprador"; "NombreUnidad"]);
             ("Nombre Organismo", safe_get oc ["Comprador"; "NombreOrganismo"]);
             ("Contacto Comprador", safe_get oc ["Comprador"; "Nombre"]);
             ("Fuente Financiamiento", VStr fu);
             ("Codigo categoria", c19);
             ("Categoría", c20);
             ("Codigo producto", c21) ].
Proof.
  intros H.
  assert (Hd : exists d, oc = VDict d).
  { destruct oc; try (rewrite construir_fila_oc_no_dict in H by discriminate; discriminate).
    eauto. }
  destruct Hd as [d ->].
  unfold construir_fila_oc in H. desatar H.
  rewrite fila_literal_completa in H. apply Ok_inj in H.
  apply py_get_dict in Hx, Hx1, Hx2, Hx3, Hx4, Hx5, Hx6, Hx11, Hx12.
  subst x x1 x2 x3 x4 x5 x6 x11 x12.
  exists d, x0, x7, x8, x9, x10, x13, x14, x15, x16. cbv zeta.
  repeat (split; [first [reflexivity|assumption]|]).
  symmetry. exact H.
Qed.

Lemma ausente_campo (d : list (string * value)) (k : string) :
  ausente (VDict d) [k] -> dict_get d k = None.
Proof. simpl. destruct (dict_get d k); [intros []|reflexivity]. Qed.

Lemma ausente_safe_get (v : value) (ruta : list string) :
  ausente v ruta -> safe_get v ruta = VStr "".
Proof.
  revert v. induction ruta as [|k ruta IH]; intros v; simpl; [intros []|].
  destruct v; try reflexivity. destruct (dict_get d k); [apply IH|reflexivity].
Qed.

Lemma ausente_fecha (d : list (string * value)) (k : string) (x : value) :
  ausente (VDict d) ["Fechas"; k] ->
  py_get (py_or (default VNone (dict_get d "Fechas")) (VDict [])) k VNone = Ok x ->
  formatear_fecha_salida x = "".
Proof.
  intros Ha H. assert (E : x = VNone); [|rewrite E; reflexivity].
  cbn [ausente] in Ha. destruct (dict_get d "Fechas") as [v|]; simpl in H.
  - unfold py_or in H. destruct (truthy v) eqn:Et.
    + destruct v; simpl in H; try discriminate.
      destruct (dict_get d0 k); [destruct Ha|]. apply Ok_inj in H. symmetry. exact H.
    + simpl in H. apply Ok_inj in H. symmetry. exact H.
  - apply Ok_inj in H. symmetry. exact H.
Qed.

Lemma ausente_moneda (d : list (string * value)) (p m : value) :
  ausente (VDict d) ["Moneda"] -> ausente p ["Moneda"] ->
  obtener_moneda (VDict d) p = Ok m -> m = VStr "".
Proof.
  intros H1 H2. apply ausente_campo in H1. unfold obtener_moneda. simpl.
  rewrite H1. simpl. destruct (truthy p) eqn:Et.
  - destruct p; simpl; try discriminate. apply ausente_campo in H2. rewrite H2. simpl.
    intros H. apply Ok_inj in H. symmetry. exact H.
  - intros H. apply Ok_inj in H. symmetry. exact H.
Qed.

Lemma ausente_rut (oc : value) :
  ausente oc ["Proveedor"; "RutProveedor"] -> ausente oc ["Proveedor"; "RutSucursal"] ->
  obtener_rut_proveedor oc = "".
Proof.
  intros H1 H2. unfold obtener_rut_proveedor.
  rewrite (ausente_safe_get _ _ H1), (ausente_safe_get _ _ H2). reflexivity.
Qed.

Lemma ausente_fuente (d : list (string * value)) (fu : string) :
  ausente (VDict d) ["FuenteFinanciamiento"] ->
  ausente (VDict d) ["Financiamiento"] ->
  ausente (VDict d) ["Comprador"; "FuenteFinanciamiento"] ->
  obtener_fuente_financiamiento (VDict d) = Ok fu -> fu = "".
Proof.
  intros H1 H2 H3. apply ausente_campo in H1, H2. unfold obtener_fuente_financiamiento.
  cbn [py_get]. rewrite H1, H2, (ausente_safe_get _ _ H3). simpl.
  intros H. apply Ok_inj in H. symmetry. exact H.
Qed.

Lemma ausente_item (p : value) (k : string) (c : value) :
  ausente p [k] -> campo_item p k = Ok c -> c = VStr "".
Proof.
  intros Ha. unfold campo_item. destruct (truthy p) eqn:Et.
  - destruct p; simpl; try discriminate. apply ausente_campo in Ha. rewrite Ha.
    intros H. apply Ok_inj in H. symmetry. exact H.
  - intros H. apply Ok_inj in H. symmetry. exact H.
Qed.


End PropiedadesProyeccion.


(** ** The batch sink *)

Lemma division_siguiente (B m : Z) :
  1 <= B -> 0 <= m ->
  (m mod B + 1 >= B -> (m + 1) mod B = 0 /\ (m + 1) / B = m / B + 1)
  /\ (m mod B + 1 < B -> (m + 1) mod B = m mod B + 1 /\ (m + 1) / B = m / B).
Proof.
  intros HB Hm.
  pose proof (Z.div_mod m B ltac:(lia)) as E.
  pose proof (Z.mod_pos_bound m B ltac:(lia)) as Hr.
  split; intros H.
  - assert (Hq : (m + 1) / B = m / B + 1).
    { symmetry. apply (Z.div_unique (m + 1) B (m / B + 1) 0); lia. }
    split; [|exact Hq].
    symmetry. apply (Z.mod_unique (m + 1) B (m / B + 1) 0); lia.
  - assert (Hq : (m + 1) / B = m / B).
    { symmetry. apply (Z.div_unique (m + 1) B (m / B) (m mod B + 1)); lia. }
    split; [|exact Hq].
    symmetry. apply (Z.mod_unique (m + 1) B (m / B) (m mod B + 1)); lia.
Qed.

Lemma techo_division (B m : Z) :
  1 <= B -> 0 <= m ->
  (m + B - 1) / B = m / B + (if Z.eqb (m mod B) 0 then 0 else 1).
Proof.
  intros HB Hm.
  pose proof (Z.div_mod m B ltac:(lia)) as E.
  pose proof (Z.mod_pos_bound m B ltac:(lia)) as Hr.
  destruct (Z.eqb_spec (m mod B) 0) as [H0|H0].
  - symmetry. apply (Z.div_unique (m + B - 1) B (m / B + 0) (B - 1)); lia.
  - symmetry. apply (Z.div_unique (m + B - 1) B (m / B + 1) (m mod B - 1)); lia.
Qed.

Lemma filas_de_lineas_app (l1 l2 : list linea) :
  filas_de_lineas (l1 ++ l2) = filas_de_lineas l1 ++ filas_de_lineas l2.
Proof. apply flat_map_app. Qed.

Lemma filas_de_lineas_registros (fs : list fila) :
  filas_de_lineas (map Registro fs) = fs.
Proof. induction fs as [|f fs IH]; simpl; [reflexivity|]. f_equal. exact IH. Qed.

Lemma filas_de_bloque (t : option tabla) (cabecera : bool) (fs : list fila) :
  filas_de (Some (default [] t
                  ++ [(if cabecera then [Cabecera COLUMNAS] else []) ++ map Registro fs]))
  = filas_de t ++ fs.
Proof.
  unfold filas_de. simpl. rewrite concat_app, filas_de_lineas_app. simpl.
  rewrite app_nil_r, filas_de_lineas_app, filas_de_lineas_registros.
  destruct cabecera; reflexivity.
Qed.

Lemma volcar_vacio (s : sumidero) : filas_batch s = [] -> volcar s = s.
Proof. unfold volcar. intros ->. reflexivity. Qed.

Lemma volcar_lleno (s : sumidero) :
  filas_batch s <> [] ->
  volcar s = {| escribir_header := false;
               filas_batch := [];
               escritos := (escritos s + length (filas_batch s))%nat;
               archivo := Some (default [] (archivo s)
                                ++ [(if escribir_header s then [Cabecera COLUMNAS] else [])
                                    ++ map Registro (filas_batch s)]) |}.
Proof. unfold volcar. destruct (filas_batch s); [congruence|reflexivity]. Qed.

Lemma sumidero_tras_inicial (B : Z) (previo : option tabla) :
  sumidero_tras B [] (sumidero_inicial previo).
Proof.
  assert (E : archivo (sumidero_inicial previo) = None) by (destruct previo; reflexivity).
  split; rewrite ?E; simpl; try reflexivity; try discriminate.
  - intros HB. rewrite Z.mod_0_l, Z.div_0_l by lia. split; reflexivity.
  - split; intros _; reflexivity.
Qed.

(** What a flush of a non-empty batch does to the invariant's components. *)
Lemma sumidero_tras_volcar (B : Z) (l : list fila) (s : sumidero) :
  filas_batch s <> [] ->
  filas_de (archivo s) ++ filas_batch s = l ->
  (1 <= B ->
   Z.of_nat (length l) mod B = 0
   /\ Z.of_nat (length (default [] (archivo s))) + 1 = Z.of_nat (length l) / B) ->
  escritos s = length (filas_de (archivo s)) ->
  concat (default [] (archivo s))
  = (if escribir_header s then []
     else Cabecera COLUMNAS :: map Registro (filas_de (archivo s))) ->
  (escribir_header s = true <-> archivo s = None) ->
  sumidero_tras B l (volcar s).
Proof.
  intros Hne Hf Hc He Hl Hh. rewrite (volcar_lleno s Hne).
  split; simpl.
  - rewrite filas_de_bloque, app_nil_r. exact Hf.
  - intros HB. destruct (Hc HB) as [Hm Hb]. rewrite Hm. split; [reflexivity|].
    rewrite length_app. simpl. rewrite Nat2Z.inj_add. exact Hb.
  - rewrite filas_de_bloque, length_app, He. reflexivity.
  - rewrite filas_de_bloque, concat_app, Hl. simpl. rewrite app_nil_r.
    destruct (escribir_header s) eqn:Eh.
    + assert (En : archivo s = None) by (apply Hh; reflexivity).
      rewrite En. reflexivity.
    + simpl. rewrite map_app. reflexivity.
  - split; discriminate.
  - intros _. rewrite filas_de_bloque.
    destruct (filas_batch s); [congruence|].
    intros E. apply app_eq_nil in E as [_ E]. discriminate.
Qed.

Lemma sumidero_tras_anexar (args : argumentos) (l : list fila) (s : sumidero) (f : fila) :
  sumidero_tras (batch_size args) l s ->
  sumidero_tras (batch_size args) (l ++ [f]) (anexar args s f).
Proof.
  intros [Hf Hc He Hl Hh Hn]. unfold anexar.
  set (s' := {| escribir_header := escribir_header s;
                filas_batch := filas_batch s ++ [f];
                escritos := escritos s;
                archivo := archivo s |}).
  assert (Hlen : Z.of_nat (length (l ++ [f])) = Z.of_nat (length l) + 1).
  { rewrite length_app. simpl. lia. }
  assert (Hbat : Z.of_nat (length (filas_batch s')) = Z.of_nat (length (filas_batch s)) + 1).
  { simpl. rewrite length_app. simpl. lia. }
  destruct (Z.geb_spec (Z.of_nat (length (filas_batch s'))) (batch_size args)) as [Hg|Hg].
  - apply sumidero_tras_volcar; simpl; try assumption.
    + intros E. apply app_eq_nil in E as [_ E]. discriminate.
    + rewrite app_assoc, Hf. reflexivity.
    + intros HB. destruct (Hc HB) as [Hm Hq].
      destruct (division_siguiente (batch_size args) (Z.of_nat (length l)) HB
                  ltac:(lia)) as [[Hm' Hq'] _]; [lia|].
      rewrite Hlen, Hm', Hq', Hq. split; reflexivity.
  - split; simpl; try assumption.
    + rewrite app_assoc, Hf. reflexivity.
    + intros HB. destruct (Hc HB) as [Hm Hq].
      destruct (division_siguiente (batch_size args) (Z.of_nat (length l)) HB
                  ltac:(lia)) as [_ [Hm' Hq']]; [lia|].
      rewrite Hlen, Hm', Hq'. simpl in Hbat. split; [lia|exact Hq].
Qed.

Lemma sumidero_tras_fold (args : argumentos) (filas l : list fila) (s : sumidero) :
  sumidero_tras (batch_size args) l s ->
  sumidero_tras (batch_size args) (l ++ filas) (fold_left (anexar args) filas s).
Proof.
  revert l s. induction filas as [|f filas IH]; intros l s Hs; simpl.
  - rewrite app_nil_r. exact Hs.
  - replace (l ++ f :: filas) with ((l ++ [f]) ++ filas) by (rewrite <- app_assoc; reflexivity).
    apply IH, sumidero_tras_anexar; assumption.
Qed.

(** ** The fetch phase *)

Section PropiedadesDescarga.

Context {bib : Biblioteca}.

Lemma fmap_Ok {A B : Type} (g : A -> B) (m : resultado A) (b : B) :
  g <$> m = Ok b -> exists a, m = Ok a /\ b = g a.
Proof. destruct m as [a|e]; simpl; [|discriminate]. intros E. apply Ok_inj in E. eauto. Qed.

Lemma detalle_a_fila_construida (desde_dt hasta_dt : date) (payload : value) (f : fila) :
  detalle_a_fila desde_dt hasta_dt payload = Ok (Some f) ->
  exists oc, construir_fila_oc oc = Ok f.
Proof.
  unfold detalle_a_fila. intros H.
  apply bind_Ok in H as ([oc|] & _ & H); [|discriminate].
  unfold fila_si_vigente in H.
  destruct (fecha_creacion_de oc); [|discriminate].
  destruct (_ || _); [discriminate|].
  apply fmap_Ok in H as (f' & Hf & E). injection E as ->. eauto.
Qed.

Lemma tarea_fila_no_vacia (srv : servicio) (args : argumentos) (desde_dt hasta_dt : date)
  (codigo : value) (f : fila) :
  fst (procesar_detalle srv args desde_dt hasta_dt codigo) = Ok (Some f) -> f <> [].
Proof.
  unfold procesar_detalle. simpl.
  destruct (fst (request_with_retries _ _ _)) as [r|]; [|discriminate].
  destruct (json r) as [payload|]; [|discriminate].
  intros H. apply detalle_a_fila_construida in H as [oc H].
  apply construir_fila_oc_claves in H. intros ->. discriminate.
Qed.

Lemma escritas_antes_todas (filas : list fila) :
  forallb csv_escribible filas = true -> escritas_antes filas = filas.
Proof.
  induction filas as [|f filas IH]; simpl; [reflexivity|].
  destruct (csv_escribible f); simpl; [|discriminate]. intros H. rewrite IH by exact H.
  reflexivity.
Qed.

(** A [flush()] that returns has written every row of the batch. *)
Lemma flush_escribible (s : sumidero) :
  forallb csv_escribible (filas_batch s) = true -> flush s = (volcar s, None).
Proof.
  intros H. unfold flush, volcar. destruct (filas_batch s) as [|f lote] eqn:E; [reflexivity|].
  rewrite H, (escritas_antes_todas _ H). reflexivity.
Qed.

Lemma flush_retorna (s s' : sumidero) : flush s = (s', None) -> s' = volcar s.
Proof.
  destruct (forallb csv_escribible (filas_batch s)) eqn:E.
  - rewrite (flush_escribible s E). intros H. injection H as <-. reflexivity.
  - unfold flush. destruct (filas_batch s) as [|f lote] eqn:El; [discriminate|].
    rewrite E. discriminate.
Qed.

Lemma acumular_escribible (args : argumentos) (s : sumidero) (f : fila) :
  forallb csv_escribible (filas_batch s ++ [f]) = true ->
  acumular args s f = (anexar args s f, None).
Proof.
  intros H. unfold acumular, anexar.
  destruct (Z.geb _ _); [|reflexivity]. apply flush_escribible. exact H.
Qed.

Lemma acumular_retorna (args : argumentos) (s s' : sumidero) (f : fila) :
  acumular args s f = (s', None) -> s' = anexar args s f.
Proof.
  unfold acumular, anexar. destruct (Z.geb _ _).
  - apply flush_retorna.
  - intros H. injection H as <-. reflexivity.
Qed.

(** What is in the batch has been accepted. *)
Lemma lote_escribible (B : Z) (l : list fila) (s : sumidero) :
  sumidero_tras B l s ->
  Forall (fun f => csv_escribible f = true) l ->
  forallb csv_escribible (filas_batch s) = true.
Proof.
  intros Hs Hl. rewrite <- (tras_filas _ _ _ Hs) in Hl. apply Forall_app in Hl as [_ Hl].
  apply forallb_forall. intros f Hf. rewrite Forall_forall in Hl.
  apply Hl, list_elem_of_In, Hf.
Qed.

Lemma acumular_aceptada (args : argumentos) (l : list fila) (s : sumidero) (f : fila) :
  sumidero_tras (batch_size args) l s ->
  Forall (fun f => csv_escribible f = true) (l ++ [f]) ->
  acumular args s f = (anexar args s f, None).
Proof.
  intros Hs Hl. apply acumular_escribible. apply Forall_app in Hl as [H1 H2].
  rewrite forallb_app, (lote_escribible _ _ _ Hs H1). simpl.
  rewrite (Forall_inv H2). reflexivity.
Qed.

Lemma iteracion_detalle_tarea (srv : servicio) (args : argumentos)
  (desde_dt hasta_dt : date) (s : sumidero) (codigo : value) :
  fst (iteracion_detalle srv args desde_dt hasta_dt s codigo)
  = match fst (procesar_detalle srv args desde_dt hasta_dt codigo) with
    | Ok (Some f) => acumular args s f
    | Ok None => (s, None)
    | Raise e => (s, Some e)
    end.
Proof.
  unfold iteracion_detalle, procesar_detalle. simpl.
  destruct (fst (request_with_retries _ _ _)) as [r|]; [|reflexivity].
  destruct (json r) as [payload|]; [|reflexivity].
  destruct (detalle_a_fila _ _ _) as [[f|]|e]; try reflexivity.
  destruct (acumular args s f) as [s' [e|]]; reflexivity.
Qed.

Lemma filas_aceptadas_cons (srv : servicio) (args : argumentos) (desde_dt hasta_dt : date)
  (codigo : value) (resto : list value) :
  filas_aceptadas srv args desde_dt hasta_dt (codigo :: resto)
  = match fila_de_tarea (fst (procesar_detalle srv args desde_dt hasta_dt codigo)) with
    | Some f => f :: filas_aceptadas srv args desde_dt hasta_dt resto
    | None => filas_aceptadas srv args desde_dt hasta_dt resto
    end.
Proof. reflexivity. Qed.

(** One iteration that no exception leaves has taken the row of its task,
    if the task gave one. *)
Lemma iteracion_detalle_retorna (srv : servicio) (args : argumentos)
  (desde_dt hasta_dt : date) (s s' : sumidero) (codigo : value) (t : list evento) :
  iteracion_detalle srv args desde_dt hasta_dt s codigo = (s', None, t) ->
  s' = fold_left (anexar args) (filas_aceptadas srv args desde_dt hasta_dt [codigo]) s.
Proof.
  intros H. pose proof (iteracion_detalle_tarea srv args desde_dt hasta_dt s codigo) as Ht.
  rewrite H in Ht. cbn [fst] in Ht. rewrite filas_aceptadas_cons.
  destruct (fst (procesar_detalle _ _ _ _ codigo)) as [[f|]|e]; simpl.
  - symmetry in Ht. apply acumular_retorna in Ht. exact Ht.
  - injection Ht as ->. reflexivity.
  - discriminate.
Qed.

Lemma filas_aceptadas_app (srv : servicio) (args : argumentos) (desde_dt hasta_dt : date)
  (l1 l2 : list value) :
  filas_aceptadas srv args desde_dt hasta_dt (l1 ++ l2)
  = filas_aceptadas srv args desde_dt hasta_dt l1
    ++ filas_aceptadas srv args desde_dt hasta_dt l2.
Proof. unfold filas_aceptadas. apply omap_app. Qed.

(** Sequential mode: when no exception escapes, the sink has accumulated
    the accepted rows, in the order of [codigos]. *)
Lemma descargar_secuencial_retorna (srv : servicio) (args : argumentos)
  (desde_dt hasta_dt : date) (codigos : list value) :
  forall s fin t,
    descargar_secuencial srv args desde_dt hasta_dt codigos s = (fin, None, t) ->
    fin = fold_left (anexar args)
            (filas_aceptadas srv args desde_dt hasta_dt codigos) s.
Proof.
  induction codigos as [|codigo resto IH]; intros s fin t H; simpl in H.
  - injection H as <- _. reflexivity.
  - destruct (iteracion_detalle _ _ _ _ s codigo) as [[s1 [e1|]] t1] eqn:Ei;
      [discriminate|].
    destruct (descargar_secuencial _ _ _ _ resto s1) as [[fin' e'] t'] eqn:E.
    injection H as <- -> _. apply IH in E. rewrite E.
    apply iteracion_detalle_retorna in Ei. rewrite Ei.
    change (codigo :: resto) with ([codigo] ++ resto).
    rewrite filas_aceptadas_app, fold_left_app. reflexivity.
Qed.

(** Sequential mode: no exception escapes when no task raises and every
    accepted row can be written. *)
Lemma descargar_secuencial_sin_error (srv : servicio) (args : argumentos)
  (desde_dt hasta_dt : date) (codigos : list value) :
  Forall (fun codigo => exists o,
            fst (procesar_detalle srv args desde_dt hasta_dt codigo) = Ok o) codigos ->
  forall l s,
    sumidero_tras (batch_size args) l s ->
    Forall (fun f => csv_escribible f = true)
           (l ++ filas_aceptadas srv args desde_dt hasta_dt codigos) ->
    snd (fst (descargar_secuencial srv args desde_dt hasta_dt codigos s)) = None.
Proof.
  induction 1 as [|codigo resto [o Ho] _ IH]; intros l s Hs Hl; simpl; [reflexivity|].
  pose proof (iteracion_detalle_tarea srv args desde_dt hasta_dt s codigo) as Ht.
  rewrite Ho in Ht. rewrite filas_aceptadas_cons, Ho in Hl.
  destruct (iteracion_detalle _ _ _ _ s codigo) as [[s1 e1] t1]. cbn [fst] in Ht.
  destruct o as [f|]; simpl in Hl.
  - rewrite (acumular_aceptada args l s f Hs) in Ht.
    + injection Ht as -> ->.
      specialize (IH (l ++ [f]) (anexar args s f) (sumidero_tras_anexar args l s f Hs)).
      rewrite <- app_assoc in IH. specialize (IH Hl).
      destruct (descargar_secuencial _ _ _ _ resto _) as [[fin' e'] t']. exact IH.
    + apply Forall_app in Hl as [H1 H2]. apply Forall_app. split; [exact H1|].
      constructor; [exact (Forall_inv H2)|constructor].
  - injection Ht as -> ->. specialize (IH l s Hs Hl).
    destruct (descargar_secuencial _ _ _ _ resto _) as [[fin' e'] t']. exact IH.
Qed.

Lemma recoger_tarea (srv : servicio) (args : argumentos) (desde_dt hasta_dt : date)
  (s : sumidero) (codigo : value) :
  recoger args s (fst (procesar_detalle srv args desde_dt hasta_dt codigo))
  = match fila_de_tarea (fst (procesar_detalle srv args desde_dt hasta_dt codigo)) with
    | Some f => acumular args s f
    | None => (s, None)
    end.
Proof.
  unfold recoger.
  destruct (fst (procesar_detalle _ _ _ _ codigo)) as [[f|]|e] eqn:E; simpl;
    try reflexivity.
  destruct f as [|c f]; [|reflexivity].
  destruct (tarea_fila_no_vacia _ _ _ _ _ _ E eq_refl).
Qed.

(** Concurrent mode: when no exception leaves the loop over the completed
    futures, the sink has accumulated the accepted rows, in completion
    order. *)
Lemma recoger_todos_retorna (srv : servicio) (args : argumentos)
  (desde_dt hasta_dt : date) (completadas : list value) :
  forall s fin,
    recoger_todos args
      (map fst (map (procesar_detalle srv args desde_dt hasta_dt) completadas)) s
    = (fin, None) ->
    fin = fold_left (anexar args)
            (filas_aceptadas srv args desde_dt hasta_dt completadas) s.
Proof.
  induction completadas as [|codigo resto IH]; intros s fin H; cbn [map recoger_todos] in H.
  - injection H as <-. reflexivity.
  - rewrite recoger_tarea in H. rewrite filas_aceptadas_cons.
    destruct (fila_de_tarea _) as [f|].
    + destruct (acumular args s f) as [s1 [e1|]] eqn:Ea; [discriminate|].
      apply acumular_retorna in Ea. subst s1. simpl. apply IH, H.
    + apply IH, H.
Qed.

Lemma recoger_todos_sin_error (srv : servicio) (args : argumentos)
  (desde_dt hasta_dt : date) (completadas : list value) :
  forall l s,
    sumidero_tras (batch_size args) l s ->
    Forall (fun f => csv_escribible f = true)
           (l ++ filas_aceptadas srv args desde_dt hasta_dt completadas) ->
    snd (recoger_todos args
           (map fst (map (procesar_detalle srv args desde_dt hasta_dt) completadas)) s)
    = None.
Proof.
  induction completadas as [|codigo resto IH]; intros l s Hs Hl; cbn [map recoger_todos];
    [reflexivity|].
  rewrite recoger_tarea. rewrite filas_aceptadas_cons in Hl.
  destruct (fila_de_tarea _) as [f|].
  - rewrite (acumular_aceptada args l s f Hs).
    + apply (IH (l ++ [f])); [apply sumidero_tras_anexar, Hs|].
      rewrite <- app_assoc. exact Hl.
    + apply Forall_app in Hl as [H1 H2]. apply Forall_app. split; [exact H1|].
      constructor; [exact (Forall_inv H2)|constructor].
  - apply (IH l); assumption.
Qed.

Lemma terminar_retorna (s : sumidero) (t : list (list evento)) :
  escapada (terminar s t) = None -> sumidero_final (terminar s t) = volcar s.
Proof.
  unfold terminar. destruct (flush s) as [s' e] eqn:E. simpl. intros ->.
  apply flush_retorna, E.
Qed.

Lemma terminar_escribible (B : Z) (l : list fila) (s : sumidero) (t : list (list evento)) :
  sumidero_tras B l s ->
  Forall (fun f => csv_escribible f = true) l ->
  escapada (terminar s t) = None.
Proof.
  intros Hs Hl. unfold terminar. rewrite (flush_escribible s (lote_escribible B l s Hs Hl)).
  reflexivity.
Qed.

(** Either mode: a run that returns leaves the sink flushed after the
    accepted rows, taken in the order of the run. *)
Lemma descargar_retorna (srv : servicio) (plan : planificador) (codigos : list value)
  (args : argumentos) (desde_dt hasta_dt : date) (previo : option tabla) :
  let fin := descargar_detalle_y_escribir srv plan codigos args desde_dt hasta_dt previo in
  escapada fin = None ->
  sumidero_final fin
  = volcar (fold_left (anexar args)
             (filas_aceptadas srv args desde_dt hasta_dt (orden_de (completadas_detalle plan) args codigos))
             (sumidero_inicial previo)).
Proof.
  unfold descargar_detalle_y_escribir, orden_de.
  destruct (Z.leb (workers args) 1).
  - destruct (descargar_secuencial _ _ _ _ _ _) as [[s [e|]] t] eqn:E; simpl;
      [discriminate|].
    intros H. rewrite (terminar_retorna _ _ H). f_equal.
    eapply descargar_secuencial_retorna. exact E.
  - destruct (recoger_todos _ _ _) as [s [e|]] eqn:E; simpl; [discriminate|].
    intros H. rewrite (terminar_retorna _ _ H). f_equal.
    eapply recoger_todos_retorna. exact E.
Qed.

(** A run returns when every row it accepts can be written and, in
    sequential mode, no task raises: in concurrent mode the exception of a
    task never leaves the phase. *)
Lemma descargar_escribible (srv : servicio) (plan : planificador)
  (codigos : list value) (args : argumentos) (desde_dt hasta_dt : date)
  (previo : option tabla) :
  let tareas := orden_de (completadas_detalle plan) args codigos in
  (workers args <= 1 ->
   Forall (fun codigo => exists o,
             fst (procesar_detalle srv args desde_dt hasta_dt codigo) = Ok o) tareas) ->
  Forall (fun f => csv_escribible f = true)
         (filas_aceptadas srv args desde_dt hasta_dt tareas) ->
  escapada (descargar_detalle_y_escribir srv plan codigos args desde_dt hasta_dt previo)
  = None.
Proof.
  unfold descargar_detalle_y_escribir, orden_de.
  destruct (Z.leb_spec (workers args) 1) as [Hw|Hw]; intros Ht Hl.
  - pose proof (descargar_secuencial_sin_error srv args desde_dt hasta_dt codigos (Ht Hw)
                  [] (sumidero_inicial previo) (sumidero_tras_inicial _ previo) Hl) as E.
    destruct (descargar_secuencial _ _ _ _ _ _) as [[s e] t] eqn:Ed. simpl in E. subst e.
    apply descargar_secuencial_retorna in Ed.
    apply (terminar_escribible (batch_size args)
             (filas_aceptadas srv args desde_dt hasta_dt codigos)); [|exact Hl].
    rewrite Ed. apply (sumidero_tras_fold args _ []), sumidero_tras_inicial.
  - pose proof (recoger_todos_sin_error srv args desde_dt hasta_dt
                  (completadas_detalle plan codigos)
                  [] (sumidero_inicial previo) (sumidero_tras_inicial _ previo) Hl) as E.
    destruct (recoger_todos _ _ _) as [s e] eqn:Ed. simpl in E. subst e.
    apply recoger_todos_retorna in Ed.
    apply (terminar_escribible (batch_size args)
             (filas_aceptadas srv args desde_dt hasta_dt (completadas_detalle plan codigos)));
      [|exact Hl].
    rewrite Ed. apply (sumidero_tras_fold args _ []), sumidero_tras_inicial.
Qed.

End PropiedadesDescarga.

Lemma filas_de_lineas_bloque (cabecera : bool) (fs : list fila) :
  filas_de_lineas ((if cabecera then [Cabecera COLUMNAS] else []) ++ map Registro fs) = fs.
Proof.
  rewrite filas_de_lineas_app, filas_de_lineas_registros. destruct cabecera; reflexivity.
Qed.

(** The counts of a run, from the invariant at the end of its loop. *)
Lemma sumidero_tras_final (B : Z) (l : list fila) (s : sumidero) :
  1 <= B ->
  sumidero_tras B l s ->
  filas_de (archivo (volcar s)) = l
  /\ escritos (volcar s) = length l
  /\ filas_batch (volcar s) = []
  /\ Z.of_nat (length (default [] (archivo (volcar s)))) = (Z.of_nat (length l) + B - 1) / B
  /\ (0 < Z.of_nat (length l) mod B ->
      exists bloques ultimo,
        archivo (volcar s) = Some (bloques ++ [ultimo])
        /\ Z.of_nat (length bloques) = Z.of_nat (length l) / B
        /\ filas_de_lineas ultimo
           = drop (Z.to_nat (Z.of_nat (length l) - Z.of_nat (length l) mod B)) l).
Proof.
  intros HB [Hf Hc He Hl Hh Hn]. destruct (Hc HB) as [Hm Hq].
  rewrite (techo_division B (Z.of_nat (length l)) HB ltac:(lia)).
  destruct (filas_batch s) as [|f0 batch] eqn:Eb.
  - rewrite (volcar_vacio s Eb). rewrite app_nil_r in Hf. simpl in Hm.
    rewrite <- Hm. simpl.
    repeat split; try assumption; try lia.
    rewrite He, Hf. reflexivity.
  - assert (Hne : filas_batch s <> []) by (rewrite Eb; discriminate).
    assert (Hlen : length l = (length (filas_de (archivo s)) + length (f0 :: batch))%nat).
    { rewrite <- Hf, length_app. reflexivity. }
    rewrite (volcar_lleno s Hne). simpl. rewrite filas_de_bloque, Eb.
    split; [exact Hf|]. split; [rewrite He; simpl; simpl in Hlen; lia|].
    split; [reflexivity|]. split.
    + rewrite length_app. simpl length.
      destruct (Z.eqb_spec (Z.of_nat (length l) mod B) 0); simpl in Hm; lia.
    + intros _. eexists _, _. split; [reflexivity|]. split; [exact Hq|].
      rewrite filas_de_lineas_bloque.
      replace (Z.to_nat (Z.of_nat (length l) - Z.of_nat (length l) mod B))
        with (length (filas_de (archivo s))) by lia.
      rewrite <- Hf. symmetry. apply drop_app_length.
Qed.

(** The contents of the file at the end of a run, for any batch size. *)
Lemma sumidero_tras_contenido (B : Z) (l : list fila) (s : sumidero) :
  sumidero_tras B l s ->
  (l = [] -> archivo (volcar s) = None)
  /\ (l <> [] ->
      exists bloques,
        archivo (volcar s) = Some bloques
        /\ concat bloques = Cabecera COLUMNAS :: map Registro l).
Proof.
  intros [Hf Hc He Hl Hh Hn].
  destruct (filas_batch s) as [|f0 batch] eqn:Eb.
  - rewrite (volcar_vacio s Eb). rewrite app_nil_r in Hf. split.
    + intros ->. apply Hh. destruct (escribir_header s); [reflexivity|].
      destruct (Hn eq_refl Hf).
    + intros Hne. destruct (archivo s) as [bloques|] eqn:Ea.
      * exists bloques. split; [reflexivity|].
        destruct (escribir_header s) eqn:Eh.
        -- assert (En : Some bloques = None) by (apply Hh; reflexivity). discriminate.
        -- simpl in Hl. rewrite Hl, Hf. reflexivity.
      * destruct Hne. rewrite <- Hf. reflexivity.
  - assert (Hne : filas_batch s <> []) by (rewrite Eb; discriminate).
    rewrite (volcar_lleno s Hne). simpl. split.
    + intros ->. destruct (filas_de (archivo s)); discriminate.
    + intros _. eexists. split; [reflexivity|].
      rewrite concat_app, Hl. simpl. rewrite app_nil_r, Eb.
      destruct (escribir_header s) eqn:Eh.
      * assert (En : archivo s = None) by (apply Hh; reflexivity).
        rewrite En in Hf. simpl in Hf. rewrite <- Hf. reflexivity.
      * rewrite <- Hf, map_app. reflexivity.
Qed.

Lemma sumidero_inicial_igual (previo : option tabla) :
  sumidero_inicial previo = sumidero_inicial None.
Proof. destruct previo; reflexivity. Qed.

Section PropiedadesSumidero.

Context {bib : Biblioteca}.

(** X28: in a fetch phase that returns, with batch size B >= 1 and M
    accepted rows, the table holds exactly those M rows in the order they
    were accepted, [escritos] is M, the file was appended to ceil(M/B)
    times, and when M mod B > 0 the last appended block is the final
    partial batch, the last M mod B rows, written by the final [flush]. *)
Theorem lotes_completos (srv : servicio) (plan : planificador) (codigos : list value)
  (args : argumentos) (desde_dt hasta_dt : date) (previo : option tabla) :
  1 <= batch_size args ->
  let fin := descargar_detalle_y_escribir srv plan codigos args desde_dt hasta_dt previo in
  escapada fin = None ->
  let filas := filas_aceptadas srv args desde_dt hasta_dt (orden_de (completadas_detalle plan) args codigos) in
  let M := Z.of_nat (length filas) in
  let B := batch_size args in
  filas_de (archivo (sumidero_final fin)) = filas
  /\ escritos (sumidero_final fin) = length filas
  /\ filas_batch (sumidero_final fin) = []
  /\ Z.of_nat (length (default [] (archivo (sumidero_final fin)))) = (M + B - 1) / B
  /\ (0 < M mod B ->
      exists bloques ultimo,
        archivo (sumidero_final fin) = Some (bloques ++ [ultimo])
        /\ Z.of_nat (length bloques) = M / B
        /\ filas_de_lineas ultimo = drop (Z.to_nat (M - M mod B)) filas).
Proof.
  intros HB fin Hfin filas M B. subst fin.
  rewrite (descargar_retorna srv plan codigos args desde_dt hasta_dt previo Hfin).
  apply sumidero_tras_final; [exact HB|].
  apply (sumidero_tras_fold args filas []), sumidero_tras_inicial.
Qed.

(** C6, as amended: a run that returns leaves a table exactly when it
    accepted at least one row, and then the file is the header followed by
    the accepted rows; with no accepted row there is no file at the path.
    In both cases nothing of a file that was there before remains: the
    outcome does not depend on it. *)
Theorem tabla_al_final (srv : servicio) (plan : planificador) (codigos : list value)
  (args : argumentos) (desde_dt hasta_dt : date) (previo : option tabla) :
  let fin := descargar_detalle_y_escribir srv plan codigos args desde_dt hasta_dt previo in
  escapada fin = None ->
  let filas := filas_aceptadas srv args desde_dt hasta_dt (orden_de (completadas_detalle plan) args codigos) in
  (filas = [] -> archivo (sumidero_final fin) = None)
  /\ (filas <> [] ->
      exists bloques,
        archivo (sumidero_final fin) = Some bloques
        /\ concat bloques = Cabecera COLUMNAS :: map Registro filas)
  /\ (forall previo',
        descargar_detalle_y_escribir srv plan codigos args desde_dt hasta_dt previo' = fin).
Proof.
  intros fin Hfin filas. subst fin.
  rewrite (descargar_retorna srv plan codigos args desde_dt hasta_dt previo Hfin).
  destruct (sumidero_tras_contenido (batch_size args) filas
              (fold_left (anexar args) filas (sumidero_inicial previo))) as [H1 H2].
  { apply (sumidero_tras_fold args filas []), sumidero_tras_inicial. }
  split; [exact H1|]. split; [exact H2|].
  intros previo'. unfold descargar_detalle_y_escribir.
  rewrite (sumidero_inicial_igual previo), (sumidero_inicial_igual previo'). reflexivity.
Qed.

End PropiedadesSumidero.

Lemma lotes_completos_witness :
  filas_de (archivo (sumidero_final
    (descargar_detalle_y_escribir (bib := biblioteca_ejemplo) servicio_usual en_orden
       [VStr "A"; VStr "B"] args_secuencial 738890 738891 None)))
  = filas_aceptadas (bib := biblioteca_ejemplo) servicio_usual args_secuencial
      738890 738891 [VStr "A"; VStr "B"].
Proof.
  refine (proj1 (lotes_completos (bib := biblioteca_ejemplo) servicio_usual en_orden
                   [VStr "A"; VStr "B"] args_secuencial 738890 738891 None _ _)).
  - simpl. lia.
  - vm_compute. reflexivity.
Defined.

(** C3 fails on the code: in sequential mode the exception of a task
    leaves the loop and the final [flush()] is not reached. Here the row
    of A is accepted (M = 1, B = 1000), the task of B raises, and the
    phase ends with that row in the batch and no table: the partial batch
    is dropped. *)
Theorem lote_parcial_perdido :
  let fin := descargar_detalle_y_escribir (bib := biblioteca_ejemplo) servicio_items_escalar
               en_orden [VStr "A"; VStr "B"] args_secuencial 738890 738891 None in
  1 <= batch_size args_secuencial
  /\ (exists f,
        fst (procesar_detalle (bib := biblioteca_ejemplo) servicio_items_escalar
               args_secuencial 738890 738891 (VStr "A")) = Ok (Some f)
        /\ filas_batch (sumidero_final fin) = [f])
  /\ escapada fin = Some TypeError
  /\ archivo (sumidero_final fin) = None
  /\ filas_de (archivo (sumidero_final fin)) = []
  /\ escritos (sumidero_final fin) = 0%nat.
Proof.
  cbv zeta. split; [simpl; lia|]. split.
  - eexists. split; vm_compute; reflexivity.
  - repeat split; vm_compute; reflexivity.
Qed.

Lemma tabla_al_final_witness :
  exists bloques,
    archivo (sumidero_final
      (descargar_detalle_y_escribir (bib := biblioteca_ejemplo) servicio_usual al_reves
         [VStr "A"; VStr "B"] args_concurrente 738890 738891 (Some [[Cabecera []]])))
    = Some bloques
    /\ concat bloques
       = Cabecera COLUMNAS
         :: map Registro
              (filas_aceptadas (bib := biblioteca_ejemplo) servicio_usual args_concurrente
                 738890 738891 [VStr "B"; VStr "A"]).
Proof.
  refine (proj1 (proj2 (tabla_al_final (bib := biblioteca_ejemplo) servicio_usual al_reves
                          [VStr "A"; VStr "B"] args_concurrente 738890 738891
                          (Some [[Cabecera []]]) _)) _).
  - vm_compute. reflexivity.
  - vm_compute. discriminate.
Defined.

(** C6 as stated fails when no row is accepted: the file that was at the
    path is removed and none is created, and [main] still ends with 0. *)
Lemma sin_filas_sin_tabla_contra :
  let fin := descargar_detalle_y_escribir (bib := biblioteca_ejemplo) servicio_404 en_orden
               [VStr "A"] args_secuencial 738890 738891 (Some [[Cabecera COLUMNAS]]) in
  escapada fin = None
  /\ archivo (sumidero_final fin) = None
  /\ main_con (bib := biblioteca_ejemplo) servicio_404 en_orden ["7271"] args_secuencial
       738890 738891 (Some [[Cabecera COLUMNAS]]) = (0, None).
Proof. vm_compute. repeat split. Qed.

(** ** The validity filter *)

Section PropiedadesFiltro.

Context {bib : Biblioteca}.

(** A record with no readable creation date, or dated outside the window,
    never gives a Row. *)
Lemma filtro_rechaza (desde_dt hasta_dt : date) (oc : value) :
  (fecha_creacion_de oc = None
   \/ exists d, fecha_creacion_de oc = Some d /\ (d < desde_dt \/ hasta_dt < d)) ->
  fila_si_vigente desde_dt hasta_dt oc = Ok None.
Proof.
  unfold fila_si_vigente. intros [-> | (d & -> & Hd)]; [reflexivity|].
  destruct (Z.ltb_spec d desde_dt); [reflexivity|].
  destruct (Z.gtb_spec d hasta_dt); [reflexivity|lia].
Qed.

(** A record dated inside the window, its two ends included, is handed to
    the projection, and the Row is what the projection returns. *)
Lemma filtro_acepta (desde_dt hasta_dt : date) (oc : value) (d : date) :
  fecha_creacion_de oc = Some d ->
  desde_dt <= d <= hasta_dt ->
  fila_si_vigente desde_dt hasta_dt oc = Some <$> construir_fila_oc oc.
Proof.
  unfold fila_si_vigente. intros -> Hd.
  destruct (Z.ltb_spec d desde_dt); [lia|].
  destruct (Z.gtb_spec d hasta_dt); [lia|reflexivity].
Qed.

Lemma filtro_acepta_bordes (desde_dt hasta_dt : date) (oc : value) (d : date) (f : fila) :
  desde_dt <= hasta_dt ->
  fecha_creacion_de oc = Some d ->
  d = desde_dt \/ d = hasta_dt ->
  construir_fila_oc oc = Ok f ->
  fila_si_vigente desde_dt hasta_dt oc = Ok (Some f).
Proof.
  intros Hv Hd Hb Hf. rewrite (filtro_acepta _ _ _ d Hd) by lia.
  rewrite Hf. reflexivity.
Qed.

(** ** Pacing *)

Lemma bucle_sin_pausa (session : nat -> intento) (params : peticion) (retries : Z) :
  forall k attempt wait,
    Z.to_nat (retries - Z.of_nat attempt) = k ->
    Forall (fun e => es_pausa e = false)
           (snd (bucle_reintentos session params retries attempt wait)).
Proof.
  induction k as [|k IH]; intros attempt wait Hk; rewrite bucle_reintentos_eq.
  - destruct (decide (Z.of_nat attempt < retries)); [lia|]. constructor.
  - destruct (decide (Z.of_nat attempt < retries)); [|constructor].
    destruct (clasificar (session attempt)); simpl.
    + repeat constructor.
    + repeat constructor. apply IH. lia.
Qed.

Lemma request_sin_pausa (session : nat -> intento) (params : peticion) (retries : Z) :
  Forall (fun e => es_pausa e = false) (snd (request_with_retries session params retries)).
Proof. unfold request_with_retries. eapply bucle_sin_pausa. reflexivity. Qed.

(** Sequential discovery: a request that gives no response, or a body that
    is not JSON, is followed by no pause. *)
Lemma iteracion_listado_sin_pausa (srv : servicio) (args : argumentos)
  (st : descubiertos) (combinacion : date * string) :
  let params := PListado (fst combinacion) (snd combinacion) in
  (forall r, fst (request_with_retries (srv params) params (retries args)) = Some r ->
             json r = None) ->
  Forall (fun e => es_pausa e = false) (snd (iteracion_listado srv args st combinacion)).
Proof.
  intros params H. unfold iteracion_listado. fold params.
  destruct (fst (request_with_retries _ _ _)) as [r|] eqn:E; simpl.
  - rewrite (H r eq_refl). apply request_sin_pausa.
  - apply request_sin_pausa.
Qed.

(** Sequential fetch: a request whose record gives no Row (no response,
    no JSON, no record, or a record the filter rejects) is followed by no
    pause. *)
Lemma iteracion_detalle_sin_pausa (srv : servicio) (args : argumentos)
  (desde_dt hasta_dt : date) (s : sumidero) (codigo : value) :
  fst (procesar_detalle srv args desde_dt hasta_dt codigo) = Ok None ->
  Forall (fun e => es_pausa e = false)
         (snd (iteracion_detalle srv args desde_dt hasta_dt s codigo)).
Proof.
  unfold procesar_detalle, iteracion_detalle. simpl.
  destruct (fst (request_with_retries _ _ _)) as [r|]; [|intros _; apply request_sin_pausa].
  destruct (json r) as [payload|]; [|intros _; apply request_sin_pausa].
  intros ->. apply request_sin_pausa.
Qed.

(** Concurrent fetch: whatever the outcome of the task, its last event is
    the pause. *)
Lemma procesar_detalle_pausa (srv : servicio) (args : argumentos)
  (desde_dt hasta_dt : date) (codigo : value) :
  last (snd (procesar_detalle srv args desde_dt hasta_dt codigo)) = Some EvPausaDetalle.
Proof. unfold procesar_detalle. simpl. apply last_snoc. Qed.

End PropiedadesFiltro.

(** C2 fails on the code for a record on an end of the window whose
    [Items] is a number: the filter lets it through and the projection
    raises, so the task gives no Row and a concurrent run, which returns,
    writes none. *)
Theorem borde_sin_fila :
  fecha_creacion_de (bib := biblioteca_ejemplo) registro_items_escalar = Some 738890
  /\ fila_si_vigente (bib := biblioteca_ejemplo) 738890 738891 registro_items_escalar
     = Raise TypeError
  /\ (let fin := descargar_detalle_y_escribir (bib := biblioteca_ejemplo)
                   servicio_items_escalar en_orden [VStr "B"] args_concurrente
                   738890 738891 None in
      escapada fin = None /\ filas_de (archivo (sumidero_final fin)) = []).
Proof. vm_compute. repeat split. Qed.

(** C7 fails on the code in sequential mode: after a terminal status, after
    the retries are exhausted and after a record the filter rejects, the
    trace of the run holds the request and no pause; in concurrent mode the
    same requests are followed by the pause. *)
Theorem pausa_omitida_en_secuencial :
  snd (listar_oc_por_rango servicio_404 en_orden ["7271"] 738890 738890 args_secuencial)
  = [[EvGet (PListado 738890 "7271")]]
  /\ snd (listar_oc_por_rango servicio_404 en_orden ["7271"] 738890 738890 args_concurrente)
     = [[EvGet (PListado 738890 "7271"); EvPausaListado]]
  /\ snd (listar_oc_por_rango servicio_503 en_orden ["7271"] 738890 738890
            {| workers := 1; retries := 2; batch_size := 1000 |})
     = [[EvGet (PListado 738890 "7271"); EvEspera 1;
         EvGet (PListado 738890 "7271"); EvEspera 2]]
  /\ trazas (descargar_detalle_y_escribir (bib := biblioteca_ejemplo) servicio_usual
               en_orden [VStr "B"] args_secuencial 738890 738890 None)
     = [[EvGet (PDetalle (VStr "B"))]]
  /\ trazas (descargar_detalle_y_escribir (bib := biblioteca_ejemplo) servicio_usual
               en_orden [VStr "B"] args_concurrente 738890 738890 None)
     = [[EvGet (PDetalle (VStr "B")); EvPausaDetalle]].
Proof. vm_compute. repeat split. Qed.

(** C9 fails on the code: with the same responses, where the detail of B
    has a number as [Items], the sequential run lets the TypeError escape
    (it ends with 1 and leaves no table, the row of A still in the batch)
    while the concurrent run catches it and writes the row of A. *)
Theorem modos_divergen :
  main_con (bib := biblioteca_ejemplo) servicio_items_escalar en_orden ["7271"]
    args_secuencial 738890 738891 None = (1, None)
  /\ (exists f,
        construir_fila_oc (bib := biblioteca_ejemplo) registro_usual = Ok f
        /\ main_con (bib := biblioteca_ejemplo) servicio_items_escalar en_orden ["7271"]
             args_concurrente 738890 738891 None
           = (0, Some [[Cabecera COLUMNAS; Registro f]])).
Proof. split; [vm_compute; reflexivity|]. eexists. split; vm_compute; reflexivity. Qed.

(** ** Discovery *)

Lemma rango_fechas_vacio (desde hasta : date) :
  hasta < desde -> rango_fechas desde hasta = [].
Proof.
  intros H. unfold rango_fechas.
  replace (Z.to_nat (hasta - desde + 1)) with 0%nat by lia. reflexivity.
Qed.

Lemma rango_fechas_cons (desde hasta : date) :
  desde <= hasta -> rango_fechas desde hasta = desde :: rango_fechas (desde + 1) hasta.
Proof.
  intros H. unfold rango_fechas.
  replace (Z.to_nat (hasta - desde + 1)) with (S (Z.to_nat (hasta - (desde + 1) + 1))) by lia.
  cbn [seq map]. f_equal; [simpl; lia|].
  rewrite <- seq_shift, map_map. apply map_ext. intros i. lia.
Qed.

(** [list(rango_fechas(desde, hasta))] raises exactly when the window is
    not empty and reaches the last day of the calendar. *)
Lemma lista_de_fechas_eq (desde hasta : date) :
  lista_de_fechas desde hasta
  = if decide (desde <= hasta /\ fecha_maxima <= hasta) then Raise OverflowError
    else Ok (rango_fechas desde hasta).
Proof.
  remember (Z.to_nat (hasta - desde + 1)) as k eqn:Hk.
  revert desde Hk. induction k as [|k IH]; intros desde Hk;
    rewrite lista_de_fechas_equation_1.
  - destruct (decide (desde <= hasta)); [lia|].
    destruct (decide (desde <= hasta /\ fecha_maxima <= hasta)); [lia|].
    rewrite rango_fechas_vacio by lia. reflexivity.
  - destruct (decide (desde <= hasta)); [|lia].
    destruct (decide (fecha_maxima < desde + 1)).
    + destruct (decide (desde <= hasta /\ fecha_maxima <= hasta)); [reflexivity|lia].
    + rewrite (IH (desde + 1)) by lia.
      destruct (decide (desde <= hasta /\ fecha_maxima <= hasta));
        destruct (decide (desde + 1 <= hasta /\ fecha_maxima <= hasta)); try lia.
      * reflexivity.
      * rewrite (rango_fechas_cons desde hasta) by lia. reflexivity.
Qed.

Lemma listar_oc_por_rango_desborda (srv : servicio) (plan : planificador)
  (organismos : list string) (desde_dt hasta_dt : date) (args : argumentos) :
  desde_dt <= hasta_dt /\ fecha_maxima <= hasta_dt ->
  listar_oc_por_rango srv plan organismos desde_dt hasta_dt args = (Raise OverflowError, []).
Proof.
  intros H. unfold listar_oc_por_rango. rewrite lista_de_fechas_eq.
  destruct (decide (desde_dt <= hasta_dt /\ fecha_maxima <= hasta_dt)); [reflexivity|].
  contradiction.
Qed.

Lemma listar_oc_por_rango_celdas (srv : servicio) (plan : planificador)
  (organismos : list string) (desde_dt hasta_dt : date) (args : argumentos) :
  ~ (desde_dt <= hasta_dt /\ fecha_maxima <= hasta_dt) ->
  listar_oc_por_rango srv plan organismos desde_dt hasta_dt args
  = let inicio := {| vistos := ∅; codigos := [] |} in
    let combinaciones := combinaciones_de organismos desde_dt hasta_dt in
    if Z.leb (workers args) 1 then
      let fin := listar_secuencial srv args combinaciones inicio in
      (codigos <$> fst fin, [snd fin])
    else
      let fin := listar_concurrente srv args (completadas_listado plan combinaciones) inicio in
      (codigos <$> fst fin, snd fin).
Proof.
  intros H. unfold listar_oc_por_rango. rewrite lista_de_fechas_eq.
  destruct (decide (desde_dt <= hasta_dt /\ fecha_maxima <= hasta_dt)); [contradiction|].
  reflexivity.
Qed.

Lemma listar_oc_por_rango_Ok (srv : servicio) (plan : planificador)
  (organismos : list string) (desde_dt hasta_dt : date) (args : argumentos)
  (codigos_ : list value) :
  fst (listar_oc_por_rango srv plan organismos desde_dt hasta_dt args) = Ok codigos_ ->
  ~ (desde_dt <= hasta_dt /\ fecha_maxima <= hasta_dt).
Proof.
  intros H Hmax. rewrite listar_oc_por_rango_desborda in H by exact Hmax. discriminate.
Qed.

Lemma para_cada_app {S A : Type} (cuerpo : S -> A -> resultado S) (l1 l2 : list A) (s : S) :
  para_cada cuerpo (l1 ++ l2) s = para_cada cuerpo l1 s ≫= para_cada cuerpo l2.
Proof.
  revert s. induction l1 as [|x l1 IH]; intros s; simpl; [reflexivity|].
  destruct (cuerpo s x) as [s'|e]; simpl; [apply IH|reflexivity].
Qed.

Lemma coherente_inicial : coherente {| vistos := ∅; codigos := [] |}.
Proof.
  split; simpl; [constructor|].
  intros k. split; [set_solver|]. intros H. inversion H.
Qed.

Lemma anotar_coherente (st st' : descubiertos) (c : value) :
  coherente st ->
  anotar st c = Ok st' ->
  coherente st'
  /\ (exists k, clave_de c = Ok k)
  /\ (forall k, k ∈ vistos st' <-> k ∈ vistos st \/ clave_de c = Ok k)
  /\ (forall x, x ∈ codigos st' -> x ∈ codigos st \/ x = c).
Proof.
  intros [Hnd Hv] H. unfold anotar in H.
  apply bind_Ok in H as (k & Hk & H). apply Ok_inj in H.
  destruct (decide (k ∈ vistos st)) as [Hin|Hin]; subst st'.
  - split; [split; assumption|]. split; [eauto|]. split.
    + intros k'. split; [tauto|]. intros [H|H]; [exact H|].
      rewrite Hk in H. injection H as <-. exact Hin.
    + intros x Hx. left. exact Hx.
  - split; [split|]; simpl.
    + rewrite map_app. simpl. apply NoDup_app. split; [exact Hnd|].
      split; [|apply NoDup_singleton].
      intros y Hy Hy'. apply list_elem_of_singleton in Hy'. subst y.
      rewrite Hk in Hy. apply Hin, Hv, Hy.
    + intros k'. rewrite map_app, elem_of_app, elem_of_union, elem_of_singleton.
      simpl. rewrite list_elem_of_singleton, Hk, <- Hv.
      split; (intros [H|H]; [left; exact H|right; congruence]).
    + split; [eauto|]. split.
      * intros k'. rewrite elem_of_union, elem_of_singleton, Hk.
        split; (intros [H|H]; [left; exact H|right; congruence]).
      * intros x Hx. apply elem_of_app in Hx as [Hx|Hx]; [left; exact Hx|].
        right. apply list_elem_of_singleton in Hx. exact Hx.
Qed.

Lemma para_cada_anotar_coherente (l : list value) :
  forall st st',
    coherente st ->
    para_cada anotar l st = Ok st' ->
    coherente st'
    /\ (forall x, x ∈ l -> exists k, clave_de x = Ok k)
    /\ (forall k, k ∈ vistos st' <-> k ∈ vistos st \/ exists x, x ∈ l /\ clave_de x = Ok k)
    /\ (forall x, x ∈ codigos st' -> x ∈ codigos st \/ x ∈ l).
Proof.
  induction l as [|c l IH]; intros st st' Hst H; simpl in H.
  - apply Ok_inj in H. subst st'. split; [exact Hst|]. split.
    + intros x Hx. inversion Hx.
    + split; [|intros x Hx; left; exact Hx].
      intros k. split; [tauto|]. intros [H|(x & Hx & _)]; [exact H|inversion Hx].
  - apply bind_Ok in H as (s1 & H1 & H).
    destruct (anotar_coherente st s1 c Hst H1) as (Hs1 & Hk & Hv1 & Hc1).
    destruct (IH s1 st' Hs1 H) as (Hst' & Hks & Hv & Hc).
    split; [exact Hst'|]. split; [|split].
    + intros x Hx. apply elem_of_cons in Hx as [->|Hx]; [exact Hk|apply Hks, Hx].
    + intros k. rewrite Hv, Hv1. split.
      * intros [[H0|H0]|(x & Hx & Hxk)]; [left; exact H0| |].
        -- right. exists c. split; [apply elem_of_cons; left; reflexivity|exact H0].
        -- right. exists x. split; [apply elem_of_cons; right; exact Hx|exact Hxk].
      * intros [H0|(x & Hx & Hxk)]; [left; left; exact H0|].
        apply elem_of_cons in Hx as [->|Hx]; [left; right; exact Hxk|].
        right. exists x. split; assumption.
    + intros x Hx. destruct (Hc x Hx) as [H0|H0].
      * destruct (Hc1 x H0) as [H2| ->]; [left; exact H2|].
        right. apply elem_of_cons. left. reflexivity.
      * right. apply elem_of_cons. right. exact H0.
Qed.

(** In a list with no two equal keys, a key that is there is there once. *)
Lemma una_vez {A B : Type} `{EqDecision B} (g : A -> B) (l : list A) (y : B) :
  NoDup (map g l) -> y ∈ map g l -> length (filter (fun c => g c = y) l) = 1%nat.
Proof.
  induction l as [|a l IH]; simpl; intros Hnd Hy; [inversion Hy|].
  apply NoDup_cons in Hnd as [Ha Hnd].
  rewrite filter_cons. destruct (decide (g a = y)) as [E|E]; simpl.
  - f_equal. subst y.
    destruct (filter (fun c => g c = g a) l) as [|b r] eqn:Ef; [reflexivity|].
    assert (Hb : b ∈ filter (fun c => g c = g a) l) by (rewrite Ef; left).
    apply list_elem_of_filter in Hb as [Hb1 Hb2].
    destruct Ha. rewrite <- Hb1. apply list_elem_of_fmap. eauto.
  - apply IH; [exact Hnd|]. apply elem_of_cons in Hy as [Hy|Hy]; [congruence|exact Hy].
Qed.

Lemma candidato_Ok (acc : list value) (registro c : value) :
  codigo_de registro = Ok c ->
  candidato acc registro = Ok (if truthy c then acc ++ [c] else acc).
Proof. unfold candidato. intros ->. reflexivity. Qed.

(** Sequential mode: the loop over a listing does what the merge does
    with the identifiers the listing yields. *)
Lemma anotar_registros (listado : list value) :
  forall st st',
    para_cada anotar_registro listado st = Ok st' ->
    exists resultados,
      (forall acc, para_cada candidato listado acc = Ok (acc ++ resultados))
      /\ para_cada anotar resultados st = Ok st'.
Proof.
  induction listado as [|registro resto IH]; intros st st' H; simpl in H.
  - apply Ok_inj in H. subst st'. exists []. split; [|reflexivity].
    intros acc. rewrite app_nil_r. reflexivity.
  - apply bind_Ok in H as (s1 & H1 & H). unfold anotar_registro in H1.
    apply bind_Ok in H1 as (c & Hc & H1).
    destruct (IH s1 st' H) as (res & Hres & Hm).
    destruct (truthy c) eqn:Et.
    + exists (c :: res). split.
      * intros acc. simpl. rewrite (candidato_Ok acc registro c Hc), Et. simpl.
        rewrite Hres, <- app_assoc. reflexivity.
      * simpl. rewrite H1. exact Hm.
    + apply Ok_inj in H1. subst s1. exists res. split; [|exact Hm].
      intros acc. simpl. rewrite (candidato_Ok acc registro c Hc), Et. simpl.
      apply Hres.
Qed.

Lemma iteracion_listado_fusiona (srv : servicio) (args : argumentos)
  (st st' : descubiertos) (combinacion : date * string) :
  fst (iteracion_listado srv args st combinacion) = Ok st' ->
  (exists resultados, fst (procesar_listado srv args combinacion) = Ok resultados)
  /\ para_cada anotar (identificadores_de srv args combinacion) st = Ok st'.
Proof.
  unfold identificadores_de, iteracion_listado, procesar_listado.
  destruct (fst (request_with_retries _ _ _)) as [r|]; simpl;
    [|intros H; split; [eauto|exact H]].
  destruct (json r) as [payload|]; simpl; [|intros H; split; [eauto|exact H]].
  destruct (listado_de payload) as [listado|e]; simpl; [|discriminate].
  destruct (para_cada anotar_registro listado st) as [s1|e] eqn:E; simpl; [|discriminate].
  intros H. apply Ok_inj in H. subst s1.
  destruct (anotar_registros listado st st' E) as (res & Hres & Hm).
  rewrite (Hres []). simpl. split; [eauto|exact Hm].
Qed.

Lemma listar_secuencial_fusiona (srv : servicio) (args : argumentos)
  (combinaciones : list (date * string)) :
  forall st st',
    fst (listar_secuencial srv args combinaciones st) = Ok st' ->
    para_cada anotar (flat_map (identificadores_de srv args) combinaciones) st = Ok st'.
Proof.
  induction combinaciones as [|combinacion resto IH]; intros st st' H; simpl in H.
  - exact H.
  - destruct (fst (iteracion_listado srv args st combinacion)) as [s1|e] eqn:E;
      simpl in H; [|discriminate].
    apply iteracion_listado_fusiona in E as [_ E].
    simpl. rewrite para_cada_app, E. simpl. apply IH, H.
Qed.

Lemma fusionar_identificadores (srv : servicio) (args : argumentos)
  (combinacion : date * string) (st : descubiertos) :
  fusionar st (fst (procesar_listado srv args combinacion))
  = para_cada anotar (identificadores_de srv args combinacion) st.
Proof. reflexivity. Qed.

Lemma listar_concurrente_fusiona (srv : servicio) (args : argumentos)
  (completadas : list (date * string)) :
  forall st,
    fst (listar_concurrente srv args completadas st)
    = para_cada anotar (flat_map (identificadores_de srv args) completadas) st.
Proof.
  unfold listar_concurrente. simpl.
  induction completadas as [|combinacion resto IH]; intros st; [reflexivity|].
  cbn [map flat_map para_cada].
  rewrite para_cada_app, fusionar_identificadores.
  destruct (para_cada anotar (identificadores_de srv args combinacion) st); simpl;
    [apply IH|reflexivity].
Qed.

Lemma descubre_flat_map (srv : servicio) (args : argumentos)
  (combinaciones : list (date * string)) (x : value) :
  descubre srv args combinaciones x
  <-> x ∈ flat_map (identificadores_de srv args) combinaciones.
Proof.
  rewrite list_elem_of_In, in_flat_map. unfold descubre, identificadores_de. split.
  - intros (comb & res & Hc & Hr & Hx). exists comb.
    rewrite Hr. split; apply list_elem_of_In; assumption.
  - intros (comb & Hc & Hx). exists comb.
    destruct (fst (procesar_listado srv args comb)) as [res|e]; [|inversion Hx].
    exists res. split; [apply list_elem_of_In, Hc|]. split; [reflexivity|].
    apply list_elem_of_In, Hx.
Qed.

Lemma descubre_permutacion (srv : servicio) (args : argumentos)
  (l1 l2 : list (date * string)) (x : value) :
  Permutation l1 l2 -> descubre srv args l1 x <-> descubre srv args l2 x.
Proof.
  intros Hp. unfold descubre.
  split; intros (comb & res & Hc & H); exists comb, res; split; try exact H.
  - rewrite <- Hp. exact Hc.
  - rewrite Hp. exact Hc.
Qed.

(** The merge of the yielded identifiers, from the empty state. *)
Lemma fusion_sin_duplicados (srv : servicio) (args : argumentos)
  (orden : list (date * string)) (st' : descubiertos) :
  para_cada anotar (flat_map (identificadores_de srv args) orden)
    {| vistos := ∅; codigos := [] |} = Ok st' ->
  NoDup (map clave_de (codigos st'))
  /\ (forall x, descubre srv args orden x -> py_count x (codigos st') = 1%nat)
  /\ (forall c, c ∈ codigos st' -> descubre srv args orden c).
Proof.
  intros H.
  destruct (para_cada_anotar_coherente _ _ _ coherente_inicial H)
    as ([Hnd Hv] & Hk & Hvis & Hc).
  split; [exact Hnd|]. split.
  - intros x Hx. apply descubre_flat_map in Hx.
    destruct (Hk x Hx) as [k Ek]. unfold py_count.
    rewrite (list_filter_iff _ (fun c => clave_de c = Ok k))
      by (intros c; rewrite Ek; reflexivity).
    apply una_vez; [exact Hnd|]. apply Hv, Hvis. right. eauto.
  - intros c Hcin. apply descubre_flat_map.
    destruct (Hc c Hcin) as [H0|H0]; [inversion H0|exact H0].
Qed.

(** The returned sequence against the identifiers the tasks return. *)
Lemma identificadores_de_las_tareas (srv : servicio) (plan : planificador)
  (organismos : list string) (desde_dt hasta_dt : date) (args : argumentos)
  (codigos_ : list value) :
  let combinaciones := combinaciones_de organismos desde_dt hasta_dt in
  Permutation (completadas_listado plan combinaciones) combinaciones ->
  fst (listar_oc_por_rango srv plan organismos desde_dt hasta_dt args) = Ok codigos_ ->
  NoDup (map clave_de codigos_)
  /\ (forall x, descubre srv args combinaciones x -> py_count x codigos_ = 1%nat)
  /\ (forall c, c ∈ codigos_ -> descubre srv args combinaciones c).
Proof.
  intros combinaciones Hplan H.
  rewrite (listar_oc_por_rango_celdas _ _ _ _ _ _ (listar_oc_por_rango_Ok _ _ _ _ _ _ _ H)) in H.
  fold combinaciones in H.
  destruct (Z.leb (workers args) 1); cbv beta zeta in H; cbn [fst] in H.
  - apply fmap_Ok in H as (st' & H & ->).
    apply listar_secuencial_fusiona in H.
    apply fusion_sin_duplicados. exact H.
  - apply fmap_Ok in H as (st' & H & ->).
    rewrite listar_concurrente_fusiona in H.
    destruct (fusion_sin_duplicados srv args _ st' H) as (Hnd & Hx & Hc).
    split; [exact Hnd|]. split.
    + intros x Hd. apply Hx.
      apply (descubre_permutacion srv args _ _ x Hplan). exact Hd.
    + intros c Hcin.
      apply (descubre_permutacion srv args _ _ c Hplan).
      apply Hc, Hcin.
Qed.


(** What a task returns, read from the listing: an entry that is a mapping
    adds the identifier it yields. *)
Lemma candidato_entrada (acc : list value) (entrada : list (string * value)) :
  candidato acc (VDict entrada)
  = Ok (match identificador_de_entrada entrada with
        | Some c => acc ++ [c]
        | None => acc
        end).
Proof.
  unfold candidato, codigo_de, identificador_de_entrada. simpl.
  destruct (dict_get entrada "Codigo") as [c|]; simpl.
  - destruct (truthy c) eqn:Ec; simpl; [rewrite Ec; reflexivity|].
    destruct (dict_get entrada "codigo") as [c'|]; simpl; [|reflexivity].
    destruct (truthy c'); reflexivity.
  - destruct (dict_get entrada "codigo") as [c'|]; simpl; [|reflexivity].
    destruct (truthy c'); reflexivity.
Qed.

Lemma candidatos_entradas (entradas : list (list (string * value))) :
  forall acc,
    para_cada candidato (map VDict entradas) acc
    = Ok (acc ++ omap identificador_de_entrada entradas).
Proof.
  induction entradas as [|entrada resto IH]; intros acc; simpl.
  - rewrite app_nil_r. reflexivity.
  - rewrite candidato_entrada. simpl. rewrite IH.
    destruct (identificador_de_entrada entrada); [|reflexivity].
    rewrite <- app_assoc. reflexivity.
Qed.

Lemma candidatos_mapas (listado : list value) :
  forall acc resultados,
    para_cada candidato listado acc = Ok resultados ->
    Forall (fun e => exists entrada, e = VDict entrada) listado.
Proof.
  induction listado as [|e resto IH]; intros acc resultados H; [constructor|].
  simpl in H. apply bind_Ok in H as (acc' & He & H).
  constructor; [|exact (IH _ _ H)].
  destruct e; try discriminate He. eauto.
Qed.

Lemma mapas_entradas (l : list value) :
  Forall (fun e => exists entrada, e = VDict entrada) l ->
  l = map VDict
        (omap (fun e => match e with VDict entrada => Some entrada | _ => None end) l).
Proof.
  induction 1 as [|e resto [entrada ->] _ IH]; [reflexivity|].
  simpl. f_equal. exact IH.
Qed.

Lemma recorrido_del_listado (payload : value) (resultados : list value) :
  (listado ← listado_de payload; para_cada candidato listado []) = Ok resultados ->
  resultados = omap identificador_de_entrada (entradas_de payload).
Proof.
  intros H. apply bind_Ok in H as (listado & Hl & H).
  pose proof (candidatos_mapas _ _ _ H) as Hm.
  unfold listado_de in Hl. apply bind_Ok in Hl as (l0 & Hg & Hl).
  destruct payload as [| | | | |d]; try discriminate Hg.
  simpl in Hg. apply Ok_inj in Hg. unfold entradas_de.
  destruct (dict_get d "Listado") as [v|]; simpl in Hg; subst l0.
  - destruct v as [|b|z|s|li|dd]; unfold py_or in Hl; simpl in Hl.
    + apply Ok_inj in Hl. subst listado. apply Ok_inj in H. subst. reflexivity.
    + destruct b; simpl in Hl; [discriminate|].
      apply Ok_inj in Hl. subst listado. apply Ok_inj in H. subst. reflexivity.
    + destruct (negb (Z.eqb z 0)); simpl in Hl; [discriminate|].
      apply Ok_inj in Hl. subst listado. apply Ok_inj in H. subst. reflexivity.
    + destruct s as [|c s]; simpl in Hl; apply Ok_inj in Hl; subst listado.
      * apply Ok_inj in H. subst. reflexivity.
      * inversion Hm as [|? ? [entrada He] _]. discriminate He.
    + destruct li as [|e li]; simpl in Hl; apply Ok_inj in Hl; subst listado.
      * apply Ok_inj in H. subst. reflexivity.
      * rewrite (mapas_entradas _ Hm), candidatos_entradas in H.
        apply Ok_inj in H. subst resultados. reflexivity.
    + destruct dd as [|kv dd]; simpl in Hl; apply Ok_inj in Hl; subst listado.
      * apply Ok_inj in H. subst. reflexivity.
      * inversion Hm as [|? ? [entrada He] _]. discriminate He.
  - unfold py_or in Hl. simpl in Hl. apply Ok_inj in Hl. subst listado.
    apply Ok_inj in H. subst. reflexivity.
Qed.

(** A task that returns, returns the identifiers its listing yields. *)
Lemma procesar_listado_rinde (srv : servicio) (args : argumentos)
  (combinacion : date * string) (resultados : list value) :
  fst (procesar_listado srv args combinacion) = Ok resultados ->
  forall x, x ∈ resultados <-> rinde srv args combinacion x.
Proof.
  unfold procesar_listado, rinde, listado_recibido. cbv zeta.
  destruct (fst (request_with_retries _ _ _)) as [r|] eqn:Er; simpl.
  - destruct (json r) as [payload|] eqn:Ej; simpl.
    + destruct (listado ← listado_de payload; para_cada candidato listado [])
        as [res|e] eqn:E; simpl; [|discriminate].
      intros H x. apply Ok_inj in H. subst res.
      rewrite (recorrido_del_listado _ _ E), list_elem_of_omap. split.
      * intros (entrada & Hin & Hid). exists payload, entrada. eauto.
      * intros (payload' & entrada & (r' & Hr' & Hj') & Hin & Hid).
        apply Some_inj in Hr'. subst r'. rewrite Ej in Hj'.
        apply Some_inj in Hj'. subst payload'. eauto.
    + intros H x. apply Ok_inj in H. subst resultados. split.
      * intros Hx. inversion Hx.
      * intros (payload' & entrada & (r' & Hr' & Hj') & _).
        apply Some_inj in Hr'. subst r'. rewrite Ej in Hj'. discriminate Hj'.
  - intros H x. apply Ok_inj in H. subst resultados. split.
    + intros Hx. inversion Hx.
    + intros (payload' & entrada & (r' & Hr' & _) & _). discriminate Hr'.
Qed.

(** The task of a cell whose listing has the documented shape returns. *)
Lemma listado_regular_retorna (payload : value) :
  listado_regular payload ->
  exists resultados,
    (listado ← listado_de payload; para_cada candidato listado []) = Ok resultados.
Proof.
  intros (d & -> & H). unfold listado_de. simpl.
  destruct (dict_get d "Listado") as [v|]; [|exists []; reflexivity].
  destruct v as [|b|z|s|li|dd]; simpl in H.
  - exists []. reflexivity.
  - subst b. exists []. reflexivity.
  - unfold py_or. simpl. rewrite H. exists []. reflexivity.
  - unfold py_or. simpl. rewrite H. exists []. reflexivity.
  - destruct li as [|e li]; [exists []; reflexivity|].
    unfold py_or. simpl py_iter. cbn [resultado_bind mbind].
    rewrite (mapas_entradas _ H), candidatos_entradas. eauto.
  - destruct dd as [|kv dd]; [|discriminate H]. exists []. reflexivity.
Qed.

Lemma tarea_regular (srv : servicio) (args : argumentos) (combinacion : date * string) :
  (forall payload,
     listado_recibido srv args combinacion payload -> listado_regular payload) ->
  exists resultados, fst (procesar_listado srv args combinacion) = Ok resultados.
Proof.
  unfold listado_recibido, procesar_listado. cbv zeta. intros H.
  destruct (fst (request_with_retries _ _ _)) as [r|]; simpl; [|eauto].
  destruct (json r) as [payload|] eqn:Ej; simpl; [|eauto].
  destruct (listado_regular_retorna payload) as [res E]; [apply H; eauto|].
  rewrite E. simpl. eauto.
Qed.

(** Sequential mode: when the loop returns, the task of every cell would
    have returned. *)
Lemma listar_secuencial_tareas (srv : servicio) (args : argumentos)
  (combinaciones : list (date * string)) :
  forall st st',
    fst (listar_secuencial srv args combinaciones st) = Ok st' ->
    Forall (fun combinacion =>
              exists resultados,
                fst (procesar_listado srv args combinacion) = Ok resultados)
      combinaciones.
Proof.
  induction combinaciones as [|combinacion resto IH]; intros st st' H; [constructor|].
  simpl in H.
  destruct (fst (iteracion_listado srv args st combinacion)) as [s1|e] eqn:E;
    simpl in H; [|discriminate].
  apply iteracion_listado_fusiona in E as [E _].
  constructor; [exact E|exact (IH _ _ H)].
Qed.

Lemma descubre_rinde (srv : servicio) (args : argumentos)
  (combinaciones : list (date * string)) (x : value) :
  Forall (fun combinacion =>
            exists resultados,
              fst (procesar_listado srv args combinacion) = Ok resultados)
    combinaciones ->
  descubre srv args combinaciones x
  <-> exists combinacion,
        combinacion ∈ combinaciones /\ rinde srv args combinacion x.
Proof.
  intros Ht. unfold descubre. split.
  - intros (comb & res & Hc & Hr & Hx). exists comb. split; [exact Hc|].
    apply (procesar_listado_rinde _ _ _ _ Hr). exact Hx.
  - intros (comb & Hc & Hx). exists comb.
    rewrite Forall_forall in Ht. destruct (Ht comb Hc) as [res Hr].
    exists res. split; [exact Hc|]. split; [exact Hr|].
    apply (procesar_listado_rinde _ _ _ _ Hr). exact Hx.
Qed.


Lemma en_orden_valido : planificador_valido en_orden.
Proof. split; intros l; reflexivity. Qed.

Lemma al_reves_valido : planificador_valido al_reves.
Proof. split; intros l; simpl; symmetry; apply Permutation_rev. Qed.



(** Concurrent mode, a listing that holds a number after the entry of A:
    the task raises at the number, its exception is caught, and the run
    returns without A, which the listing yields. *)
Lemma listado_irregular_sin_identificadores :
  rinde servicio_listado_irregular args_concurrente (738890, "7271") (VStr "A")
  /\ fst (procesar_listado servicio_listado_irregular args_concurrente (738890, "7271"))
     = Raise AttributeError
  /\ fst (listar_oc_por_rango servicio_listado_irregular en_orden ["7271"] 738890 738890
            args_concurrente) = Ok []
  /\ fst (listar_oc_por_rango servicio_listado_irregular en_orden ["7271"] 738890 738890
            args_secuencial) = Raise AttributeError.
Proof.
  split; [|repeat split; vm_compute; reflexivity].
  exists (VDict [("Listado", VList [VDict [("Codigo", VStr "A")]; VInt 5])]),
         [("Codigo", VStr "A")].
  split; [eexists; split; vm_compute; reflexivity|].
  split; [left|reflexivity].
Qed.

(** ** When discovery returns *)

Lemma anotar_con_clave (st : descubiertos) (c : value) (k : clave) :
  clave_de c = Ok k -> exists st', anotar st c = Ok st'.
Proof. unfold anotar. intros ->. simpl. eauto. Qed.

Lemma anotar_registro_Ok (st : descubiertos) (registro c : value) :
  codigo_de registro = Ok c ->
  anotar_registro st registro = if truthy c then anotar st c else Ok st.
Proof. unfold anotar_registro. intros ->. reflexivity. Qed.

Lemma para_cada_anotar_retorna (l : list value) :
  Forall (fun x => exists k, clave_de x = Ok k) l ->
  forall st, exists st', para_cada anotar l st = Ok st'.
Proof.
  induction 1 as [|x l [k Hk] _ IH]; intros st; simpl; [eauto|].
  destruct (anotar_con_clave st x k Hk) as [s1 ->]. simpl. apply IH.
Qed.

(** Sequential mode: the converse of [anotar_registros]. *)
Lemma candidatos_anotados (listado : list value) :
  forall acc res,
    para_cada candidato listado acc = Ok res ->
    exists res',
      res = acc ++ res'
      /\ forall st st',
           para_cada anotar res' st = Ok st' ->
           para_cada anotar_registro listado st = Ok st'.
Proof.
  induction listado as [|registro resto IH]; intros acc res H; simpl in H.
  - apply Ok_inj in H. subst res. exists []. split; [rewrite app_nil_r; reflexivity|].
    intros st st' Hm. exact Hm.
  - apply bind_Ok in H as (acc1 & H1 & H). unfold candidato in H1.
    apply bind_Ok in H1 as (c & Hc & H1). apply Ok_inj in H1.
    destruct (IH acc1 res H) as (res1 & -> & Hres).
    destruct (truthy c) eqn:Et; subst acc1.
    + exists (c :: res1). split; [rewrite <- app_assoc; reflexivity|].
      intros st st' Hm. simpl in Hm. apply bind_Ok in Hm as (s1 & Hs1 & Hm).
      simpl. rewrite (anotar_registro_Ok st registro c Hc), Et, Hs1. simpl.
      apply Hres, Hm.
    + exists res1. split; [reflexivity|].
      intros st st' Hm. simpl. rewrite (anotar_registro_Ok st registro c Hc), Et.
      simpl. apply Hres, Hm.
Qed.

Lemma iteracion_listado_retorna (srv : servicio) (args : argumentos)
  (st st' : descubiertos) (combinacion : date * string) (resultados : list value) :
  fst (procesar_listado srv args combinacion) = Ok resultados ->
  para_cada anotar resultados st = Ok st' ->
  fst (iteracion_listado srv args st combinacion) = Ok st'.
Proof.
  unfold iteracion_listado, procesar_listado.
  destruct (fst (request_with_retries _ _ _)) as [r|]; simpl.
  - destruct (json r) as [payload|]; simpl.
    + destruct (listado_de payload) as [listado|e]; simpl; [|discriminate].
      destruct (para_cada candidato listado []) as [res|e] eqn:E; simpl; [|discriminate].
      intros H Hm. apply Ok_inj in H. subst res.
      destruct (candidatos_anotados listado [] resultados E) as (res' & E' & Hres).
      simpl in E'. subst res'. rewrite (Hres st st' Hm). reflexivity.
    + intros H Hm. apply Ok_inj in H. subst resultados. exact Hm.
  - intros H Hm. apply Ok_inj in H. subst resultados. exact Hm.
Qed.

Lemma listar_secuencial_retorna (srv : servicio) (args : argumentos)
  (combinaciones : list (date * string)) :
  Forall (fun comb => exists r, fst (procesar_listado srv args comb) = Ok r) combinaciones ->
  forall st st',
    para_cada anotar (flat_map (identificadores_de srv args) combinaciones) st = Ok st' ->
    fst (listar_secuencial srv args combinaciones st) = Ok st'.
Proof.
  induction 1 as [|comb resto [r Hr] _ IH]; intros st st' H; simpl in H |- *.
  - exact H.
  - rewrite para_cada_app in H. apply bind_Ok in H as (s1 & H1 & H).
    unfold identificadores_de in H1 at 1. rewrite Hr in H1.
    rewrite (iteracion_listado_retorna srv args st s1 comb r Hr H1). simpl.
    apply IH, H.
Qed.

(** Discovery returns when the identifiers the listings yield are hashable
    and, in sequential mode, no listing is malformed. *)
Lemma listar_oc_por_rango_retorna (srv : servicio) (plan : planificador)
  (organismos : list string) (desde_dt hasta_dt : date) (args : argumentos) :
  let combinaciones := combinaciones_de organismos desde_dt hasta_dt in
  Permutation (completadas_listado plan combinaciones) combinaciones ->
  hasta_dt < fecha_maxima ->
  (workers args <= 1 ->
   Forall (fun comb => exists r, fst (procesar_listado srv args comb) = Ok r)
          combinaciones) ->
  (forall x, descubre srv args combinaciones x -> exists k, clave_de x = Ok k) ->
  exists codigos_,
    fst (listar_oc_por_rango srv plan organismos desde_dt hasta_dt args) = Ok codigos_.
Proof.
  intros combinaciones Hplan Hmax Hseq Hk.
  rewrite listar_oc_por_rango_celdas by lia. cbv zeta. fold combinaciones.
  destruct (Z.leb_spec (workers args) 1) as [Hw|Hw]; cbv beta zeta; cbn [fst].
  - destruct (para_cada_anotar_retorna
                (flat_map (identificadores_de srv args) combinaciones))
      with (st := {| vistos := ∅; codigos := [] |}) as [st' E].
    { apply Forall_forall. intros x Hx. apply Hk, descubre_flat_map, Hx. }
    rewrite (listar_secuencial_retorna srv args combinaciones (Hseq Hw) _ st' E).
    simpl. eauto.
  - rewrite listar_concurrente_fusiona.
    destruct (para_cada_anotar_retorna
                (flat_map (identificadores_de srv args)
                   (completadas_listado plan combinaciones)))
      with (st := {| vistos := ∅; codigos := [] |}) as [st' E].
    { apply Forall_forall. intros x Hx. apply Hk.
      apply (descubre_permutacion srv args _ _ x Hplan).
      apply descubre_flat_map, Hx. }
    rewrite E. simpl. eauto.
Qed.

(** ** The two modes on well-formed responses *)

Lemma orden_de_permutacion {A : Type} (completadas : list A -> list A)
  (args : argumentos) (tareas : list A) :
  Permutation (completadas tareas) tareas ->
  Permutation (orden_de completadas args tareas) tareas.
Proof.
  intros Hp. unfold orden_de. destruct (Z.leb (workers args) 1); [reflexivity|exact Hp].
Qed.

Lemma listar_oc_por_rango_fusiona (srv : servicio) (plan : planificador)
  (organismos : list string) (desde_dt hasta_dt : date) (args : argumentos)
  (codigos_ : list value) :
  fst (listar_oc_por_rango srv plan organismos desde_dt hasta_dt args) = Ok codigos_ ->
  exists st',
    codigos_ = codigos st'
    /\ para_cada anotar
         (flat_map (identificadores_de srv args)
            (orden_de (completadas_listado plan) args
               (combinaciones_de organismos desde_dt hasta_dt)))
         {| vistos := ∅; codigos := [] |} = Ok st'.
Proof.
  intros H.
  rewrite (listar_oc_por_rango_celdas _ _ _ _ _ _ (listar_oc_por_rango_Ok _ _ _ _ _ _ _ H)) in H.
  unfold orden_de.
  destruct (Z.leb (workers args) 1); cbv beta zeta in H; cbn [fst] in H;
    apply fmap_Ok in H as (st' & H & ->); exists st'; (split; [reflexivity|]).
  - apply listar_secuencial_fusiona, H.
  - rewrite listar_concurrente_fusiona in H. exact H.
Qed.

Lemma clave_de_cadenas (c x : value) :
  (exists s, c = VStr s) -> (exists s, x = VStr s) -> clave_de c = clave_de x -> c = x.
Proof. intros [s1 ->] [s2 ->]. simpl. intros E. injection E as ->. reflexivity. Qed.

Lemma py_count_presente (x : value) (l : list value) :
  py_count x l = 1%nat -> exists c, c ∈ l /\ clave_de c = clave_de x.
Proof.
  unfold py_count.
  destruct (filter (fun c => clave_de c = clave_de x) l) as [|c r] eqn:E; [discriminate|].
  intros _. exists c.
  assert (Hc : c ∈ filter (fun c => clave_de c = clave_de x) l) by (rewrite E; left).
  apply list_elem_of_filter in Hc as [Hc1 Hc2]. split; assumption.
Qed.

(** With string identifiers, two merges of the same listings in different
    orders return the same identifiers, up to their order. *)
Lemma codigos_mismos (srv : servicio) (args : argumentos)
  (orden1 orden2 : list (date * string)) (st1 st2 : descubiertos) :
  Permutation orden1 orden2 ->
  (forall x, descubre srv args orden1 x -> exists s, x = VStr s) ->
  para_cada anotar (flat_map (identificadores_de srv args) orden1)
    {| vistos := ∅; codigos := [] |} = Ok st1 ->
  para_cada anotar (flat_map (identificadores_de srv args) orden2)
    {| vistos := ∅; codigos := [] |} = Ok st2 ->
  Permutation (codigos st1) (codigos st2).
Proof.
  intros Hp Hs H1 H2.
  destruct (fusion_sin_duplicados _ _ _ _ H1) as (Hnd1 & Hx1 & Hc1).
  destruct (fusion_sin_duplicados _ _ _ _ H2) as (Hnd2 & Hx2 & Hc2).
  assert (Hs2 : forall x, descubre srv args orden2 x -> exists s, x = VStr s).
  { intros x Hx. apply Hs, (descubre_permutacion srv args _ _ x Hp), Hx. }
  apply NoDup_Permutation.
  - apply (NoDup_fmap_1 clave_de), Hnd1.
  - apply (NoDup_fmap_1 clave_de), Hnd2.
  - intros x. split; intros Hx.
    + apply Hc1 in Hx. apply (descubre_permutacion srv args _ _ x Hp) in Hx as Hx'.
      destruct (py_count_presente x _ (Hx2 x Hx')) as (c & Hc & Ec).
      rewrite <- (clave_de_cadenas c x (Hs2 c (Hc2 c Hc)) (Hs x Hx) Ec). exact Hc.
    + apply Hc2 in Hx. apply (descubre_permutacion srv args _ _ x Hp) in Hx as Hx'.
      destruct (py_count_presente x _ (Hx1 x Hx')) as (c & Hc & Ec).
      rewrite <- (clave_de_cadenas c x (Hs c (Hc1 c Hc)) (Hs2 x Hx) Ec). exact Hc.
Qed.

Lemma filas_de_final (B : Z) (l : list fila) (s : sumidero) :
  sumidero_tras B l s -> filas_de (archivo (volcar s)) = l.
Proof.
  intros Hs. destruct (sumidero_tras_contenido B l s Hs) as [H1 H2].
  destruct l as [|f l].
  - rewrite (H1 eq_refl). reflexivity.
  - destruct H2 as (bloques & -> & E); [discriminate|].
    unfold filas_de. simpl. rewrite E. simpl. f_equal. apply filas_de_lineas_registros.
Qed.

Section PropiedadesModos.

Context {bib : Biblioteca}.

Lemma filas_finales (srv : servicio) (plan : planificador) (codigos_ : list value)
  (args : argumentos) (desde_dt hasta_dt : date) (previo : option tabla) :
  escapada (descargar_detalle_y_escribir srv plan codigos_ args desde_dt hasta_dt previo)
  = None ->
  filas_de (archivo (sumidero_final
    (descargar_detalle_y_escribir srv plan codigos_ args desde_dt hasta_dt previo)))
  = filas_aceptadas srv args desde_dt hasta_dt (orden_de (completadas_detalle plan) args codigos_).
Proof.
  intros H. rewrite (descargar_retorna srv plan codigos_ args desde_dt hasta_dt previo H).
  apply (filas_de_final (batch_size args)).
  apply (sumidero_tras_fold args _ []), sumidero_tras_inicial.
Qed.

(** A run that returns leaves a file exactly when it accepted a row. *)
Lemma archivo_final (srv : servicio) (plan : planificador) (codigos_ : list value)
  (args : argumentos) (desde_dt hasta_dt : date) (previo : option tabla) :
  let fin := descargar_detalle_y_escribir srv plan codigos_ args desde_dt hasta_dt previo in
  escapada fin = None ->
  archivo (sumidero_final fin) = None <-> filas_de (archivo (sumidero_final fin)) = [].
Proof.
  intros fin H. split; [intros ->; reflexivity|]. unfold fin.
  rewrite (filas_finales _ _ _ _ _ _ _ H).
  rewrite (descargar_retorna srv plan codigos_ args desde_dt hasta_dt previo H).
  intros E.
  apply (sumidero_tras_contenido (batch_size args)
           (filas_aceptadas srv args desde_dt hasta_dt
              (orden_de (completadas_detalle plan) args codigos_))); [|exact E].
  apply (sumidero_tras_fold args _ []), sumidero_tras_inicial.
Qed.

Lemma aceptadas_escribibles (srv : servicio) (args : argumentos) (desde_dt hasta_dt : date)
  (tareas : list value) :
  (forall c f, c ∈ tareas ->
               fst (procesar_detalle srv args desde_dt hasta_dt c) = Ok (Some f) ->
               csv_escribible f = true) ->
  Forall (fun f => csv_escribible f = true)
         (filas_aceptadas srv args desde_dt hasta_dt tareas).
Proof.
  intros H. apply Forall_forall. intros f Hf. unfold filas_aceptadas in Hf.
  apply list_elem_of_omap in Hf as (c & Hc & Ht). apply (H c f Hc).
  destruct (fst (procesar_detalle _ _ _ _ c)) as [[f'|]|e]; simpl in Ht; try discriminate.
  injection Ht as ->. reflexivity.
Qed.

Lemma procesar_detalle_reintentos (srv : servicio) (a a' : argumentos)
  (desde_dt hasta_dt : date) (c : value) :
  retries a = retries a' ->
  procesar_detalle srv a desde_dt hasta_dt c = procesar_detalle srv a' desde_dt hasta_dt c.
Proof. intros H. unfold procesar_detalle. rewrite H. reflexivity. Qed.

(** X25: runs that differ only in the number of workers end with the same
    exit code and write the same rows, up to their order, when the window
    ends before the last day of the calendar, no listing task raises, the
    identifiers are strings, no detail task raises, every accepted row can
    be written and the rendering of the spreadsheet does not depend on the
    order of the rows. *)
Lemma modos_coinciden (srv : servicio) (plan : planificador) (organismos : list string)
  (args : argumentos) (w : Z) (desde hasta : date) (previo : option tabla) :
  workers args <= 1 ->
  1 < w ->
  planificador_valido plan ->
  hasta < fecha_maxima ->
  (forall filas filas', Permutation filas filas' ->
                        generar_excel_desde_csv filas = generar_excel_desde_csv filas') ->
  let args' := {| workers := w; retries := retries args; batch_size := batch_size args |} in
  let combinaciones := combinaciones_de organismos desde hasta in
  Forall (fun comb => exists r, fst (procesar_listado srv args comb) = Ok r)
         combinaciones ->
  (forall combinacion x,
     combinacion ∈ combinaciones ->
     x ∈ identificadores_de srv args combinacion ->
     (exists s, x = VStr s)
     /\ exists o, fst (procesar_detalle srv args desde hasta x) = Ok o
                  /\ forall f, o = Some f -> csv_escribible f = true) ->
  exists salida t1 t2,
    main_con srv plan organismos args desde hasta previo = (salida, t1)
    /\ main_con srv plan organismos args' desde hasta previo = (salida, t2)
    /\ Permutation (filas_de t1) (filas_de t2).
Proof.
  intros Hw1 Hw2 [Hpl Hpd] Hmax Hex args' combinaciones Hlist Hdesc0.
  assert (Hdesc : forall x, descubre srv args combinaciones x ->
                            (exists s, x = VStr s)
                            /\ exists o, fst (procesar_detalle srv args desde hasta x) = Ok o
                                         /\ forall f, o = Some f -> csv_escribible f = true).
  { intros x (comb & res & Hc & Hr & Hx). apply (Hdesc0 comb x Hc).
    unfold identificadores_de. rewrite Hr. exact Hx. }
  clear Hdesc0.
  unfold main_con. destruct (Z.ltb hasta desde); [exists 1, previo, previo; auto|].
  assert (Hk : forall x, descubre srv args combinaciones x -> exists k, clave_de x = Ok k).
  { intros x Hx. destruct (Hdesc x Hx) as [[s ->] _]. simpl. eauto. }
  destruct (listar_oc_por_rango_retorna srv plan organismos desde hasta args (Hpl _) Hmax
              (fun _ => Hlist) Hk) as [cod1 E1].
  destruct (listar_oc_por_rango_retorna srv plan organismos desde hasta args' (Hpl _) Hmax)
    as [cod2 E2].
  { simpl. intros Hw. lia. }
  { exact Hk. }
  rewrite E1, E2.
  apply listar_oc_por_rango_fusiona in E1 as (st1 & -> & F1).
  apply listar_oc_por_rango_fusiona in E2 as (st2 & -> & F2).
  change (identificadores_de srv args') with (identificadores_de srv args) in F2.
  pose proof (orden_de_permutacion (completadas_listado plan) args combinaciones (Hpl _))
    as Hp1.
  pose proof (orden_de_permutacion (completadas_listado plan) args' combinaciones (Hpl _))
    as Hp2.
  assert (Hcod : Permutation (codigos st1) (codigos st2)).
  { apply (codigos_mismos srv args _ _ st1 st2) with (3 := F1) (4 := F2).
    - etransitivity; [exact Hp1|symmetry; exact Hp2].
    - intros x Hx. apply Hdesc, (descubre_permutacion srv args _ _ x Hp1), Hx. }
  assert (Hin1 : forall c, c ∈ codigos st1 -> descubre srv args combinaciones c).
  { intros c Hc. destruct (fusion_sin_duplicados _ _ _ _ F1) as (_ & _ & Hin).
    apply (descubre_permutacion srv args _ _ c Hp1), Hin, Hc. }
  assert (Htarea : forall (a : argumentos) c,
            c ∈ orden_de (completadas_detalle plan) a (codigos st1)
            \/ c ∈ orden_de (completadas_detalle plan) a (codigos st2) ->
            descubre srv args combinaciones c).
  { intros a c [Hc|Hc]; rewrite (orden_de_permutacion _ a _ (Hpd _)) in Hc.
    - apply Hin1, Hc.
    - apply Hin1. rewrite Hcod. exact Hc. }
  assert (Hesc : forall (a : argumentos) (cs : list value),
            cs = codigos st1 \/ cs = codigos st2 ->
            retries a = retries args ->
            escapada (descargar_detalle_y_escribir srv plan cs a desde hasta previo) = None).
  { intros a cs Hcs Hr. apply descargar_escribible.
    - intros Hwa. apply Forall_forall. intros c Hc.
      destruct (Hdesc c) as [_ (o & Ho & _)].
      { apply (Htarea a). destruct Hcs as [->| ->]; [left|right]; exact Hc. }
      exists o. rewrite (procesar_detalle_reintentos srv a args _ _ _ Hr). exact Ho.
    - apply aceptadas_escribibles. intros c f Hc Hf.
      destruct (Hdesc c) as [_ (o & Ho & Hw)].
      { apply (Htarea a). destruct Hcs as [->| ->]; [left|right]; exact Hc. }
      apply Hw. rewrite (procesar_detalle_reintentos srv a args _ _ _ Hr), Ho in Hf.
      injection Hf as ->. reflexivity. }
  pose proof (Hesc args (codigos st1) (or_introl eq_refl) eq_refl) as Es1.
  pose proof (Hesc args' (codigos st2) (or_intror eq_refl) eq_refl) as Es2.
  rewrite Es1, Es2.
  pose proof (filas_finales _ _ _ _ _ _ _ Es1) as Hf1.
  pose proof (filas_finales _ _ _ _ _ _ _ Es2) as Hf2.
  pose proof (archivo_final _ _ _ _ _ _ _ Es1) as Ha1.
  pose proof (archivo_final _ _ _ _ _ _ _ Es2) as Ha2.
  assert (Hperm : Permutation
            (filas_de (archivo (sumidero_final
               (descargar_detalle_y_escribir srv plan (codigos st1) args desde hasta previo))))
            (filas_de (archivo (sumidero_final
               (descargar_detalle_y_escribir srv plan (codigos st2) args' desde hasta previo))))).
  { rewrite Hf1, Hf2.
    change (filas_aceptadas srv args' desde hasta) with (filas_aceptadas srv args desde hasta).
    unfold filas_aceptadas.
    rewrite !orden_de_permutacion by apply Hpd. rewrite Hcod. reflexivity. }
  destruct (archivo (sumidero_final
              (descargar_detalle_y_escribir srv plan (codigos st1) args desde hasta previo)))
    as [t1|];
    destruct (archivo (sumidero_final
                (descargar_detalle_y_escribir srv plan (codigos st2) args' desde hasta previo)))
      as [t2|].
  - rewrite (Hex _ _ Hperm).
    destruct (generar_excel_desde_csv (filas_de (Some t2)));
      eexists _, _, _; (split; [reflexivity|]); (split; [reflexivity|exact Hperm]).
  - apply Permutation_nil_r in Hperm. apply Ha1 in Hperm. discriminate.
  - symmetry in Hperm. apply Permutation_nil_r in Hperm. apply Ha2 in Hperm. discriminate.
  - eexists _, _, _. split; [reflexivity|]. split; [reflexivity|exact Hperm].
Qed.

End PropiedadesModos.

(** * Further properties of the code *)

(** ** The retry loop: success, terminal status, time slept *)

Lemma traza_fallos_S (params : peticion) (wait : Z) (k : nat) :
  traza_fallos params wait (S k)
  = EvGet params :: EvEspera wait :: traza_fallos params (wait * 2) k.
Proof.
  unfold traza_fallos. cbn [seq flat_map app]. rewrite flat_map_seq_S.
  change (Z.of_nat 0) with 0. rewrite Z.pow_0_r, Z.mul_1_r.
  f_equal. f_equal. apply flat_map_ext. intros i.
  rewrite Nat2Z.inj_succ, Z.pow_succ_r by lia. rewrite Z.mul_assoc. reflexivity.
Qed.

(** After [k] attempts that fall through, an attempt that leaves the loop
    ends it with one more request and no sleep. *)
Lemma bucle_hasta (session : nat -> intento) (params : peticion) (retries : Z)
  (res : option response) :
  forall k attempt wait,
    (forall j, (j < k)%nat -> clasificar (session (attempt + j)%nat) = None) ->
    clasificar (session (attempt + k)%nat) = Some res ->
    Z.of_nat (attempt + k) < retries ->
    bucle_reintentos session params retries attempt wait
    = (res, traza_fallos params wait k ++ [EvGet params]).
Proof.
  induction k as [|k IH]; intros attempt wait Hf Hk Hlt; rewrite bucle_reintentos_eq.
  - rewrite Nat.add_0_r in Hk, Hlt.
    destruct (decide (Z.of_nat attempt < retries)); [|lia]. rewrite Hk. reflexivity.
  - destruct (decide (Z.of_nat attempt < retries)); [|lia].
    pose proof (Hf 0%nat ltac:(lia)) as H0. rewrite Nat.add_0_r in H0. rewrite H0.
    cbv zeta. rewrite (IH (S attempt) (wait * 2)).
    + rewrite traza_fallos_S. reflexivity.
    + intros j Hj. replace (S attempt + j)%nat with (attempt + S j)%nat by lia.
      apply Hf. lia.
    + replace (S attempt + k)%nat with (attempt + S k)%nat by lia. exact Hk.
    + lia.
Qed.

Lemma clasificar_devuelve (i : intento) (r : response) :
  clasificar i = Some (Some r) -> i = Responde r /\ status_code r = 200.
Proof.
  destruct i as [r'|]; simpl; [|discriminate].
  destruct (Z.eqb_spec (status_code r') 200) as [E|E].
  - intros H. injection H as ->. split; [reflexivity|exact E].
  - destruct (reintentable (status_code r')); discriminate.
Qed.

Lemma bucle_respuesta_200 (session : nat -> intento) (params : peticion) (retries : Z)
  (r : response) :
  forall k attempt wait,
    Z.to_nat (retries - Z.of_nat attempt) = k ->
    fst (bucle_reintentos session params retries attempt wait) = Some r ->
    status_code r = 200
    /\ exists j, session j = Responde r /\ (attempt <= j)%nat /\ Z.of_nat j < retries.
Proof.
  induction k as [|k IH]; intros attempt wait Hk; rewrite bucle_reintentos_eq.
  - destruct (decide (Z.of_nat attempt < retries)); [lia|]. discriminate.
  - destruct (decide (Z.of_nat attempt < retries)); [|discriminate].
    destruct (clasificar (session attempt)) as [[r'|]|] eqn:E; simpl.
    + intros H. injection H as ->. apply clasificar_devuelve in E as [E1 E2].
      split; [exact E2|]. exists attempt. split; [exact E1|]. split; lia.
    + discriminate.
    + intros H. destruct (IH (S attempt) (wait * 2) ltac:(lia) H) as [H1 (j & Hj & Hle & Hlt)].
      split; [exact H1|]. exists j. split; [exact Hj|]. split; lia.
Qed.

(** X1: a response that [request_with_retries] returns has status 200 and
    is the answer to one of its attempts, numbered below [retries]; no
    other response ever leaves the loop. *)
Theorem respuesta_devuelta_es_200 (session : nat -> intento) (params : peticion)
  (retries : Z) (r : response) :
  fst (request_with_retries session params retries) = Some r ->
  status_code r = 200
  /\ exists j, session j = Responde r /\ Z.of_nat j < retries.
Proof.
  intros H. unfold request_with_retries in H.
  destruct (bucle_respuesta_200 session params retries r _ 0%nat 1 eq_refl H)
    as [H1 (j & Hj & _ & Hlt)].
  split; [exact H1|]. eauto.
Qed.

Lemma respuesta_devuelta_es_200_witness :
  status_code {| status_code := 200; json := Some listado_ejemplo |} = 200.
Proof.
  refine (proj1 (respuesta_devuelta_es_200 (servicio_usual (PListado 738890 "7271"))
                   (PListado 738890 "7271") 5
                   {| status_code := 200; json := Some listado_ejemplo |} _)).
  vm_compute. reflexivity.
Defined.

(** X2: when the first [k] attempts fail in a retryable way and attempt
    [k], still below [retries], is answered 200, that response is returned
    after exactly [k + 1] requests and the sleeps 1, 2, ..., 2^(k-1); no
    sleep follows the success. *)
Theorem exito_tras_fallos (session : nat -> intento) (params : peticion) (retries : Z)
  (k : nat) (r : response) :
  (forall j, (j < k)%nat -> fallo_reintentable (session j)) ->
  session k = Responde r ->
  status_code r = 200 ->
  Z.of_nat k < retries ->
  request_with_retries session params retries
  = (Some r, traza_fallos params 1 k ++ [EvGet params]).
Proof.
  intros Hf Hk H200 Hlt. unfold request_with_retries.
  apply bucle_hasta.
  - intros j Hj. apply clasificar_fallo, Hf, Hj.
  - simpl. rewrite Hk. simpl. rewrite H200. reflexivity.
  - simpl. exact Hlt.
Qed.

(** X3: when the first [k] attempts fail in a retryable way and attempt
    [k], still below [retries], is answered a status that is neither 200
    nor retryable (neither 429 nor 5xx), the loop gives up at once: None,
    after exactly [k + 1] requests, with no sleep and no request after the
    terminal answer. *)
Theorem estado_terminal_abandona (session : nat -> intento) (params : peticion)
  (retries : Z) (k : nat) (r : response) :
  (forall j, (j < k)%nat -> fallo_reintentable (session j)) ->
  session k = Responde r ->
  status_code r <> 200 ->
  status_code r <> 429 ->
  ~ (500 <= status_code r < 600) ->
  Z.of_nat k < retries ->
  request_with_retries session params retries
  = (None, traza_fallos params 1 k ++ [EvGet params]).
Proof.
  intros Hf Hk H200 H429 H5 Hlt. unfold request_with_retries.
  apply bucle_hasta.
  - intros j Hj. apply clasificar_fallo, Hf, Hj.
  - simpl. rewrite Hk. simpl.
    destruct (Z.eqb_spec (status_code r) 200); [contradiction|].
    unfold reintentable.
    destruct (Z.eqb_spec (status_code r) 429); [contradiction|].
    destruct (Z.leb_spec 500 (status_code r)); [|reflexivity].
    destruct (Z.ltb_spec (status_code r) 600); [lia|reflexivity].
  - simpl. exact Hlt.
Qed.

Lemma espera_total_acotada (session : nat -> intento) (params : peticion) (retries : Z) :
  forall k attempt wait,
    0 <= wait ->
    Z.to_nat (retries - Z.of_nat attempt) = k ->
    0 <= espera_total (snd (bucle_reintentos session params retries attempt wait))
      <= wait * (2 ^ Z.of_nat k - 1).
Proof.
  induction k as [|k IH]; intros attempt wait Hw Hk; rewrite bucle_reintentos_eq.
  - destruct (decide (Z.of_nat attempt < retries)); [lia|]. simpl. lia.
  - assert (Hp : 1 <= 2 ^ Z.of_nat k) by (apply Z.pow_le_mono_r with (b := 0); lia).
    rewrite Nat2Z.inj_succ, Z.pow_succ_r by lia.
    destruct (decide (Z.of_nat attempt < retries)); [|simpl; nia].
    destruct (clasificar (session attempt)); simpl; [nia|].
    specialize (IH (S attempt) (wait * 2) ltac:(lia) ltac:(lia)). nia.
Qed.

(** X4: whatever the service answers, the retry loop of one request sleeps
    at most 2^retries - 1 seconds in all (31 for the default of 5), and
    not at all when [retries <= 0]. *)
Theorem espera_total_maxima (session : nat -> intento) (params : peticion) (retries : Z) :
  0 <= espera_total (snd (request_with_retries session params retries))
    <= 2 ^ Z.max retries 0 - 1.
Proof.
  unfold request_with_retries.
  pose proof (espera_total_acotada session params retries _ 0%nat 1 ltac:(lia) eq_refl) as H.
  replace (Z.of_nat (Z.to_nat (retries - Z.of_nat 0))) with (Z.max retries 0) in H by lia.
  lia.
Qed.

Lemma tras_fallos_reintentable (k : nat) (final : intento) (j : nat) :
  (j < k)%nat -> fallo_reintentable (tras_fallos k final j).
Proof.
  intros Hj. unfold tras_fallos. destruct (Nat.ltb_spec j k); [|lia].
  simpl. right. lia.
Qed.

Lemma exito_tras_fallos_witness :
  request_with_retries (tras_fallos 2 (responde 200 None)) (PDetalle (VStr "A")) 5
  = (Some {| status_code := 200; json := None |},
     [EvGet (PDetalle (VStr "A")); EvEspera 1;
      EvGet (PDetalle (VStr "A")); EvEspera 2;
      EvGet (PDetalle (VStr "A"))]).
Proof.
  apply (exito_tras_fallos (tras_fallos 2 (responde 200 None)) (PDetalle (VStr "A")) 5 2
           {| status_code := 200; json := None |}).
  - apply tras_fallos_reintentable.
  - reflexivity.
  - reflexivity.
  - lia.
Defined.

Lemma estado_terminal_abandona_witness :
  request_with_retries (tras_fallos 1 (responde 404 None)) (PDetalle (VStr "A")) 5
  = (None, [EvGet (PDetalle (VStr "A")); EvEspera 1; EvGet (PDetalle (VStr "A"))]).
Proof.
  apply (estado_terminal_abandona (tras_fallos 1 (responde 404 None))
           (PDetalle (VStr "A")) 5 1 {| status_code := 404; json := None |}).
  - apply tras_fallos_reintentable.
  - reflexivity.
  - simpl. lia.
  - simpl. lia.
  - simpl. lia.
  - lia.
Defined.

(** ** The days and the cells of a run *)

(** X5: the loop of [rango_fechas] yields the days [desde], [desde + 1],
    ..., [hasta] in this order, and nothing when [hasta < desde]. *)
Theorem rango_fechas_bucle (desde hasta : date) :
  rango_fechas_desde desde hasta = rango_fechas desde hasta.
Proof.
  remember (Z.to_nat (hasta - desde + 1)) as k eqn:Hk.
  revert desde Hk. induction k as [|k IH]; intros desde Hk;
    rewrite rango_fechas_desde_equation_1.
  - destruct (decide (desde <= hasta)); [lia|].
    symmetry. apply rango_fechas_vacio. lia.
  - destruct (decide (desde <= hasta)); [|lia].
    rewrite rango_fechas_cons by lia. f_equal. apply IH. lia.
Qed.

(** X6: the day of index [i] that [rango_fechas] yields is [desde + i], and
    there is one exactly when it is not after [hasta]; so the days are
    [hasta - desde + 1] in number (none when [hasta < desde]), increasing,
    each yielded once. *)
Theorem rango_fechas_indice (desde hasta : date) (i : nat) (d : date) :
  rango_fechas desde hasta !! i = Some d <-> d = desde + Z.of_nat i /\ d <= hasta.
Proof.
  unfold rango_fechas. rewrite list_lookup_fmap.
  destruct (decide (i < Z.to_nat (hasta - desde + 1))%nat) as [Hi|Hi].
  - rewrite lookup_seq_lt by exact Hi. simpl. split.
    + intros H. injection H as <-. lia.
    + intros [-> _]. reflexivity.
  - rewrite lookup_seq_ge by lia. simpl. split; [discriminate|]. lia.
Qed.

Lemma rango_fechas_longitud (desde hasta : date) :
  length (rango_fechas desde hasta) = Z.to_nat (hasta - desde + 1).
Proof. unfold rango_fechas. rewrite length_map, length_seq. reflexivity. Qed.

Lemma rango_fechas_elemento (desde hasta d : date) :
  d ∈ rango_fechas desde hasta <-> desde <= d <= hasta.
Proof.
  rewrite list_elem_of_lookup. split.
  - intros [i Hi]. apply rango_fechas_indice in Hi. lia.
  - intros H. exists (Z.to_nat (d - desde)). apply rango_fechas_indice. lia.
Qed.

Lemma rango_fechas_NoDup (desde hasta : date) : NoDup (rango_fechas desde hasta).
Proof.
  apply NoDup_alt. intros i j d Hi Hj.
  apply rango_fechas_indice in Hi, Hj. lia.
Qed.

Lemma celdas_NoDup {A B : Type} (dias : list A) (orgs : list B) :
  NoDup dias -> NoDup orgs ->
  NoDup (flat_map (fun dia => map (fun org => (dia, org)) orgs) dias).
Proof.
  intros Hd Ho. induction Hd as [|d dias Hnot _ IH]; simpl; [constructor|].
  apply NoDup_app. split; [|split; [|exact IH]].
  - clear -Ho. induction Ho as [|o orgs Hnot _ IH]; simpl; constructor; [|exact IH].
    intros H. apply list_elem_of_In, in_map_iff in H as (o' & E & Hin).
    injection E as ->. apply Hnot, list_elem_of_In, Hin.
  - intros [d' o] H1 H2.
    apply list_elem_of_In, in_map_iff in H1 as (o1 & E & _). injection E as -> ->.
    apply list_elem_of_In, in_flat_map in H2 as (d2 & Hd2 & H2).
    apply in_map_iff in H2 as (o2 & E & _). injection E as -> ->.
    apply Hnot, list_elem_of_In, Hd2.
Qed.


Lemma ORGANISMOS_sin_repetidos : NoDup ORGANISMOS.
Proof. apply (bool_decide_unpack _). vm_compute. exact I. Qed.


(** ** The helpers of the projection *)

Lemma safe_get_cadena_vacia (keys : list string) : safe_get (VStr "") keys = VStr "".
Proof. destruct keys; reflexivity. Qed.

Lemma safe_get_None (keys : list string) : safe_get VNone keys = VStr "".
Proof. destruct keys; reflexivity. Qed.

(** X8: [safe_get] never returns None, whatever the data and the path: a
    null on the way or at the end of the path comes out as the empty
    string. *)
Theorem safe_get_nunca_None (data : value) (keys : list string) :
  safe_get data keys <> VNone.
Proof.
  revert data. induction keys as [|key resto IH]; intros data; simpl.
  - destruct data; discriminate.
  - destruct data; try discriminate.
    destruct (dict_get d key); [apply IH|discriminate].
Qed.

(** X9: following a path in two steps is following it at once:
    [safe_get(safe_get(data, *ks1), *ks2) = safe_get(data, *ks1, *ks2)]. *)
Theorem safe_get_compone (data : value) (ks1 ks2 : list string) :
  safe_get data (ks1 ++ ks2) = safe_get (safe_get data ks1) ks2.
Proof.
  revert data. induction ks1 as [|key resto IH]; intros data; simpl.
  - destruct data; try reflexivity. rewrite safe_get_None, safe_get_cadena_vacia. reflexivity.
  - destruct data; try (rewrite safe_get_cadena_vacia; reflexivity).
    destruct (dict_get d key); [apply IH|]. rewrite safe_get_cadena_vacia. reflexivity.
Qed.

Lemma value_ind_lista (P : value -> Prop) :
  P VNone -> (forall b, P (VBool b)) -> (forall z, P (VInt z)) -> (forall s, P (VStr s)) ->
  (forall l, Forall P l -> P (VList l)) -> (forall d, P (VDict d)) ->
  forall v, P v.
Proof.
  intros HN HB HI HS HL HD. fix IH 1.
  intros [|b|z|s|l|d]; [exact HN|apply HB|apply HI|apply HS| |apply HD].
  apply HL. induction l as [|e l IHl]; constructor; [apply IH|exact IHl].
Qed.

Lemma primer_campo_cierto (d : list (string * value)) (campos : list string) (r : value) :
  primer_campo d campos = Some r -> truthy r = true.
Proof.
  induction campos as [|campo resto IH]; simpl; [discriminate|].
  destruct (dict_get d campo) as [v|]; [|exact IH].
  destruct (truthy v) eqn:E; [|exact IH]. intros H. injection H as <-. exact E.
Qed.

Lemma normalizar_moneda_cons (e : value) (l : list value) :
  normalizar_moneda (VList (e :: l))
  = if truthy (normalizar_moneda e) then normalizar_moneda e
    else normalizar_moneda (VList l).
Proof. reflexivity. Qed.

Lemma normalizar_moneda_dict (d : list (string * value)) :
  normalizar_moneda (VDict d)
  = match primer_campo d campos_moneda with
    | Some resultado => resultado
    | None => VStr ""
    end.
Proof. reflexivity. Qed.

(** X10: the currency [normalizar_moneda] gives is the empty string or a
    value that is true: never None, zero, False or an empty container,
    however the lists of the value are nested. *)
Theorem normalizar_moneda_vacia_o_cierta (valor : value) :
  normalizar_moneda valor = VStr "" \/ truthy (normalizar_moneda valor) = true.
Proof.
  induction valor as [|b|z|s|l IH|d] using value_ind_lista.
  - left. reflexivity.
  - destruct b; [right|left]; reflexivity.
  - simpl. unfold py_or. destruct (truthy (VInt z)) eqn:E; [right; exact E|left; reflexivity].
  - simpl. unfold py_or. destruct (truthy (VStr s)) eqn:E; [right; exact E|left; reflexivity].
  - induction IH as [|e l He _ IHl]; [left; reflexivity|].
    rewrite normalizar_moneda_cons.
    destruct (truthy (normalizar_moneda e)) eqn:E; [right; exact E|exact IHl].
  - rewrite normalizar_moneda_dict.
    destruct (primer_campo d campos_moneda) as [r|] eqn:E; [|left; reflexivity].
    right. exact (primer_campo_cierto _ _ _ E).
Qed.

(** X11: on a list, [normalizar_moneda] gives the currency of the first
    element that has one, whatever follows it; and the empty string when
    no element has one. *)
Theorem normalizar_moneda_lista (antes : list value) :
  Forall (fun e => truthy (normalizar_moneda e) = false) antes ->
  normalizar_moneda (VList antes) = VStr ""
  /\ forall e despues,
       truthy (normalizar_moneda e) = true ->
       normalizar_moneda (VList (antes ++ e :: despues)) = normalizar_moneda e.
Proof.
  induction 1 as [|x antes Hx _ [IH1 IH2]].
  - split; [reflexivity|]. intros e despues He. simpl app.
    rewrite normalizar_moneda_cons, He. reflexivity.
  - split.
    + rewrite normalizar_moneda_cons, Hx. exact IH1.
    + intros e despues He. simpl app. rewrite normalizar_moneda_cons, Hx. apply IH2, He.
Qed.

Section PropiedadesTexto.

Context {bib : Biblioteca}.

Lemma normalizar_texto_cons (e : value) (l : list value) :
  normalizar_texto (VList (e :: l))
  = if String.eqb (normalizar_texto e) "" then normalizar_texto (VList l)
    else normalizar_texto e.
Proof. reflexivity. Qed.

(** X12: on a list, [normalizar_texto] gives the text of the first element
    whose text is not empty, whatever follows it; and the empty string
    when every element has the empty text. *)
Theorem normalizar_texto_lista (antes : list value) :
  Forall (fun e => normalizar_texto e = "") antes ->
  normalizar_texto (VList antes) = ""
  /\ forall e despues,
       normalizar_texto e <> "" ->
       normalizar_texto (VList (antes ++ e :: despues)) = normalizar_texto e.
Proof.
  induction 1 as [|x antes Hx _ [IH1 IH2]].
  - split; [reflexivity|]. intros e despues He. simpl app.
    rewrite normalizar_texto_cons.
    destruct (String.eqb_spec (normalizar_texto e) ""); [contradiction|reflexivity].
  - split.
    + rewrite normalizar_texto_cons, Hx. exact IH1.
    + intros e despues He. simpl app. rewrite normalizar_texto_cons, Hx. apply IH2, He.
Qed.

End PropiedadesTexto.

Lemma normalizar_moneda_lista_witness :
  normalizar_moneda (VList [VNone; VDict [("Nombre", VStr "")]; VStr "CLP"; VStr "USD"])
  = VStr "CLP".
Proof.
  refine (proj2 (normalizar_moneda_lista [VNone; VDict [("Nombre", VStr "")]] _)
            (VStr "CLP") [VStr "USD"] _).
  - repeat constructor.
  - reflexivity.
Defined.

Lemma normalizar_texto_lista_witness :
  normalizar_texto (bib := biblioteca_ejemplo)
    (VList [VNone; VList []; VDict [("Nombre", VStr "Ley de Presupuestos")]; VStr "x"])
  = "Ley de Presupuestos".
Proof.
  refine (proj2 (normalizar_texto_lista (bib := biblioteca_ejemplo) [VNone; VList []] _)
            (VDict [("Nombre", VStr "Ley de Presupuestos")]) [VStr "x"] _).
  - repeat constructor.
  - simpl. discriminate.
Defined.

(** ** What the projection returns, and when *)

Section PropiedadesFila.

Context {bib : Biblioteca}.

(** X13: [construir_fila_oc] returns a Row exactly when the record is a
    dict, its [Fechas] is a dict or false, and its first item is found
    without an exception and is a dict or false; on any other record it
    raises. *)
Theorem construir_fila_oc_retorna_sii (oc : value) :
  (exists f, construir_fila_oc oc = Ok f)
  <-> exists d p,
        oc = VDict d
        /\ mapeo_o_vacio (default VNone (dict_get d "Fechas")) = true
        /\ primer_item_de oc = Ok p
        /\ mapeo_o_vacio p = true.
Proof.
  split.
  - intros [f H]. apply construir_fila_oc_desglose in H.
    destruct H as (d & p & m & f08 & f09 & f10 & fu & c19 & c20 & c21 & H).
    cbv zeta in H. destruct H as (-> & Hp & _ & H8 & _ & _ & _ & H19 & _).
    exists d, p. split; [reflexivity|]. split; [|split; [exact Hp|]].
    + exact (py_get_py_or_Ok _ _ _ _ H8).
    + exact (campo_item_Ok _ _ _ H19).
  - intros (d & p & -> & Hf & Hp & Hm). exact (construir_fila_oc_total d p Hf Hp Hm).
Qed.

(** X14: in a Row of a record [d], each copied column holds the field of
    the record, or the empty string when the record has no such field;
    each supplier and buyer column holds what [safe_get] finds along its
    path; the loop over [COLUMNAS] that ends the function changes
    nothing. *)
Theorem construir_fila_oc_copia (d : list (string * value)) (f : fila) :
  construir_fila_oc (VDict d) = Ok f ->
  Forall (fun cc => dict_get f (fst cc) = Some (default (VStr "") (dict_get d (snd cc))))
         columnas_copiadas
  /\ Forall (fun cr => dict_get f (fst cr) = Some (safe_get (VDict d) (snd cr)))
            columnas_ruta
  /\ dict_get f "Rut Proveedor" = Some (VStr (obtener_rut_proveedor (VDict d))).
Proof.
  intros H. apply construir_fila_oc_desglose in H.
  destruct H as (d' & p & m & f08 & f09 & f10 & fu & c19 & c20 & c21 & H).
  cbv zeta in H. destruct H as (E & _ & _ & _ & _ & _ & _ & _ & _ & _ & ->).
  injection E as <-.
  split; [|split]; [repeat constructor..|reflexivity].
Qed.

Lemma fecha_creacion_campo (d : list (string * value)) (fecha : date) :
  fecha_creacion_de (VDict d) = Some fecha ->
  exists df a,
    dict_get d "Fechas" = Some (VDict df)
    /\ df <> []
    /\ dict_get df "FechaCreacion" = Some a
    /\ parse_fecha_json a = Some fecha.
Proof.
  unfold fecha_creacion_de. cbn [safe_get].
  destruct (dict_get d "Fechas") as [[| | | |l|df]|]; try discriminate.
  destruct (dict_get df "FechaCreacion") as [a|] eqn:Ea; [|discriminate].
  intros H. exists df, a. split; [reflexivity|]. split; [|split; [exact Ea|]].
  - intros ->. discriminate.
  - destruct a; exact H.
Qed.

(** X15: a record gives a Row through the validity filter only when its
    creation date is read and lies in the window, both ends included; the
    Row is the projection of the record, and its column [Fecha Creación]
    shows that very date. *)
Theorem fila_vigente_fecha (desde_dt hasta_dt : date) (oc : value) (f : fila) :
  fila_si_vigente desde_dt hasta_dt oc = Ok (Some f) ->
  exists fecha,
    fecha_creacion_de oc = Some fecha
    /\ desde_dt <= fecha <= hasta_dt
    /\ construir_fila_oc oc = Ok f
    /\ dict_get f "Fecha Creación" = Some (VStr (strftime fecha)).
Proof.
  unfold fila_si_vigente. destruct (fecha_creacion_de oc) as [fecha|] eqn:Ef; [|discriminate].
  destruct (Z.ltb_spec fecha desde_dt) as [Hlo|Hlo]; [discriminate|].
  destruct (Z.gtb_spec fecha hasta_dt) as [Hhi|Hhi]; [discriminate|]. simpl.
  intros Hv. apply fmap_Ok in Hv as (f' & Hc & E). injection E as <-.
  exists fecha. split; [reflexivity|]. split; [lia|]. split; [exact Hc|].
  apply construir_fila_oc_desglose in Hc.
  destruct Hc as (d & p & m & f08 & f09 & f10 & fu & c19 & c20 & c21 & H').
  cbv zeta in H'. destruct H' as (-> & _ & _ & H8 & _ & _ & _ & _ & _ & _ & ->).
  apply fecha_creacion_campo in Ef as (df & a & E1 & Hne & E2 & E3).
  rewrite E1 in H8. simpl in H8. unfold py_or in H8.
  destruct df as [|kv df]; [contradiction|]. simpl in H8.
  simpl in E2. rewrite E2 in H8. apply Ok_inj in H8. subst f08.
  simpl. unfold formatear_fecha_salida. rewrite E3. reflexivity.
Qed.

End PropiedadesFila.

Lemma construir_fila_oc_copia_witness :
  exists f, construir_fila_oc (bib := biblioteca_ejemplo) registro_usual = Ok f
            /\ dict_get f "Código OC" = Some (VStr "A").
Proof.
  destruct (construir_fila_oc (bib := biblioteca_ejemplo) registro_usual) as [f|e] eqn:E;
    [|vm_compute in E; discriminate].
  exists f. split; [reflexivity|].
  exact (Forall_inv (proj1 (construir_fila_oc_copia (bib := biblioteca_ejemplo) _ f E))).
Defined.

Lemma fila_vigente_fecha_witness :
  exists f fecha,
    fila_si_vigente (bib := biblioteca_ejemplo) 738890 738891 registro_usual = Ok (Some f)
    /\ fecha_creacion_de (bib := biblioteca_ejemplo) registro_usual = Some fecha
    /\ 738890 <= fecha <= 738891.
Proof.
  destruct (fila_si_vigente (bib := biblioteca_ejemplo) 738890 738891 registro_usual)
    as [[f|]|e] eqn:E; [|vm_compute in E; discriminate..].
  destruct (fila_vigente_fecha (bib := biblioteca_ejemplo) _ _ _ f E) as (fecha & H1 & H2 & _).
  exists f, fecha. split; [reflexivity|]. split; [exact H1|exact H2].
Defined.

(** ** The blocks of the table *)

Lemma bloques_llenos_anexar (args : argumentos) (l : list fila) (s : sumidero) (f : fila) :
  1 <= batch_size args ->
  sumidero_tras (batch_size args) l s ->
  bloques_llenos (batch_size args) s ->
  bloques_llenos (batch_size args) (anexar args s f).
Proof.
  intros HB Hs Hb. unfold anexar.
  destruct (Z.geb_spec
              (Z.of_nat (length (filas_batch
                 {| escribir_header := escribir_header s;
                    filas_batch := filas_batch s ++ [f];
                    escritos := escritos s;
                    archivo := archivo s |}))) (batch_size args)) as [Hg|Hg];
    [|exact Hb].
  simpl in Hg. rewrite volcar_lleno
    by (simpl; intros E; apply app_eq_nil in E as [_ E]; discriminate).
  unfold bloques_llenos. simpl. apply Forall_app. split; [exact Hb|].
  constructor; [|constructor].
  rewrite filas_de_lineas_bloque.
  destruct (tras_cuenta _ _ _ Hs HB) as [Hm _].
  pose proof (Z.mod_pos_bound (Z.of_nat (length l)) (batch_size args) ltac:(lia)) as Hlt.
  rewrite length_app in Hg |- *. simpl in Hg |- *. lia.
Qed.

Lemma bloques_llenos_fold (args : argumentos) (filas : list fila) :
  1 <= batch_size args ->
  forall l s,
    sumidero_tras (batch_size args) l s ->
    bloques_llenos (batch_size args) s ->
    bloques_llenos (batch_size args) (fold_left (anexar args) filas s).
Proof.
  intros HB. induction filas as [|f filas IH]; intros l s Hs Hb; [exact Hb|].
  simpl. apply (IH (l ++ [f])).
  - apply sumidero_tras_anexar, Hs.
  - apply (bloques_llenos_anexar args l); assumption.
Qed.

Lemma bloques_tras_volcar (B : Z) (l : list fila) (s : sumidero) (bloques : list (list linea))
  (ultimo : list linea) :
  1 <= B ->
  sumidero_tras B l s ->
  bloques_llenos B s ->
  archivo (volcar s) = Some (bloques ++ [ultimo]) ->
  Forall (fun bloque => Z.of_nat (length (filas_de_lineas bloque)) = B) bloques
  /\ Z.of_nat (length (filas_de_lineas ultimo))
     = (if Z.eqb (Z.of_nat (length l) mod B) 0 then B else Z.of_nat (length l) mod B).
Proof.
  intros HB Hs Hb Ha. destruct (tras_cuenta _ _ _ Hs HB) as [Hm _].
  destruct (filas_batch s) as [|f0 lote] eqn:El.
  - rewrite volcar_vacio in Ha by exact El. unfold bloques_llenos in Hb.
    rewrite Ha in Hb. simpl in Hb. apply Forall_app in Hb as [Hb1 Hb2].
    split; [exact Hb1|]. simpl in Hm. rewrite <- Hm. simpl.
    exact (Forall_inv Hb2).
  - rewrite volcar_lleno in Ha by (rewrite El; discriminate). simpl in Ha.
    injection Ha as Ha. apply app_inj_tail in Ha as [<- <-].
    split; [exact Hb|]. rewrite filas_de_lineas_bloque, <- Hm, El.
    destruct (Z.eqb_spec (Z.of_nat (length (f0 :: lote))) 0) as [E|E]; [|reflexivity].
    simpl in E. lia.
Qed.

Lemma anexar_inmediato (args : argumentos) (s : sumidero) (f : fila) :
  batch_size args <= 1 ->
  filas_batch s = [] ->
  anexar args s f
  = {| escribir_header := false;
       filas_batch := [];
       escritos := (escritos s + 1)%nat;
       archivo := Some (default [] (archivo s)
                        ++ [(if escribir_header s then [Cabecera COLUMNAS] else [])
                            ++ [Registro f]]) |}.
Proof.
  intros HB El. unfold anexar. rewrite El. simpl.
  destruct (Z.geb_spec (Z.of_nat 1) (batch_size args)); [reflexivity|lia].
Qed.

Lemma fold_inmediato (args : argumentos) (filas : list fila) :
  batch_size args <= 1 ->
  forall s,
    filas_batch s = [] ->
    filas_batch (fold_left (anexar args) filas s) = []
    /\ map filas_de_lineas (default [] (archivo (fold_left (anexar args) filas s)))
       = map filas_de_lineas (default [] (archivo s)) ++ map (fun f => [f]) filas.
Proof.
  intros HB. induction filas as [|f filas IH]; intros s El.
  - simpl. rewrite app_nil_r. split; [exact El|reflexivity].
  - cbn [fold_left]. rewrite (anexar_inmediato args s f HB El).
    destruct (IH {| escribir_header := false;
                    filas_batch := [];
                    escritos := (escritos s + 1)%nat;
                    archivo := Some (default [] (archivo s)
                                     ++ [(if escribir_header s then [Cabecera COLUMNAS] else [])
                                         ++ [Registro f]]) |} eq_refl) as [H1 H2].
    split; [exact H1|]. rewrite H2. cbn [archivo default from_option id]. rewrite map_app.
    cbn [map]. change [Registro f] with (map Registro [f]).
    rewrite (filas_de_lineas_bloque (escribir_header s) [f]).
    rewrite <- app_assoc. reflexivity.
Qed.

Section PropiedadesBloques.

Context {bib : Biblioteca}.

(** X16: in a run that returns, with batch size B >= 1 and M accepted
    rows, every block appended to the file but the last holds exactly B
    rows, and the last holds M mod B rows, or B when B divides M: no block
    is empty and none holds more than B rows. *)
Theorem bloques_de_lote (srv : servicio) (plan : planificador) (codigos : list value)
  (args : argumentos) (desde_dt hasta_dt : date) (previo : option tabla)
  (bloques : list (list linea)) (ultimo : list linea) :
  1 <= batch_size args ->
  let fin := descargar_detalle_y_escribir srv plan codigos args desde_dt hasta_dt previo in
  escapada fin = None ->
  archivo (sumidero_final fin) = Some (bloques ++ [ultimo]) ->
  let filas := filas_aceptadas srv args desde_dt hasta_dt
                 (orden_de (completadas_detalle plan) args codigos) in
  let M := Z.of_nat (length filas) in
  let B := batch_size args in
  Forall (fun bloque => Z.of_nat (length (filas_de_lineas bloque)) = B) bloques
  /\ Z.of_nat (length (filas_de_lineas ultimo)) = (if Z.eqb (M mod B) 0 then B else M mod B).
Proof.
  intros HB fin Hesc Ha filas M B. unfold fin in Ha.
  rewrite (descargar_retorna srv plan codigos args desde_dt hasta_dt previo Hesc) in Ha.
  apply (bloques_tras_volcar B filas _ bloques ultimo HB) in Ha; [exact Ha| |].
  - apply (sumidero_tras_fold args _ []), sumidero_tras_inicial.
  - apply (bloques_llenos_fold args _ HB []); [apply sumidero_tras_inicial|].
    unfold bloques_llenos. simpl. destruct previo; constructor.
Qed.

(** X17: with a batch size of 1 or less (zero and negative sizes
    included), a run that returns writes every accepted row as soon as it
    is accepted: the file is appended to once per row, each block holding
    that one row, in the order of acceptance. *)
Theorem lote_minimo (srv : servicio) (plan : planificador) (codigos : list value)
  (args : argumentos) (desde_dt hasta_dt : date) (previo : option tabla) :
  batch_size args <= 1 ->
  let fin := descargar_detalle_y_escribir srv plan codigos args desde_dt hasta_dt previo in
  escapada fin = None ->
  map filas_de_lineas (default [] (archivo (sumidero_final fin)))
  = map (fun f => [f])
        (filas_aceptadas srv args desde_dt hasta_dt
           (orden_de (completadas_detalle plan) args codigos)).
Proof.
  intros HB fin Hesc. unfold fin.
  rewrite (descargar_retorna srv plan codigos args desde_dt hasta_dt previo Hesc).
  destruct (fold_inmediato args
              (filas_aceptadas srv args desde_dt hasta_dt
                 (orden_de (completadas_detalle plan) args codigos))
              HB (sumidero_inicial previo) eq_refl) as [H1 H2].
  rewrite volcar_vacio by exact H1. rewrite H2.
  destruct previo; reflexivity.
Qed.

End PropiedadesBloques.

Lemma bloques_de_lote_witness :
  exists bloques ultimo,
    archivo (sumidero_final
      (descargar_detalle_y_escribir (bib := biblioteca_ejemplo) servicio_usual en_orden
         [VStr "A"; VStr "B"] {| workers := 1; retries := 5; batch_size := 1 |}
         738890 738891 None))
    = Some (bloques ++ [ultimo])
    /\ Forall (fun bloque => Z.of_nat (length (filas_de_lineas bloque)) = 1) bloques
    /\ Z.of_nat (length (filas_de_lineas ultimo)) = 1.
Proof.
  eexists [_], _. split; [reflexivity|].
  refine (bloques_de_lote (bib := biblioteca_ejemplo) servicio_usual en_orden
            [VStr "A"; VStr "B"] {| workers := 1; retries := 5; batch_size := 1 |}
            738890 738891 None _ _ _ _ _).
  - simpl. lia.
  - reflexivity.
  - reflexivity.
Defined.

Lemma lote_minimo_witness :
  map filas_de_lineas
    (default []
       (archivo (sumidero_final
          (descargar_detalle_y_escribir (bib := biblioteca_ejemplo) servicio_usual en_orden
             [VStr "A"; VStr "B"] {| workers := 1; retries := 5; batch_size := 0 |}
             738890 738891 None))))
  = map (fun f => [f])
      (filas_aceptadas (bib := biblioteca_ejemplo) servicio_usual
         {| workers := 1; retries := 5; batch_size := 0 |} 738890 738891
         [VStr "A"; VStr "B"]).
Proof.
  apply (lote_minimo (bib := biblioteca_ejemplo) servicio_usual en_orden
           [VStr "A"; VStr "B"] {| workers := 1; retries := 5; batch_size := 0 |}
           738890 738891 None).
  - simpl. lia.
  - reflexivity.
Defined.

(** ** A sequential fetch that an exception ends *)

Section PropiedadesAborto.

Context {bib : Biblioteca}.

Lemma descargar_secuencial_aborta (srv : servicio) (args : argumentos)
  (desde_dt hasta_dt : date) (hechos : list value) (c : value) (pendientes : list value)
  (e : excepcion) :
  Forall (fun codigo => exists o,
            fst (procesar_detalle srv args desde_dt hasta_dt codigo) = Ok o) hechos ->
  fst (procesar_detalle srv args desde_dt hasta_dt c) = Raise e ->
  forall l s,
    sumidero_tras (batch_size args) l s ->
    Forall (fun f => csv_escribible f = true)
           (l ++ filas_aceptadas srv args desde_dt hasta_dt hechos) ->
    fst (descargar_secuencial srv args desde_dt hasta_dt (hechos ++ c :: pendientes) s)
    = (fold_left (anexar args) (filas_aceptadas srv args desde_dt hasta_dt hechos) s,
       Some e).
Proof.
  intros Hh Hc. induction Hh as [|codigo resto [o Ho] _ IH]; intros l s Hs Hl;
    cbn [app descargar_secuencial].
  - pose proof (iteracion_detalle_tarea srv args desde_dt hasta_dt s c) as Ht.
    rewrite Hc in Ht.
    destruct (iteracion_detalle _ _ _ _ s c) as [[s1 e1] t1]. cbn [fst] in Ht.
    injection Ht as -> ->. reflexivity.
  - pose proof (iteracion_detalle_tarea srv args desde_dt hasta_dt s codigo) as Ht.
    rewrite Ho in Ht. rewrite filas_aceptadas_cons, Ho in Hl |- *.
    destruct (iteracion_detalle _ _ _ _ s codigo) as [[s1 e1] t1]. cbn [fst] in Ht.
    destruct o as [f|]; simpl in Hl |- *.
    + rewrite (acumular_aceptada args l s f Hs) in Ht.
      * injection Ht as -> ->.
        specialize (IH (l ++ [f]) (anexar args s f) (sumidero_tras_anexar args l s f Hs)).
        rewrite <- app_assoc in IH. specialize (IH Hl).
        destruct (descargar_secuencial _ _ _ _ (resto ++ c :: pendientes) _)
          as [[fin' e'] t']. exact IH.
      * apply Forall_app in Hl as [H1 H2]. apply Forall_app. split; [exact H1|].
        constructor; [exact (Forall_inv H2)|constructor].
    + injection Ht as -> ->. specialize (IH l s Hs Hl).
      destruct (descargar_secuencial _ _ _ _ (resto ++ c :: pendientes) _)
        as [[fin' e'] t']. exact IH.
Qed.


Lemma fila_de_tarea_origen (srv : servicio) (args : argumentos) (desde_dt hasta_dt : date)
  (codigo : value) (f : fila) :
  fila_de_tarea (fst (procesar_detalle srv args desde_dt hasta_dt codigo)) = Some f ->
  exists r payload oc fecha,
    fst (request_with_retries (srv (PDetalle codigo)) (PDetalle codigo) (retries args))
    = Some r
    /\ status_code r = 200
    /\ json r = Some payload
    /\ primer_registro payload = Ok (Some oc)
    /\ fecha_creacion_de oc = Some fecha
    /\ desde_dt <= fecha <= hasta_dt
    /\ construir_fila_oc oc = Ok f.
Proof.
  unfold procesar_detalle. cbn [fst].
  destruct (fst (request_with_retries _ _ _)) as [r|] eqn:Er; [|discriminate].
  destruct (json r) as [payload|] eqn:Ej; [|discriminate].
  destruct (detalle_a_fila desde_dt hasta_dt payload) as [[f'|]|e] eqn:Ed; try discriminate.
  simpl. intros H. injection H as ->.
  unfold detalle_a_fila in Ed. apply bind_Ok in Ed as ([oc|] & Hp & Hv); [|discriminate].
  unfold fila_si_vigente in Hv.
  destruct (fecha_creacion_de oc) as [fecha|] eqn:Ef; [|discriminate].
  destruct (Z.ltb_spec fecha desde_dt) as [Hlo|Hlo]; [discriminate|].
  destruct (Z.gtb_spec fecha hasta_dt) as [Hhi|Hhi]; [discriminate|]. simpl in Hv.
  apply fmap_Ok in Hv as (f' & Hc & E). injection E as <-.
  exists r, payload, oc, fecha. split; [reflexivity|]. split.
  { unfold request_with_retries in Er.
    exact (proj1 (bucle_respuesta_200 _ _ _ r _ 0%nat 1 eq_refl Er)). }
  split; [exact Ej|]. split; [exact Hp|]. split; [exact Ef|]. split; [lia|exact Hc].
Qed.

(** X19: in a run that returns, every row of the table is the projection
    of a record that a task of the run received first in the listing of a
    response with status 200, and whose creation date was read and lies in
    the window, both ends included; no other row is written. *)
Theorem filas_escritas_vigentes (srv : servicio) (plan : planificador)
  (codigos : list value) (args : argumentos) (desde_dt hasta_dt : date)
  (previo : option tabla) (f : fila) :
  let fin := descargar_detalle_y_escribir srv plan codigos args desde_dt hasta_dt previo in
  escapada fin = None ->
  f ∈ filas_de (archivo (sumidero_final fin)) ->
  exists codigo r payload oc fecha,
    codigo ∈ orden_de (completadas_detalle plan) args codigos
    /\ fst (request_with_retries (srv (PDetalle codigo)) (PDetalle codigo) (retries args))
       = Some r
    /\ status_code r = 200
    /\ json r = Some payload
    /\ primer_registro payload = Ok (Some oc)
    /\ fecha_creacion_de oc = Some fecha
    /\ desde_dt <= fecha <= hasta_dt
    /\ construir_fila_oc oc = Ok f.
Proof.
  intros fin Hesc Hf. unfold fin in Hf.
  rewrite (filas_finales srv plan codigos args desde_dt hasta_dt previo Hesc) in Hf.
  unfold filas_aceptadas in Hf. apply list_elem_of_omap in Hf as (codigo & Hc & Ht).
  destruct (fila_de_tarea_origen _ _ _ _ _ _ Ht) as (r & payload & oc & fecha & H).
  exists codigo, r, payload, oc, fecha. split; [exact Hc|exact H].
Qed.

End PropiedadesAborto.


Lemma filas_escritas_vigentes_witness :
  exists f codigo fecha,
    f ∈ filas_de (archivo (sumidero_final
          (descargar_detalle_y_escribir (bib := biblioteca_ejemplo) servicio_usual en_orden
             [VStr "A"] args_secuencial 738890 738891 None)))
    /\ codigo ∈ [VStr "A"]
    /\ 738890 <= fecha <= 738891.
Proof.
  destruct (construir_fila_oc (bib := biblioteca_ejemplo) registro_usual) as [f|e] eqn:E;
    [|vm_compute in E; discriminate].
  assert (Hf : f ∈ filas_de (archivo (sumidero_final
          (descargar_detalle_y_escribir (bib := biblioteca_ejemplo) servicio_usual en_orden
             [VStr "A"] args_secuencial 738890 738891 None)))).
  { apply Ok_inj in E. rewrite <- E. apply list_elem_of_here. }
  destruct (filas_escritas_vigentes (bib := biblioteca_ejemplo) servicio_usual en_orden
              [VStr "A"] args_secuencial 738890 738891 None f eq_refl Hf)
    as (codigo & r & payload & oc & fecha & Hc & _ & _ & _ & _ & _ & Hv & _).
  exists f, codigo, fecha. split; [exact Hf|]. split; [exact Hc|exact Hv].
Defined.

(** ** What discovery returns *)

Lemma candidatos_ciertos (listado : list value) :
  forall acc res,
    para_cada candidato listado acc = Ok res ->
    Forall (fun c => truthy c = true) acc ->
    Forall (fun c => truthy c = true) res.
Proof.
  induction listado as [|registro resto IH]; intros acc res H Hacc; simpl in H.
  - apply Ok_inj in H. subst res. exact Hacc.
  - apply bind_Ok in H as (acc' & H1 & H). apply (IH acc' res H).
    unfold candidato in H1. apply bind_Ok in H1 as (c & _ & H1). apply Ok_inj in H1.
    subst acc'. destruct (truthy c) eqn:Ec; [|exact Hacc].
    apply Forall_app. split; [exact Hacc|]. constructor; [exact Ec|constructor].
Qed.

Lemma identificadores_ciertos (srv : servicio) (args : argumentos)
  (combinacion : date * string) :
  Forall (fun c => truthy c = true) (identificadores_de srv args combinacion).
Proof.
  unfold identificadores_de, procesar_listado. cbv zeta.
  destruct (fst (request_with_retries _ _ _)) as [r|]; [|constructor].
  destruct (json r) as [payload|]; [|constructor].
  destruct (listado_de payload) as [listado|e] eqn:El; simpl; [|constructor].
  destruct (para_cada candidato listado []) as [res|e] eqn:Ec; simpl; [|constructor].
  apply (candidatos_ciertos listado [] res Ec). constructor.
Qed.

Lemma para_cada_anotar_primeras (l : list value) :
  forall st st',
    para_cada anotar l st = Ok st' ->
    codigos st' = codigos st ++ primeras (vistos st) l.
Proof.
  induction l as [|c resto IH]; intros st st' H; simpl in H.
  - apply Ok_inj in H. subst st'. simpl. rewrite app_nil_r. reflexivity.
  - apply bind_Ok in H as (s1 & H1 & H). apply IH in H.
    unfold anotar in H1. apply bind_Ok in H1 as (k & Hk & H1). apply Ok_inj in H1.
    simpl. rewrite Hk. destruct (decide (k ∈ vistos st)); subst s1; [exact H|].
    simpl in H. rewrite H, <- app_assoc. reflexivity.
Qed.

Lemma request_sin_reintentos (session : nat -> intento) (params : peticion) (retries : Z) :
  retries <= 0 -> request_with_retries session params retries = (None, []).
Proof.
  intros H. unfold request_with_retries. rewrite bucle_reintentos_eq.
  destruct (decide (Z.of_nat 0 < retries)) as [Hlt|]; [|reflexivity].
  change (Z.of_nat 0) with 0 in Hlt. lia.
Qed.

(** X20: every identifier discovery returns is a value that is true and
    hashable: a non-empty string, a non-zero number or True; never the
    empty string, None, zero, a list or a dict. *)
Theorem identificadores_ciertos_y_hashables (srv : servicio) (plan : planificador)
  (organismos : list string) (desde_dt hasta_dt : date) (args : argumentos)
  (codigos_ : list value) :
  fst (listar_oc_por_rango srv plan organismos desde_dt hasta_dt args) = Ok codigos_ ->
  Forall (fun c => truthy c = true /\ exists k, clave_de c = Ok k) codigos_.
Proof.
  intros H. apply listar_oc_por_rango_fusiona in H as (st' & -> & H).
  destruct (para_cada_anotar_coherente _ _ _ coherente_inicial H) as (_ & Hk & _ & Hin).
  apply Forall_forall. intros c Hc. destruct (Hin c Hc) as [Hc'|Hc'].
  - simpl in Hc'. inversion Hc'.
  - split; [|exact (Hk c Hc')].
    apply list_elem_of_In, in_flat_map in Hc' as (comb & _ & Hc').
    pose proof (identificadores_ciertos srv args comb) as Hf.
    rewrite Forall_forall in Hf. apply Hf, list_elem_of_In, Hc'.
Qed.


(** X22: when a sequential discovery returns, a concurrent one whose tasks
    complete in the order of submission returns the very same list of
    identifiers, in the same order. *)
Theorem secuencial_como_concurrente_en_orden (srv : servicio) (plan plan' : planificador)
  (organismos : list string) (desde_dt hasta_dt : date) (args : argumentos) (w : Z)
  (codigos_ : list value) :
  workers args <= 1 ->
  1 < w ->
  completadas_listado plan' (combinaciones_de organismos desde_dt hasta_dt)
  = combinaciones_de organismos desde_dt hasta_dt ->
  fst (listar_oc_por_rango srv plan organismos desde_dt hasta_dt args) = Ok codigos_ ->
  fst (listar_oc_por_rango srv plan' organismos desde_dt hasta_dt
         {| workers := w; retries := retries args; batch_size := batch_size args |})
  = Ok codigos_.
Proof.
  intros Hw1 Hw2 Hplan H.
  pose proof (listar_oc_por_rango_Ok _ _ _ _ _ _ _ H) as Hmax.
  rewrite (listar_oc_por_rango_celdas _ plan _ _ _ _ Hmax) in H.
  rewrite (listar_oc_por_rango_celdas _ plan' _ _ _ _ Hmax). cbv zeta in *. simpl workers.
  destruct (Z.leb_spec (workers args) 1); [|lia].
  destruct (Z.leb_spec w 1); [lia|]. cbn [fst] in *.
  apply fmap_Ok in H as (st' & H & ->).
  apply listar_secuencial_fusiona in H.
  rewrite listar_concurrente_fusiona, Hplan.
  change (identificadores_de srv
            {| workers := w; retries := retries args; batch_size := batch_size args |})
    with (identificadores_de srv args).
  rewrite H. reflexivity.
Qed.

Section PropiedadesMain.

Context {bib : Biblioteca}.

Lemma sin_reintentos_sin_filas (srv : servicio) (args : argumentos)
  (desde_dt hasta_dt : date) (tareas : list value) :
  retries args <= 0 -> filas_aceptadas srv args desde_dt hasta_dt tareas = [].
Proof.
  intros H. induction tareas as [|codigo resto IH]; [reflexivity|].
  rewrite filas_aceptadas_cons. unfold procesar_detalle. cbv zeta.
  rewrite request_sin_reintentos by exact H. simpl. exact IH.
Qed.

Lemma sin_identificadores_lista_vacia (srv : servicio) (plan : planificador)
  (organismos : list string) (desde_dt hasta_dt : date) (args : argumentos) :
  hasta_dt < fecha_maxima ->
  (forall comb, fst (procesar_listado srv args comb) = Ok []) ->
  fst (listar_oc_por_rango srv plan organismos desde_dt hasta_dt args) = Ok [].
Proof.
  intros Hmax H.
  assert (Hid : forall l, flat_map (identificadores_de srv args) l = []).
  { induction l as [|comb l IH]; [reflexivity|]. simpl.
    unfold identificadores_de at 1. rewrite H. exact IH. }
  rewrite listar_oc_por_rango_celdas by lia. cbv zeta.
  destruct (Z.leb (workers args) 1); cbn [fst].
  - rewrite (listar_secuencial_retorna srv args _
               ltac:(apply Forall_forall; intros comb _; eauto)
               {| vistos := ∅; codigos := [] |} {| vistos := ∅; codigos := [] |}).
    + reflexivity.
    + rewrite Hid. reflexivity.
  - rewrite listar_concurrente_fusiona, Hid. reflexivity.
Qed.

(** X23: with [retries <= 0] and a valid range that ends before the last
    day of the calendar, in either mode, discovery returns no identifier
    and [main] ends with exit code 0 and no table, the table of an earlier
    run removed. *)
Theorem main_sin_reintentos (srv : servicio) (plan : planificador)
  (organismos : list string) (args : argumentos) (desde hasta : date)
  (previo : option tabla) :
  retries args <= 0 ->
  desde <= hasta ->
  hasta < fecha_maxima ->
  fst (listar_oc_por_rango srv plan organismos desde hasta args) = Ok []
  /\ main_con srv plan organismos args desde hasta previo = (0, None).
Proof.
  intros Hr Hd Hmax.
  assert (Hl : fst (listar_oc_por_rango srv plan organismos desde hasta args) = Ok []).
  { apply sin_identificadores_lista_vacia; [exact Hmax|]. intros comb.
    unfold procesar_listado. cbv zeta.
    rewrite request_sin_reintentos by exact Hr. reflexivity. }
  split; [exact Hl|]. unfold main_con.
  destruct (Z.ltb_spec hasta desde); [lia|]. rewrite Hl.
  assert (Hesc : escapada (descargar_detalle_y_escribir srv plan [] args desde hasta previo)
                 = None).
  { apply descargar_escribible.
    - intros _. apply Forall_forall. intros c _.
      unfold procesar_detalle. cbv zeta.
      rewrite request_sin_reintentos by exact Hr. simpl. eauto.
    - rewrite sin_reintentos_sin_filas by exact Hr. constructor. }
  rewrite Hesc.
  rewrite (descargar_retorna srv plan [] args desde hasta previo Hesc).
  rewrite sin_reintentos_sin_filas by exact Hr. simpl.
  destruct previo; reflexivity.
Qed.

(** X24: a concurrent run over a valid range that ends before the last
    day of the calendar, in which every listing task completes once, the
    identifiers the listing tasks return are hashable and every row a
    task gives can be written, ends with exit code 0, after rendering the
    spreadsheet when it left a table, or with exit code 1 and a table
    whose rendering raised: an exception raised inside a listing task or
    a detail task never makes the run fail. *)
Theorem concurrente_termina_bien (srv : servicio) (plan : planificador)
  (organismos : list string) (args : argumentos) (desde hasta : date)
  (previo : option tabla) :
  1 < workers args ->
  desde <= hasta ->
  hasta < fecha_maxima ->
  Permutation (completadas_listado plan (combinaciones_de organismos desde hasta))
              (combinaciones_de organismos desde hasta) ->
  (forall combinacion x,
     combinacion ∈ combinaciones_de organismos desde hasta ->
     x ∈ identificadores_de srv args combinacion ->
     exists k, clave_de x = Ok k) ->
  (forall c f, fst (procesar_detalle srv args desde hasta c) = Ok (Some f) ->
               csv_escribible f = true) ->
  let salida := main_con srv plan organismos args desde hasta previo in
  (fst salida = 0
   /\ forall t, snd salida = Some t -> generar_excel_desde_csv (filas_de (Some t)) = true)
  \/ exists t, salida = (1, Some t) /\ generar_excel_desde_csv (filas_de (Some t)) = false.
Proof.
  intros Hw Hd Hmax Hp Hk0 Hesc.
  assert (Hk : forall x, descubre srv args (combinaciones_de organismos desde hasta) x ->
                         exists k, clave_de x = Ok k).
  { intros x (comb & res & Hc & Hr & Hx). apply (Hk0 comb x Hc).
    unfold identificadores_de. rewrite Hr. exact Hx. }
  clear Hk0.
  unfold main_con.
  destruct (Z.ltb_spec hasta desde); [lia|].
  destruct (listar_oc_por_rango_retorna srv plan organismos desde hasta args Hp Hmax
              ltac:(intros; lia) Hk) as [cs ->].
  rewrite (descargar_escribible srv plan cs args desde hasta previo).
  - destruct (archivo _) as [t|];
      [|left; split; [reflexivity|intros t' Ht'; discriminate Ht']].
    destruct (generar_excel_desde_csv (filas_de (Some t))) eqn:E.
    + left. split; [reflexivity|]. intros t' Ht'. simpl in Ht'.
      apply Some_inj in Ht'. subst t'. exact E.
    + right. exists t. split; [reflexivity|exact E].
  - intros; lia.
  - apply aceptadas_escribibles. intros c f _. apply Hesc.
Qed.

(** A run that ends before the fetch phase starts, the range rejected or
    discovery left by an exception, ends with exit code 1 and leaves the
    file that was at the path as it was. *)
Lemma main_sin_descarga (srv : servicio) (plan : planificador) (organismos : list string)
  (args : argumentos) (desde hasta : date) (previo : option tabla) :
  (hasta < desde
   \/ exists e, fst (listar_oc_por_rango srv plan organismos desde hasta args) = Raise e) ->
  main_con srv plan organismos args desde hasta previo = (1, previo).
Proof.
  unfold main_con. intros [H|[e H]].
  - destruct (Z.ltb_spec hasta desde); [reflexivity|lia].
  - rewrite H. destruct (Z.ltb hasta desde); reflexivity.
Qed.

End PropiedadesMain.

Lemma identificadores_ciertos_y_hashables_witness :
  Forall (fun c => truthy c = true /\ exists k, clave_de c = Ok k) [VStr "A"; VStr "B"].
Proof.
  apply (identificadores_ciertos_y_hashables servicio_usual en_orden ["7271"]
           738890 738891 args_secuencial).
  vm_compute. reflexivity.
Defined.


Lemma secuencial_como_concurrente_en_orden_witness :
  fst (listar_oc_por_rango servicio_usual en_orden ["7271"] 738890 738891
         {| workers := 4; retries := 5; batch_size := 1000 |})
  = Ok [VStr "A"; VStr "B"].
Proof.
  apply (secuencial_como_concurrente_en_orden servicio_usual en_orden en_orden ["7271"]
           738890 738891 args_secuencial 4).
  - simpl. lia.
  - lia.
  - reflexivity.
  - vm_compute. reflexivity.
Defined.

Lemma main_sin_reintentos_witness :
  main_con (bib := biblioteca_ejemplo) servicio_usual en_orden ["7271"]
    {| workers := 1; retries := 0; batch_size := 1000 |} 738890 738891
    (Some [[Cabecera COLUMNAS]])
  = (0, None).
Proof.
  refine (proj2 (main_sin_reintentos (bib := biblioteca_ejemplo) servicio_usual en_orden
                   ["7271"] {| workers := 1; retries := 0; batch_size := 1000 |}
                   738890 738891 (Some [[Cabecera COLUMNAS]]) _ _ _)).
  - simpl. lia.
  - lia.
  - reflexivity.
Defined.

Lemma concurrente_termina_bien_witness :
  fst (main_con (bib := biblioteca_ejemplo) servicio_items_escalar al_reves ["7271"]
         args_concurrente 738890 738891 None) = 0.
Proof.
  destruct (concurrente_termina_bien (bib := biblioteca_ejemplo) servicio_items_escalar
              al_reves ["7271"] args_concurrente 738890 738891 None)
    as [[H _]|(t & _ & H)].
  - simpl. lia.
  - lia.
  - reflexivity.
  - apply (proj1 al_reves_valido).
  - intros comb x Hc Hx.
    assert (Hf : In x (flat_map (identificadores_de servicio_items_escalar args_concurrente)
                         (combinaciones_de ["7271"] 738890 738891))).
    { apply in_flat_map. exists comb. split; apply list_elem_of_In; assumption. }
    clear Hc Hx. vm_compute in Hf.
    repeat (destruct Hf as [<-|Hf]; [simpl; eauto|]). destruct Hf.
  - reflexivity.
  - exact H.
  - discriminate.
Defined.

Lemma modos_coinciden_witness :
  exists salida t1 t2,
    main_con (bib := biblioteca_ejemplo) servicio_usual al_reves ["7271"] args_secuencial
      738890 738891 None = (salida, t1)
    /\ main_con (bib := biblioteca_ejemplo) servicio_usual al_reves ["7271"]
         {| workers := 4; retries := 5; batch_size := 1000 |} 738890 738891 None
       = (salida, t2)
    /\ Permutation (filas_de t1) (filas_de t2).
Proof.
  pose proof (modos_coinciden (bib := biblioteca_ejemplo) servicio_usual al_reves ["7271"]
                args_secuencial 4 738890 738891 None) as H.
  cbv zeta in H. apply H; clear H.
  - simpl. lia.
  - lia.
  - exact al_reves_valido.
  - reflexivity.
  - reflexivity.
  - apply Forall_forall. intros comb Hc. apply list_elem_of_In in Hc. vm_compute in Hc.
    repeat (destruct Hc as [<-|Hc];
            [destruct (fst (procesar_listado servicio_usual args_secuencial _)) eqn:E;
             [eauto|vm_compute in E; discriminate]|]).
    destruct Hc.
  - intros comb x Hc Hx0.
    assert (Hx : In x (flat_map (identificadores_de servicio_usual args_secuencial)
                         (combinaciones_de ["7271"] 738890 738891))).
    { apply in_flat_map. exists comb. split; apply list_elem_of_In; assumption. }
    clear Hc Hx0. vm_compute in Hx.
    repeat (destruct Hx as [<-|Hx];
            [split; [eauto|];
             destruct (fst (procesar_detalle (bib := biblioteca_ejemplo) servicio_usual
                              args_secuencial 738890 738891 _)) as [o|e] eqn:E;
             [exists o; split; [reflexivity|reflexivity]|vm_compute in E; discriminate]|]).
    destruct Hx.
Defined.

(** ** Thread sessions *)

Lemma vaciar_app (pila cerradas_ : list nat) : vaciar pila cerradas_ = cerradas_ ++ pila.
Proof.
  revert cerradas_. induction pila as [|s pila IH]; intros c; simpl.
  - rewrite app_nil_r. reflexivity.
  - rewrite IH, <- app_assoc. reflexivity.
Qed.

Lemma hilos_coherentes_inicial : hilos_coherentes hilos_inicial.
Proof.
  split; [|split; [|split]]; simpl.
  - intros h1 h2 s H. rewrite lookup_empty in H. discriminate.
  - intros h s H. rewrite lookup_empty in H. discriminate.
  - constructor.
  - intros s. split; [lia|]. intros H. inversion H.
Qed.

Lemma hilos_coherentes_pide (hilo : nat) (st : hilos) :
  hilos_coherentes st -> hilos_coherentes (snd (_get_thread_session hilo st)).
Proof.
  intros (H1 & H2 & H3 & H4). unfold _get_thread_session.
  destruct (_THREAD_LOCAL st !! hilo) as [s0|] eqn:E; simpl; [repeat split; try assumption; apply H4|].
  assert (Hn : creadas st ∉ cerradas st ++ _SESSIONS st).
  { intros Hin. apply H4 in Hin. lia. }
  unfold hilos_coherentes. simpl. split; [|split; [|split]].
  - intros h1 h2 s. rewrite !lookup_insert_Some.
    intros [[<- <-]|[Hne1 Ha]] [[<- Hb]|[Hne2 Hb]]; try reflexivity.
    + apply H2 in Hb. lia.
    + subst s. apply H2 in Ha. lia.
    + exact (H1 _ _ _ Ha Hb).
  - intros h s. rewrite lookup_insert_Some. intros [[_ <-]|[_ Ha]]; [lia|].
    apply H2 in Ha. lia.
  - rewrite app_assoc. apply NoDup_app. split; [exact H3|]. split.
    + intros s Hs Hs'. apply list_elem_of_singleton in Hs'. subst s. exact (Hn Hs).
    + apply NoDup_singleton.
  - intros s. rewrite app_assoc, elem_of_app, list_elem_of_singleton, <- H4. lia.
Qed.

Lemma hilos_coherentes_cierra (st : hilos) :
  hilos_coherentes st -> hilos_coherentes (_close_thread_sessions st).
Proof.
  intros (H1 & H2 & H3 & H4). unfold _close_thread_sessions.
  split; [|split; [|split]]; simpl; try assumption.
  - rewrite vaciar_app, app_nil_r.
    apply NoDup_app in H3 as (Ha & Hb & Hc). apply NoDup_app.
    split; [exact Ha|]. split.
    + intros s Hs Hs'. rewrite elem_of_reverse in Hs'. exact (Hb s Hs Hs').
    + rewrite reverse_Permutation. exact Hc.
  - intros s. rewrite vaciar_app, app_nil_r, H4, !elem_of_app, elem_of_reverse.
    reflexivity.
Qed.

Lemma hilos_coherentes_ejecutar (llamadas : list llamada) :
  forall st, hilos_coherentes st -> hilos_coherentes (ejecutar llamadas st).
Proof.
  induction llamadas as [|l llamadas IH]; intros st H; [exact H|].
  simpl. apply IH. destruct l as [hilo|]; simpl.
  - apply hilos_coherentes_pide, H.
  - apply hilos_coherentes_cierra, H.
Qed.

Lemma sesion_conservada (llamadas : list llamada) (h s : nat) :
  forall st,
    _THREAD_LOCAL st !! h = Some s ->
    _THREAD_LOCAL (ejecutar llamadas st) !! h = Some s.
Proof.
  induction llamadas as [|l llamadas IH]; intros st H; [exact H|].
  simpl. apply IH. destruct l as [hilo|]; simpl; [|exact H].
  unfold _get_thread_session.
  destruct (_THREAD_LOCAL st !! hilo) as [s0|] eqn:E; simpl; [exact H|].
  rewrite lookup_insert_ne; [exact H|]. intros ->. congruence.
Qed.

Lemma sesion_tras_pedir (hilo : nat) (st : hilos) :
  _THREAD_LOCAL (snd (_get_thread_session hilo st)) !! hilo
  = Some (fst (_get_thread_session hilo st)).
Proof.
  unfold _get_thread_session.
  destruct (_THREAD_LOCAL st !! hilo) as [s0|] eqn:E; simpl; [exact E|].
  apply lookup_insert_eq.
Qed.

(** X26: whatever calls of the two helpers came before and come between,
    a thread is handed the same session at every call of
    [_get_thread_session], also after [_close_thread_sessions], and no
    other thread is ever handed that session. *)
Theorem sesion_por_hilo (antes despues : list llamada) (h h' : nat) :
  let st := ejecutar antes hilos_inicial in
  let st' := ejecutar despues (snd (_get_thread_session h st)) in
  fst (_get_thread_session h st') = fst (_get_thread_session h st)
  /\ (h' <> h -> fst (_get_thread_session h' st') <> fst (_get_thread_session h st)).
Proof.
  intros st st'.
  assert (Hc : hilos_coherentes st').
  { apply hilos_coherentes_ejecutar, hilos_coherentes_pide, hilos_coherentes_ejecutar,
      hilos_coherentes_inicial. }
  assert (Hs : _THREAD_LOCAL st' !! h = Some (fst (_get_thread_session h st))).
  { apply sesion_conservada, sesion_tras_pedir. }
  destruct Hc as (H1 & H2 & _ & _). split.
  - unfold _get_thread_session at 1. rewrite Hs. reflexivity.
  - intros Hne. unfold _get_thread_session at 1.
    destruct (_THREAD_LOCAL st' !! h') as [s'|] eqn:E; simpl.
    + intros ->. apply Hne. exact (H1 _ _ _ E Hs).
    + intros Heq. apply H2 in Hs. lia.
Qed.

(** X27: after any calls of the helpers, [_close_thread_sessions] leaves
    [_SESSIONS] empty and every session ever created closed, each once.
    A thread that had a session keeps it: its next call of
    [_get_thread_session] hands it that closed session and does not
    register it again. *)
Theorem cierre_de_sesiones (llamadas : list llamada) :
  let st := _close_thread_sessions (ejecutar llamadas hilos_inicial) in
  _SESSIONS st = []
  /\ NoDup (cerradas st)
  /\ (forall s, (s < creadas st)%nat <-> s ∈ cerradas st)
  /\ (forall h s,
        _THREAD_LOCAL st !! h = Some s ->
        fst (_get_thread_session h st) = s
        /\ s ∈ cerradas st
        /\ _SESSIONS (snd (_get_thread_session h st)) = []).
Proof.
  intros st.
  assert (Hc : hilos_coherentes st).
  { apply hilos_coherentes_cierra, hilos_coherentes_ejecutar, hilos_coherentes_inicial. }
  destruct Hc as (_ & H2 & H3 & H4).
  assert (E : _SESSIONS st = []) by reflexivity.
  rewrite E, app_nil_r in H3. split; [exact E|]. split; [exact H3|]. split.
  - intros s. rewrite H4, E, app_nil_r. reflexivity.
  - intros h s Hs. unfold _get_thread_session. rewrite Hs. simpl.
    split; [reflexivity|]. split; [|reflexivity].
    apply H2 in Hs. apply H4 in Hs. rewrite E, app_nil_r in Hs. exact Hs.
Qed.

Lemma sesion_por_hilo_witness :
  fst (_get_thread_session 1
         (ejecutar [Cierra] (snd (_get_thread_session 0 (ejecutar [] hilos_inicial)))))
  <> fst (_get_thread_session 0 (ejecutar [] hilos_inicial)).
Proof.
  refine (proj2 (sesion_por_hilo [] [Cierra] 0 1) _). lia.
Defined.

Lemma cierre_de_sesiones_witness :
  fst (_get_thread_session 0
         (_close_thread_sessions (ejecutar [Pide 0; Pide 1] hilos_inicial))) = 0%nat.
Proof.
  refine (proj1 (proj2 (proj2 (proj2 (cierre_de_sesiones [Pide 0; Pide 1]))) 0%nat 0%nat _)).
  vm_compute. reflexivity.
Defined.

Lemma rango_fechas_indice_witness :
  rango_fechas 738889 738891 !! 1%nat = Some 738890.
Proof.
  apply (proj2 (rango_fechas_indice 738889 738891 1 738890)). split; [reflexivity|lia].
Defined.

Lemma construir_fila_oc_retorna_sii_witness :
  exists f, construir_fila_oc (bib := biblioteca_ejemplo) registro_usual = Ok f.
Proof.
  apply (proj2 (construir_fila_oc_retorna_sii (bib := biblioteca_ejemplo) registro_usual)).
  exists [("Codigo", VStr "A");
          ("Nombre", VStr "Compra");
          ("Fechas", VDict [("FechaCreacion", VStr "2024-01-05")]);
          ("Items", VDict [("Listado", VList [VDict [("Categoria", VStr "Aseo")]])])],
         (VDict [("Categoria", VStr "Aseo")]).
  split; [reflexivity|]. split; [reflexivity|]. split; reflexivity.
Defined.
